(** * kal-apptokens-utils: a shallow embedding of the two app-token scripts

    [kaltura_app_token_manager.py] (Tool A) and [kapptokens.py] (Tool B)
    are embedded as Rocq functions.  Python values are a small inductive
    type, Python objects and dictionaries are finite maps from attribute
    names to values, and the scripts themselves run in a trace monad that
    records every remote call, every printed line and every raised
    exception.  The remote platform, the file system and the iteration
    order of Python sets are the environment of a run. *)

From Stdlib Require Import ZArith NArith Strings.Byte Ascii String List Lia Permutation.
From stdpp Require Import base option list strings pretty gmap.

Local Open Scope Z_scope.

(** ** Python values *)

Module Py.

(** What [argparse] and a flat JSON object can hold: [None], a bool, an
    int or a str.  A [string] stands for a Python [str] whose code points
    are below 256. *)
Inductive scalar :=
| SNone
| SBool (b : bool)
| SInt (z : Z)
| SStr (s : string).

(** An attribute of an SDK object: a scalar, a list of strings, or a
    member of one of the SDK's enumerations (kept by name). *)
Inductive pyval :=
| PScalar (v : scalar)
| PList (l : list string)
| PEnum (name : string).

Definition PNone : pyval := PScalar SNone.
Definition PStr (s : string) : pyval := PScalar (SStr s).

(** Truth value of [if v:] and [not v]. *)
Definition truthy (v : scalar) : bool :=
  match v with
  | SNone => false
  | SBool b => b
  | SInt z => negb (z =? 0)
  | SStr s => negb (String.eqb s "")
  end.

Definition truthy_val (v : pyval) : bool :=
  match v with
  | PScalar s => truthy s
  | PList l => match l with [] => false | _ => true end
  | PEnum _ => true
  end.

(** [str(v)], as used by f-strings and [str.format]. *)
Definition str (v : scalar) : string :=
  match v with
  | SNone => "None"
  | SBool true => "True"
  | SBool false => "False"
  | SInt z => pretty z
  | SStr s => s
  end.

Definition of_opt_str (o : option string) : scalar :=
  match o with Some s => SStr s | None => SNone end.

Definition of_opt_int (o : option Z) : scalar :=
  match o with Some z => SInt z | None => SNone end.

(** [sep.join(l)] *)
Definition join (sep : string) (l : list string) : string := String.concat sep l.

(** [c in s] for a one-character needle *)
Fixpoint contains_char (c : ascii) (s : string) : bool :=
  match s with
  | EmptyString => false
  | String d r => if Ascii.eqb c d then true else contains_char c r
  end.

(** [s.replace(c, new)] for a one-character pattern: every occurrence *)
Fixpoint replace (c : ascii) (new : string) (s : string) : string :=
  match s with
  | EmptyString => EmptyString
  | String d r =>
      if Ascii.eqb c d then new +:+ replace c new r
      else String d (replace c new r)
  end.

(** [needle in s] *)
Fixpoint contains (needle s : string) : bool :=
  String.prefix needle s
  || match s with
     | EmptyString => false
     | String _ r => contains needle r
     end.

(** [s.split(c)] for a one-character separator: never an empty list *)
Fixpoint split_aux (c : ascii) (s : string) (cur : string) : list string :=
  match s with
  | EmptyString => [String.rev cur]
  | String d r =>
      if Ascii.eqb c d then String.rev cur :: split_aux c r EmptyString
      else split_aux c r (String d cur)
  end.

Definition split (c : ascii) (s : string) : list string := split_aux c s EmptyString.

(** [s.lower()] on code points below 256: the ASCII capitals and the
    Latin-1 capitals U+00C0..U+00DE (U+00D7, the multiplication sign,
    apart) move up by 32. *)
Definition lower_char (c : ascii) : ascii :=
  let n := N_of_ascii c in
  if ((65 <=? n) && (n <=? 90))%N then ascii_of_N (n + 32)
  else if ((192 <=? n) && (n <=? 222) && negb (n =? 215))%N then ascii_of_N (n + 32)
  else c.

Fixpoint lower (s : string) : string :=
  match s with
  | EmptyString => EmptyString
  | String c r => String (lower_char c) (lower r)
  end.

End Py.

Import Py.

(** ** SHA-256 and the byte encodings of [str]

    [hashlib.sha256] and [str.encode] belong to the Python library, not
    to the scripts; they are written out here after FIPS 180-4 and the
    UTF-8 and ASCII codecs so that the handshake hash can be evaluated. *)

Module Sha256.

Definition add32 (a b : Z) : Z := (a + b) mod 2 ^ 32.
Definition rotr (n x : Z) : Z :=
  Z.lor (Z.shiftr x n) (Z.shiftl x (32 - n) mod 2 ^ 32).
Definition shr (n x : Z) : Z := Z.shiftr x n.
Definition not32 (x : Z) : Z := Z.lxor x 0xffffffff.

Definition Ch (x y z : Z) : Z := Z.lxor (Z.land x y) (Z.land (not32 x) z).
Definition Maj (x y z : Z) : Z :=
  Z.lxor (Z.lxor (Z.land x y) (Z.land x z)) (Z.land y z).
Definition Sigma0 (x : Z) : Z := Z.lxor (Z.lxor (rotr 2 x) (rotr 13 x)) (rotr 22 x).
Definition Sigma1 (x : Z) : Z := Z.lxor (Z.lxor (rotr 6 x) (rotr 11 x)) (rotr 25 x).
Definition sigma0 (x : Z) : Z := Z.lxor (Z.lxor (rotr 7 x) (rotr 18 x)) (shr 3 x).
Definition sigma1 (x : Z) : Z := Z.lxor (Z.lxor (rotr 17 x) (rotr 19 x)) (shr 10 x).

(** The round constants are the first 32 bits of the fractional parts of
    the cube roots of the first 64 primes, the initial hash value those of
    the square roots of the first 8. *)
Definition primes : list Z :=
  [2; 3; 5; 7; 11; 13; 17; 19; 23; 29; 31; 37; 41; 43; 47; 53; 59; 61; 67; 71;
   73; 79; 83; 89; 97; 101; 103; 107; 109; 113; 127; 131; 137; 139; 149; 151;
   157; 163; 167; 173; 179; 181; 191; 193; 197; 199; 211; 223; 227; 229; 233;
   239; 241; 251; 257; 263; 269; 271; 277; 281; 283; 293; 307; 311].

(** Integer cube root of [v], decided bit by bit below bit [n]. *)
Fixpoint cbrt_bits (n : nat) (v : Z) (x : Z) : Z :=
  match n with
  | O => x
  | S n' =>
      let y := x + 2 ^ Z.of_nat n' in
      cbrt_bits n' v (if y * y * y <=? v then y else x)
  end.

Definition K : list Z :=
  Eval vm_compute in (fun p => cbrt_bits 40 (p * 2 ^ 96) 0 mod 2 ^ 32) <$> primes.

Definition H0 : list Z :=
  Eval vm_compute in (fun p => Z.sqrt (p * 2 ^ 64) mod 2 ^ 32) <$> take 8 primes.

Definition byte_val (b : byte) : Z := Z.of_N (Byte.to_N b).

(** Padding: one 1 bit, zeros up to 56 modulo 64 bytes, then the length
    of the message in bits on eight big-endian bytes. *)
Fixpoint be_bytes (n : nat) (v : Z) : list Z :=
  match n with
  | O => []
  | S n' => (v / 2 ^ (8 * Z.of_nat n')) mod 256 :: be_bytes n' v
  end.

Definition pad (msg : list byte) : list Z :=
  let len := Z.of_nat (length msg) in
  (byte_val <$> msg) ++ [0x80]
    ++ replicate (Z.to_nat ((55 - len) mod 64)) 0
    ++ be_bytes 8 (8 * len).

Fixpoint be_words (fuel : nat) (bs : list Z) : list Z :=
  match fuel, bs with
  | S fuel', b0 :: b1 :: b2 :: b3 :: r =>
      (((b0 * 256 + b1) * 256 + b2) * 256 + b3) :: be_words fuel' r
  | _, _ => []
  end.

Fixpoint blocks (fuel : nat) (ws : list Z) : list (list Z) :=
  match fuel, ws with
  | _, [] => []
  | O, _ => []
  | S fuel', _ => take 16 ws :: blocks fuel' (drop 16 ws)
  end.

(** Message schedule: the window holds W[t..t+15]. *)
Fixpoint schedule (n : nat) (win : list Z) : list Z :=
  match n with
  | O => []
  | S n' =>
      let w := fun i => nth i win 0 in
      let new := add32 (add32 (add32 (sigma1 (w 14%nat)) (w 9%nat)) (sigma0 (w 1%nat))) (w 0%nat) in
      w 0%nat :: schedule n' (drop 1 win ++ [new])
  end.

Definition round (st : list Z) (kw : Z * Z) : list Z :=
  match st with
  | [a; b; c; d; e; f; g; h] =>
      let t1 := add32 (add32 (add32 (add32 h (Sigma1 e)) (Ch e f g)) (fst kw)) (snd kw) in
      let t2 := add32 (Sigma0 a) (Maj a b c) in
      [add32 t1 t2; a; b; c; add32 d t1; e; f; g]
  | _ => st
  end.

Definition compress (h : list Z) (block : list Z) : list Z :=
  zip_with add32 h (fold_left round (zip K (schedule 64 block)) h).

Definition state (msg : list byte) : list Z :=
  let bs := pad msg in
  fold_left compress (blocks (length bs) (be_words (length bs) bs)) H0.

(** The 256-bit digest as a number, most significant word first. *)
Definition digest (msg : list byte) : Z :=
  fold_left (fun acc w => acc * 2 ^ 32 + w) (state msg) 0.

Definition hex_digit (d : Z) : ascii :=
  nth (Z.to_nat d) (list_ascii_of_string "0123456789abcdef") "0"%char.

Fixpoint to_hex (n : nat) (d : Z) (acc : string) : string :=
  match n with
  | O => acc
  | S n' => to_hex n' (d / 16) (String (hex_digit (d mod 16)) acc)
  end.

(** [hashlib.sha256(msg).hexdigest()] *)
Definition hexdigest (msg : list byte) : string := to_hex 64 (digest msg) "".

(** [s.encode('utf-8')] on code points below 256 *)
Definition utf8_char (c : ascii) : list byte :=
  let n := N_of_ascii c in
  if (n <? 128)%N then [byte_of_ascii c]
  else [byte_of_ascii (ascii_of_N (192 + n / 64));
        byte_of_ascii (ascii_of_N (128 + n mod 64))].

Fixpoint encode_utf8 (s : string) : list byte :=
  match s with
  | EmptyString => []
  | String c r => utf8_char c ++ encode_utf8 r
  end.

(** [s.encode('ascii')]: [None] stands for [UnicodeEncodeError] *)
Fixpoint encode_ascii (s : string) : option (list byte) :=
  match s with
  | EmptyString => Some []
  | String c r =>
      if (N_of_ascii c <? 128)%N
      then cons (byte_of_ascii c) <$> encode_ascii r
      else None
  end.

End Sha256.

(** ** The world of a run: remote calls, output, exceptions *)

Module World.

(** A [KalturaAppToken] (and any SDK object) is its attribute dictionary;
    an attribute that was never set reads as [None]. *)
Abbreviation AppToken := (gmap string pyval).

Definition attr (o : AppToken) (name : string) : pyval := default PNone (o !! name).

(** The exceptions the scripts raise or let through.  The second field of
    [KalturaException] is the text [str(e)] gives. *)
Inductive exn :=
| Exception (msg : string)
| KalturaException (code : string) (text : string)
| KalturaClientException (text : string)
| KeyError (key : string)
| AttributeError (name : string)
| TypeError
| UnicodeEncodeError
| FileNotFoundError
| JSONDecodeError
| OSError.

Inductive outcome (A : Type) :=
| Ok (a : A)
| Raise (e : exn).
Arguments Ok {A} a.
Arguments Raise {A} e.

(** The operations of the remote API that the scripts consume. *)
Inductive call :=
| session_start (secret user_id : scalar) (type : pyval) (partner_id expiry privileges : scalar)
| session_startWidgetSession (widget_id : string)
| appToken_add (tok : AppToken)
| appToken_get (id : string)
| appToken_update (id : string) (tok : AppToken)
| appToken_delete (id : string)
| appToken_list
| appToken_startSession (id : pyval) (hash : string) (rest : list pyval).

(** What a call gives back: the [ks] of a session response, a token, the
    [objects] of a listing page, or nothing. *)
Definition resp (c : call) : Type :=
  match c with
  | session_start _ _ _ _ _ _ => scalar
  | session_startWidgetSession _ => scalar
  | appToken_add _ => AppToken
  | appToken_get _ => AppToken
  | appToken_update _ _ => AppToken
  | appToken_delete _ => unit
  | appToken_list => option (list AppToken)
  | appToken_startSession _ _ _ => scalar
  end.

Inductive frag :=
| FLit (s : string)
| FVal (v : pyval).

Inductive event :=
| Call (c : call)
| SetKs (ks : scalar)
| Print (line : list frag)
| PrintTokenTable (columns : Z) (objs : list AppToken).

(** [config.json]: missing, not JSON, or an object of scalar values. *)
Inductive file_state :=
| FileAbsent
| FileInvalid
| FileJson (cfg : gmap string scalar).

(** The environment of one run.  The remote platform answers a call from
    the events that came before it; [set_order] is the order in which
    [list(set(l))] enumerates the distinct members of [l]. *)
Record Env := {
  config_file : file_state;
  terminal_columns : option Z;
  set_order : list string -> list string;
  remote : list event -> forall c : call, outcome (resp c);
}.

Definition set_order_ok (f : list string -> list string) : Prop :=
  forall l, NoDup (f l) /\ (forall x, x ∈ f l <-> x ∈ l).

(** A computation extends the trace and returns or raises. *)
Definition M (A : Type) : Type := list event -> outcome A * list event.

Definition ret {A} (a : A) : M A := fun tr => (Ok a, tr).
Definition raise {A} (e : exn) : M A := fun tr => (Raise e, tr).
Definition bind {A B} (m : M A) (k : A -> M B) : M B :=
  fun tr =>
    match m tr with
    | (Ok a, tr') => k a tr'
    | (Raise e, tr') => (Raise e, tr')
    end.

(** [try: body except KalturaException as e: handler] *)
Definition except_KalturaException {A} (body : M A) (handler : string -> string -> M A) : M A :=
  fun tr =>
    match body tr with
    | (Raise (KalturaException code text), tr') => handler code text tr'
    | r => r
    end.

Definition emit (e : event) : M unit := fun tr => (Ok tt, tr ++ [e]).
Definition print (line : list frag) : M unit := emit (Print line).
Definition setKs (ks : scalar) : M unit := emit (SetKs ks).

Definition api (env : Env) (c : call) : M (resp c) :=
  fun tr => (remote env tr c, tr ++ [Call c]).

(** The methods of the SDK client, one per remote operation. *)
Module client.
Section Client.
Variable env : Env.
Definition session_start (secret user_id : scalar) (type : pyval)
    (partner_id expiry privileges : scalar) : M scalar :=
  api env (session_start secret user_id type partner_id expiry privileges).
Definition session_startWidgetSession (widget_id : string) : M scalar :=
  api env (session_startWidgetSession widget_id).
Definition appToken_add (tok : AppToken) : M AppToken := api env (appToken_add tok).
Definition appToken_get (id : string) : M AppToken := api env (appToken_get id).
Definition appToken_update (id : string) (tok : AppToken) : M AppToken :=
  api env (appToken_update id tok).
Definition appToken_delete (id : string) : M unit := api env (appToken_delete id).
Definition appToken_list : M (option (list AppToken)) := api env appToken_list.
Definition appToken_startSession (id : pyval) (hash : string) (rest : list pyval) : M scalar :=
  api env (appToken_startSession id hash rest).
End Client.
End client.

Definition getitem (d : gmap string scalar) (key : string) : M scalar :=
  match d !! key with
  | Some v => ret v
  | None => raise (KeyError key)
  end.

Definition get (d : gmap string scalar) (key : string) (dflt : scalar) : scalar :=
  default dflt (d !! key).

(** [ks + value] followed by [.encode]: two strings concatenate, two
    numbers add and then have no [encode], anything else does not add. *)
Definition concat_for_hash (ks : scalar) (value : pyval) : M string :=
  match ks, value with
  | SStr a, PScalar (SStr b) => ret (a +:+ b)
  | (SInt _ | SBool _), PScalar (SInt _ | SBool _) => raise (AttributeError "encode")
  | _, _ => raise TypeError
  end.

Definition calls (tr : list event) : list call :=
  omap (fun e => match e with Call c => Some c | _ => None end) tr.

End World.

Import World.

Declare Scope py_scope.
Notation "'let*' x ':=' c 'in' k" := (World.bind c (fun x => k))
  (at level 10, x name, c at level 100, k at level 200) : py_scope.
Notation "c ';;' k" := (World.bind c (fun _ => k))
  (at level 100, k at level 200, right associativity) : py_scope.
Local Open Scope py_scope.

(** ** Tool A: [kaltura_app_token_manager.py] *)

Module ToolA.

(** The namespace [setup_parser().parse_args()] returns: [type=str] and
    [type=int] options are [None] unless given, [store_true] flags are
    [False] unless given. *)
Module Args.
Record t := {
  edit : option string;
  sview : option string;
  download : option string;
  downloadasset : option string;
  editplaylist : option string;
  sviewplaylist : option string;
  edituser : option string;
  actionslimit : option Z;
  setrole : option string;
  iprestrict : option string;
  urirestrict : option string;
  enableentitlement : bool;
  disableentitlement : bool;
  disableentitlementforentry : option string;
  privacycontext : option string;
  enablecategorymoderation : bool;
  reftime : option Z;
  preview : option Z;
  sessionid : option string;
  description : option string;
  update : option string;
  list : bool;
  start_session : bool;
  delete : option string;
}.
End Args.

(** [getattr(args, name, None)] *)
Definition getattr (args : Args.t) (name : string) : scalar :=
  if String.eqb name "edit" then of_opt_str (Args.edit args)
  else if String.eqb name "sview" then of_opt_str (Args.sview args)
  else if String.eqb name "download" then of_opt_str (Args.download args)
  else if String.eqb name "downloadasset" then of_opt_str (Args.downloadasset args)
  else if String.eqb name "editplaylist" then of_opt_str (Args.editplaylist args)
  else if String.eqb name "sviewplaylist" then of_opt_str (Args.sviewplaylist args)
  else if String.eqb name "edituser" then of_opt_str (Args.edituser args)
  else if String.eqb name "actionslimit" then of_opt_int (Args.actionslimit args)
  else if String.eqb name "setrole" then of_opt_str (Args.setrole args)
  else if String.eqb name "iprestrict" then of_opt_str (Args.iprestrict args)
  else if String.eqb name "urirestrict" then of_opt_str (Args.urirestrict args)
  else if String.eqb name "enableentitlement" then SBool (Args.enableentitlement args)
  else if String.eqb name "disableentitlement" then SBool (Args.disableentitlement args)
  else if String.eqb name "disableentitlementforentry" then of_opt_str (Args.disableentitlementforentry args)
  else if String.eqb name "privacycontext" then of_opt_str (Args.privacycontext args)
  else if String.eqb name "enablecategorymoderation" then SBool (Args.enablecategorymoderation args)
  else if String.eqb name "reftime" then of_opt_int (Args.reftime args)
  else if String.eqb name "preview" then of_opt_int (Args.preview args)
  else if String.eqb name "sessionid" then of_opt_str (Args.sessionid args)
  else if String.eqb name "description" then of_opt_str (Args.description args)
  else if String.eqb name "update" then of_opt_str (Args.update args)
  else if String.eqb name "list" then SBool (Args.list args)
  else if String.eqb name "start_session" then SBool (Args.start_session args)
  else if String.eqb name "delete" then of_opt_str (Args.delete args)
  else SNone.

Definition handle_privilege (privilege_name : string) (value : scalar) : string :=
  if String.eqb privilege_name "list" then "list:*"
  else privilege_name +:+ ":" +:+ str value.

(** The keys of [PRIVILEGE_HANDLERS], in the order of the dictionary
    literal; every one of them is bound to [handle_privilege]. *)
Definition PRIVILEGE_NAMES : list string :=
  [ "edit"; "sview"; "list"; "download"; "downloadasset"; "editplaylist";
    "sviewplaylist"; "edituser"; "actionslimit"; "setrole"; "iprestrict";
    "urirestrict"; "enableentitlement"; "disableentitlement";
    "disableentitlementforentry"; "privacycontext";
    "enablecategorymoderation"; "reftime"; "preview"; "sessionid" ].

Definition PRIVILEGE_HANDLERS : list (string * (string -> scalar -> string))%type :=
  (fun name => (name, handle_privilege)) <$> PRIVILEGE_NAMES.

Definition build_privileges (args : Args.t) : string :=
  let privileges :=
    fold_left
      (fun privileges '(privilege, handler) =>
         let value := getattr args privilege in
         match value with
         | SNone => privileges
         | _ => privileges ++ [handler privilege value]
         end)
      PRIVILEGE_HANDLERS [] in
  join "," privileges.

(** The token an attribute adds to the privilege string: one per
    attribute that is not [None]. *)
Definition token (args : Args.t) (name : string) : option string :=
  match getattr args name with
  | SNone => None
  | value => Some (handle_privilege name value)
  end.

(** The namespace of a command line without any of these options. *)
Definition no_args : Args.t :=
  {| Args.edit := None; Args.sview := None; Args.download := None; Args.downloadasset := None;
     Args.editplaylist := None; Args.sviewplaylist := None; Args.edituser := None;
     Args.actionslimit := None; Args.setrole := None; Args.iprestrict := None;
     Args.urirestrict := None; Args.enableentitlement := false;
     Args.disableentitlement := false; Args.disableentitlementforentry := None;
     Args.privacycontext := None; Args.enablecategorymoderation := false;
     Args.reftime := None; Args.preview := None; Args.sessionid := None;
     Args.description := None; Args.update := None; Args.list := false;
     Args.start_session := false; Args.delete := None |}.

Section Run.
Variable env : Env.

Definition delete_app_token (app_token_id : string) : M unit :=
  except_KalturaException
    (client.appToken_delete env app_token_id ;;
     print [FLit "App Token with ID "; FVal (PStr app_token_id); FLit " has been deleted."])
    (fun _ e =>
       print [FLit "Error deleting App Token with ID "; FVal (PStr app_token_id);
              FLit ": "; FLit e]).

(** The layout of the table (column widths, [wrap_text]) is not part of
    the model: the rows are one output event. *)
Definition list_app_tokens : M unit :=
  except_KalturaException
    (let* objects := client.appToken_list env in
     match objects with
     | None | Some [] => print [FLit "No App Tokens found."]
     | Some objs =>
         match terminal_columns env with
         | None => raise OSError
         | Some columns => emit (PrintTokenTable columns objs)
         end
     end)
    (fun _ e => print [FLit "Failed to list App Tokens: "; FLit e]).

Definition start_app_token_session
    (partner_id : scalar) (app_token_id app_token_value : pyval) : M scalar :=
  let widget_id := "_" +:+ str partner_id in
  let* unprivileged_ks := client.session_startWidgetSession env widget_id in
  if negb (truthy unprivileged_ks)
  then raise (Exception "Failed to start an unprivileged session.")
  else
    setKs unprivileged_ks ;;
    let* message := concat_for_hash unprivileged_ks app_token_value in
    let token_hash := Sha256.hexdigest (Sha256.encode_utf8 message) in
    let* privileged_ks :=
      client.appToken_startSession env app_token_id token_hash
        [PStr ""; PEnum "KalturaSessionType.USER"; PScalar partner_id] in
    if negb (truthy privileged_ks)
    then raise (Exception "Failed to start a privileged session with the app token.")
    else
      setKs privileged_ks ;;
      ret privileged_ks.

Definition load_configuration : M (gmap string scalar) :=
  match config_file env with
  | FileJson config_data => ret config_data
  | FileAbsent => raise (Exception "Configuration file 'config.json' not found.")
  | FileInvalid => raise (Exception "Configuration file 'config.json' contains invalid JSON.")
  end.

(** Builds the client object; nothing is sent. *)
Definition initialize_client (config : gmap string scalar) : M unit :=
  let* _ := getitem config "PARTNER_ID" in
  let* _ := getitem config "KALTURA_SERVICE_URL" in
  ret tt.

Definition start_admin_session (config : gmap string scalar) : M scalar :=
  let admin_secret := get config "ADMIN_SECRET" SNone in
  let user_id := get config "USER_ID" (SStr "") in
  let partner_id := get config "PARTNER_ID" SNone in
  let expiry := get config "EXPIRY" (SInt 86400) in
  let privileges := get config "DEFAULT_ADMIN_PRIVILEGES" (SStr "") in
  except_KalturaException
    (let* ks := client.session_start env admin_secret user_id
                  (PEnum "KalturaSessionType.ADMIN") partner_id expiry privileges in
     print [FLit "KS: "; FVal (PScalar ks)] ;;
     ret ks)
    (fun _ e => raise (Exception ("Failed to start session: " +:+ e))).

Definition update_app_token
    (app_token_id : string) (privileges : string) (description : scalar)
    : M (option AppToken) :=
  except_KalturaException
    (let* app_token_to_update := client.appToken_get env app_token_id in
     let app_token_to_update :=
       if truthy (SStr privileges)
       then <["sessionPrivileges" := PStr privileges]> app_token_to_update
       else app_token_to_update in
     let app_token_to_update :=
       if truthy description
       then <["description" := PScalar description]> app_token_to_update
       else app_token_to_update in
     let* updated_app_token := client.appToken_update env app_token_id app_token_to_update in
     print [FLit "Updated App Token ID: "; FVal (attr updated_app_token "id")] ;;
     print [FLit "Updated App Token Description: "; FVal (attr updated_app_token "description")] ;;
     print [FLit "Updated App Token Session Privileges: ";
            FVal (attr updated_app_token "sessionPrivileges")] ;;
     ret (Some updated_app_token))
    (fun _ e =>
       print [FLit "Error updating App Token with ID "; FVal (PStr app_token_id);
              FLit ": "; FLit e] ;;
       ret None).

Definition create_app_token (privileges : string) (description : scalar)
    : M (option AppToken) :=
  except_KalturaException
    (let app_token : AppToken := ∅ in
     let app_token := <["description" := PScalar description]> app_token in
     let app_token := <["sessionPrivileges" := PStr privileges]> app_token in
     let app_token := <["sessionType" := PEnum "KalturaSessionType.USER"]> app_token in
     let app_token := <["hashType" := PEnum "KalturaAppTokenHashType.SHA256"]> app_token in
     let* new_app_token := client.appToken_add env app_token in
     print [FLit "Created New App Token ID: "; FVal (attr new_app_token "id")] ;;
     print [FLit "App Token Description: "; FVal (attr new_app_token "description")] ;;
     print [FLit "App Token Session Privileges: ";
            FVal (attr new_app_token "sessionPrivileges")] ;;
     ret (Some new_app_token))
    (fun _ e =>
       print [FLit "Error creating new App Token: "; FLit e] ;;
       ret None).

Definition process_app_token_arguments (args : Args.t) (config : gmap string scalar) : M unit :=
  let new_token_id := PNone in
  let new_token_value := PNone in
  let privileges := build_privileges args in
  let* new_token :=
    if truthy (of_opt_str (Args.update args))
    then
      update_app_token (default "" (Args.update args)) (build_privileges args)
                       (of_opt_str (Args.description args)) ;;
      ret (new_token_id, new_token_value)
    else
      let* new_app_token :=
        create_app_token (build_privileges args) (of_opt_str (Args.description args)) in
      match new_app_token with
      | Some new_app_token => ret (attr new_app_token "id", attr new_app_token "token")
      | None => ret (new_token_id, new_token_value)
      end in
  let '(new_token_id, new_token_value) := new_token in
  if Args.start_session args
  then
    if truthy_val new_token_id && truthy_val new_token_value
    then
      start_app_token_session (get config "PARTNER_ID" SNone) new_token_id new_token_value ;;
      ret tt
    else ret tt
  else ret tt.

Definition run_application (args : Args.t) : M unit :=
  let* config := load_configuration in
  initialize_client config ;;
  let* ks := start_admin_session config in
  setKs ks ;;
  if truthy (of_opt_str (Args.delete args))
  then delete_app_token (default "" (Args.delete args))
  else if Args.list args
  then list_app_tokens
  else process_app_token_arguments args config.

End Run.

End ToolA.


(** ** Tool B: [kapptokens.py] *)

Module ToolB.

Module Args.
Record t := {
  list : bool;
  actions : option string;
  update : option string;
  append : bool;
  description : option string;
  debug : bool;
}.
End Args.

Definition build_uri_privilege (list_actions : list string) : list string :=
  fold_left
    (fun uris action =>
       let uri :=
         if contains_char "*" action
         then "/api_v3/service/" +:+ replace "*" "*" (replace "." "/action/" action)
         else "/api_v3/service/" +:+ replace "." "/action/" action +:+ "/" in
       uris ++ [uri])
    list_actions [].

(** The append branch of [main] once [new_uris] is built: split,
    extend, [list(set(...))], join. *)
Definition append_privileges
    (order : list string -> list string) (sessionPrivileges : string)
    (new_uris : list string) : string :=
  let existing_uris := split "|" sessionPrivileges in
  let existing_uris := existing_uris ++ new_uris in
  let unique_uris := order existing_uris in
  "urirestrict:" +:+ join "|" unique_uris.

Section Run.
Variable env : Env.

Definition start_app_token_session
    (partner_id : scalar) (app_token_id app_token_value : pyval) : M scalar :=
  let widget_id := "_" +:+ str partner_id in
  let* unprivileged_ks := client.session_startWidgetSession env widget_id in
  if negb (truthy unprivileged_ks)
  then
    print [FLit "Failed to get an unprivileged ks."] ;;
    ret SNone
  else
    setKs unprivileged_ks ;;
    let* message := concat_for_hash unprivileged_ks app_token_value in
    match Sha256.encode_ascii message with
    | None => raise UnicodeEncodeError
    | Some bytes =>
        let hash_string := Sha256.hexdigest bytes in
        let* privileged_ks := client.appToken_startSession env app_token_id hash_string [] in
        setKs privileged_ks ;;
        ret privileged_ks
    end.

Definition print_token (app_token : AppToken) : M unit :=
  print [FLit "App Token ID: "; FVal (attr app_token "id")] ;;
  print [FLit "App Token Value: "; FVal (attr app_token "token")] ;;
  print [FLit "App Token Description: "; FVal (attr app_token "description")] ;;
  print [FLit "------"].

Fixpoint print_tokens (objects : list AppToken) : M unit :=
  match objects with
  | [] => ret tt
  | app_token :: rest => print_token app_token ;; print_tokens rest
  end.

Definition list_app_tokens : M unit :=
  let* objects := client.appToken_list env in
  match objects with
  | None => raise TypeError
  | Some objects => print_tokens objects
  end.

(** [with open('config.json') ...: json.load(f)], nothing caught *)
Definition read_config : M (gmap string scalar) :=
  match config_file env with
  | FileJson config_data => ret config_data
  | FileAbsent => raise FileNotFoundError
  | FileInvalid => raise JSONDecodeError
  end.

(** [build_uri_privilege(list_actions)] where [list_actions] may be [None] *)
Definition uris_of (list_actions : option (list string)) : M (list string) :=
  match list_actions with
  | Some l => ret (build_uri_privilege l)
  | None => raise TypeError
  end.

Definition set_description (args : Args.t) (app_token : AppToken) : AppToken :=
  if truthy (of_opt_str (Args.description args))
  then <["description" := PScalar (of_opt_str (Args.description args))]> app_token
  else app_token.

(** The update branch of [main]; [None] is the early [return] after an
    unknown token id. *)
Definition update_branch (args : Args.t) (list_actions : option (list string))
    : M (option (AppToken * list frag)) :=
  let update := default "" (Args.update args) in
  let* existing :=
    except_KalturaException
      (let* existing_app_token := client.appToken_get env update in
       ret (Some existing_app_token))
      (fun code text =>
         if String.eqb code "APP_TOKEN_ID_NOT_FOUND"
         then
           print [FLit "App Token ID "; FVal (PStr update);
                  FLit " not found. Please use a valid ID."] ;;
           ret None
         else raise (KalturaException code text)) in
  match existing with
  | None => ret None
  | Some existing_app_token =>
      let* sessionPrivileges :=
        if Args.append args
        then
          match attr existing_app_token "sessionPrivileges" with
          | PScalar (SStr s) =>
              let* new_uris := uris_of list_actions in
              ret (PStr (append_privileges (set_order env) s new_uris))
          | _ => raise (AttributeError "split")
          end
        else
          let* uris := uris_of list_actions in
          ret (PList uris) in
      let existing_app_token :=
        <["sessionPrivileges" := sessionPrivileges]> existing_app_token in
      let existing_app_token := set_description args existing_app_token in
      let* result := client.appToken_update env update existing_app_token in
      ret (Some (result, [FLit "Updated App Token ("; FVal (PStr update); FLit ")"]))
  end.

Definition add_branch (args : Args.t) (list_actions : option (list string))
    : M (option (AppToken * list frag)) :=
  let app_token : AppToken := ∅ in
  let app_token := <["sessionType" := PEnum "KalturaSessionType.USER"]> app_token in
  let* uris := uris_of list_actions in
  let app_token := <["sessionPrivileges" := PList uris]> app_token in
  let app_token := <["hashType" := PStr "SHA256"]> app_token in
  let app_token := set_description args app_token in
  let* result := client.appToken_add env app_token in
  ret (Some (result, [FLit "New App Token ID ("; FVal (attr result "id"); FLit ")"])).

(** [--debug] only installs a logger and is left out. *)
Definition main (args : Args.t) : M unit :=
  if (truthy (of_opt_str (Args.update args)) || negb (Args.list args))
     && negb (truthy (of_opt_str (Args.actions args)))
  then print [FLit "The --actions argument is mandatory when adding or updating an App Token."]
  else
    let list_actions :=
      match Args.actions args with
      | Some actions =>
          if truthy (SStr actions) then Some (split "," (lower actions)) else None
      | None => None
      end in
    let* config_data := read_config in
    let* PARTNER_ID := getitem config_data "PARTNER_ID" in
    let* ADMIN_SECRET := getitem config_data "ADMIN_SECRET" in
    let* SCRIPT_USER_ID := getitem config_data "SCRIPT_USER_ID" in
    let* ADMIN_SESSION_EXPIRY := getitem config_data "ADMIN_SESSION_EXPIRY" in
    let* KALTURA_SERVICE_URL := getitem config_data "KALTURA_SERVICE_URL" in
    let* ks := client.session_start env ADMIN_SECRET SCRIPT_USER_ID
                 (PEnum "KalturaSessionType.ADMIN") PARTNER_ID ADMIN_SESSION_EXPIRY (SStr "") in
    setKs ks ;;
    if Args.list args
    then list_app_tokens
    else
      let* outcome :=
        if truthy (of_opt_str (Args.update args))
        then update_branch args list_actions
        else add_branch args list_actions in
      match outcome with
      | None => ret tt
      | Some (result, print_text_prefix) =>
          let app_token_id := attr result "id" in
          let app_token_value := attr result "token" in
          let session_privileges := attr result "sessionPrivileges" in
          print (print_text_prefix ++ [FLit "Value: "; FVal app_token_value]) ;;
          print (print_text_prefix ++ [FLit "Privileges: "; FVal session_privileges]) ;;
          let* token_ks := start_app_token_session PARTNER_ID app_token_id app_token_value in
          print [FLit "Gen KS from this AppToken: "; FVal (PScalar token_ks)]
      end.

End Run.

End ToolB.


(** ** Sample runs *)

Module Samples.

(** [--edit 123] *)
Definition edit_123 : ToolA.Args.t :=
  {| ToolA.Args.edit := Some "123"; ToolA.Args.sview := None;
     ToolA.Args.download := None; ToolA.Args.downloadasset := None;
     ToolA.Args.editplaylist := None; ToolA.Args.sviewplaylist := None;
     ToolA.Args.edituser := None; ToolA.Args.actionslimit := None;
     ToolA.Args.setrole := None; ToolA.Args.iprestrict := None;
     ToolA.Args.urirestrict := None; ToolA.Args.enableentitlement := false;
     ToolA.Args.disableentitlement := false;
     ToolA.Args.disableentitlementforentry := None;
     ToolA.Args.privacycontext := None;
     ToolA.Args.enablecategorymoderation := false;
     ToolA.Args.reftime := None; ToolA.Args.preview := None;
     ToolA.Args.sessionid := None; ToolA.Args.description := None;
     ToolA.Args.update := None; ToolA.Args.list := false;
     ToolA.Args.start_session := false; ToolA.Args.delete := None |}.

(** Tool A command lines over [edit_123]. *)
Definition with_commands (update : option string) (list start_session : bool)
    (delete : option string) : ToolA.Args.t :=
  {| ToolA.Args.edit := Some "123"; ToolA.Args.sview := None;
     ToolA.Args.download := None; ToolA.Args.downloadasset := None;
     ToolA.Args.editplaylist := None; ToolA.Args.sviewplaylist := None;
     ToolA.Args.edituser := None; ToolA.Args.actionslimit := None;
     ToolA.Args.setrole := None; ToolA.Args.iprestrict := None;
     ToolA.Args.urirestrict := None; ToolA.Args.enableentitlement := false;
     ToolA.Args.disableentitlement := false;
     ToolA.Args.disableentitlementforentry := None;
     ToolA.Args.privacycontext := None;
     ToolA.Args.enablecategorymoderation := false;
     ToolA.Args.reftime := None; ToolA.Args.preview := None;
     ToolA.Args.sessionid := None; ToolA.Args.description := None;
     ToolA.Args.update := update; ToolA.Args.list := list;
     ToolA.Args.start_session := start_session; ToolA.Args.delete := delete |}.

(** [--update 1_abc --start_session] *)
Definition update_and_start : ToolA.Args.t := with_commands (Some "1_abc") false true None.
(** [--edit 123 --start_session] *)
Definition create_and_start : ToolA.Args.t := with_commands None false true None.
(** [--list] *)
Definition list_only : ToolA.Args.t := with_commands None true false None.

(** Tool B command lines. *)
Definition b_args (list : bool) (actions update : option string) (append : bool)
    : ToolB.Args.t :=
  {| ToolB.Args.list := list; ToolB.Args.actions := actions;
     ToolB.Args.update := update; ToolB.Args.append := append;
     ToolB.Args.description := None; ToolB.Args.debug := false |}.

(** A stored token. *)
Definition token_1 : AppToken :=
  <["id" := PStr "1_abc"]>
  (<["token" := PStr "s3cr3t"]>
  (<["description" := PStr "old"]>
  (<["sessionPrivileges" := PStr "urirestrict:/a|/b"]>
  (<["sessionType" := PEnum "KalturaSessionType.USER"]>
  (<["hashType" := PEnum "KalturaAppTokenHashType.SHA256"]>
  (<["sessionDuration" := PScalar (SInt 86400)]> ∅)))))).

(** A platform that stores what it is sent and answers every call. *)
Definition echo (widget_ks privileged_ks : scalar) (add : AppToken -> outcome AppToken)
    (tr : list event) (c : call) : outcome (resp c) :=
  match c with
  | session_start _ _ _ _ _ _ => Ok (SStr "admin-ks")
  | session_startWidgetSession _ => Ok widget_ks
  | appToken_add tok => add tok
  | appToken_get _ => Ok token_1
  | appToken_update _ tok => Ok tok
  | appToken_delete _ => Ok tt
  | appToken_list => Ok (Some [token_1])
  | appToken_startSession _ _ _ => Ok privileged_ks
  end.

Definition add_ok (tok : AppToken) : outcome AppToken :=
  Ok (<["id" := PStr "1_new"]> (<["token" := PStr "v4lue"]> tok)).

Definition add_refused (tok : AppToken) : outcome AppToken :=
  Raise (KalturaException "SERVICE_FORBIDDEN" "The access to service is forbidden (SERVICE_FORBIDDEN)").

Definition config_1 : gmap string scalar :=
  <["PARTNER_ID" := SInt 12345]>
  (<["ADMIN_SECRET" := SStr "adm1n"]>
  (<["KALTURA_SERVICE_URL" := SStr "https://www.kaltura.com"]>
  (<["SCRIPT_USER_ID" := SStr "script"]>
  (<["ADMIN_SESSION_EXPIRY" := SInt 86400]> ∅)))).

(** [config_1] without its [ADMIN_SECRET]. *)
Definition config_no_secret : gmap string scalar :=
  <["PARTNER_ID" := SInt 12345]>
  (<["KALTURA_SERVICE_URL" := SStr "https://www.kaltura.com"]> ∅).

(** [config_1] with only its [PARTNER_ID]. *)
Definition config_no_url : gmap string scalar :=
  <["PARTNER_ID" := SInt 12345]> ∅.

Definition world (file : file_state) (remote : list event -> forall c : call, outcome (resp c))
    : Env :=
  {| config_file := file; terminal_columns := Some 120;
     set_order := remove_dups; remote := remote |}.

Definition env_ok : Env :=
  world (FileJson config_1) (echo (SStr "widget-ks") (SStr "privileged-ks") add_ok).
Definition env_add_refused : Env :=
  world (FileJson config_1) (echo (SStr "widget-ks") (SStr "privileged-ks") add_refused).
Definition env_no_widget_ks : Env :=
  world (FileJson config_1) (echo SNone (SStr "privileged-ks") add_ok).
Definition env_no_privileged_ks : Env :=
  world (FileJson config_1) (echo (SStr "widget-ks") (SStr "") add_ok).
Definition env_no_config : Env :=
  world FileAbsent (echo (SStr "widget-ks") (SStr "privileged-ks") add_ok).
Definition env_bad_config : Env :=
  world FileInvalid (echo (SStr "widget-ks") (SStr "privileged-ks") add_ok).
Definition env_no_secret : Env :=
  world (FileJson config_no_secret) (echo (SStr "widget-ks") (SStr "privileged-ks") add_ok).
Definition env_empty_config : Env :=
  world (FileJson ∅) (echo (SStr "widget-ks") (SStr "privileged-ks") add_ok).
Definition env_no_url : Env :=
  world (FileJson config_no_url) (echo (SStr "widget-ks") (SStr "privileged-ks") add_ok).

End Samples.

(** ** Vocabulary of the properties *)

Module Spec.

(** The remote calls of a listing run: none when the configuration does
    not load, the admin session start alone when it fails, otherwise the
    session start followed by the one listing call. *)
Definition listing_only (l : list call) : Prop :=
  l = []
  \/ (exists secret user_id type partner_id expiry privileges,
        l = [session_start secret user_id type partner_id expiry privileges])
  \/ (exists secret user_id type partner_id expiry privileges,
        l = [session_start secret user_id type partner_id expiry privileges; appToken_list]).

(** A computation only ever appends to the trace. *)
Definition extends {A} (m : M A) : Prop :=
  forall tr, exists l, (m tr).2 = tr ++ l.

(** The two calls of the session escalation handshake. *)
Definition handshake_call (c : call) : bool :=
  match c with
  | session_startWidgetSession _ | appToken_startSession _ _ _ => true
  | _ => false
  end.

(** The [sessionPrivileges] of the tokens submitted by add and update
    calls. *)
Definition submitted_privileges (l : list call) : list (option pyval) :=
  omap (fun c =>
          match c with
          | appToken_add tok | appToken_update _ tok => Some (tok !! "sessionPrivileges")
          | _ => None
          end) l.

(** The path [build_uri_privilege] makes of one action. *)
Definition uri_of (action : string) : string :=
  if contains_char "*" action
  then "/api_v3/service/" +:+ replace "*" "*" (replace "." "/action/" action)
  else "/api_v3/service/" +:+ replace "." "/action/" action +:+ "/".

(** The proof-of-possession hash of the handshake: SHA-256 over the
    UTF-8 bytes of the unprivileged session string followed by the token
    value, in hexadecimal. *)
Definition handshake_hash (unprivileged_ks app_token_value : string) : string :=
  Sha256.hexdigest (Sha256.encode_utf8 (unprivileged_ks +:+ app_token_value)).

(** A 32-bit word. *)
Definition word (w : Z) : Prop := 0 <= w < 2 ^ 32.

(** The string of [n] letters a. *)
Fixpoint letters (n : nat) : string :=
  match n with
  | O => EmptyString
  | S n' => String "a" (letters n')
  end.

(** The calls that create, change or remove an app token. *)
Definition mutates (c : call) : bool :=
  match c with
  | appToken_add _ | appToken_update _ _ | appToken_delete _ => true
  | _ => false
  end.

(** What is left of [s] once the prefix [p] is taken off; [None] when [s]
    does not start with [p]. *)
Fixpoint strip_prefix (p s : string) : option string :=
  match p, s with
  | EmptyString, _ => Some s
  | String a p', String b s' => if Ascii.eqb a b then strip_prefix p' s' else None
  | String _ _, EmptyString => None
  end.

(** The URIs a privilege string of the form [urirestrict:u1|...|un]
    restricts a session to: the pieces between the bars, after the
    prefix.  [None] for a string without the prefix. *)
Definition uris_of_restriction (privileges : string) : option (list string) :=
  match strip_prefix "urirestrict:" privileges with
  | Some uris => Some (split "|" uris)
  | None => None
  end.

End Spec.

(** ** Tool A: the word-wrap helper of the listing *)

Module Wrap.

(** [range(start, stop, step)]; [None] stands for the [ValueError] of a
    zero step. *)
Fixpoint range_up (fuel : nat) (i stop step : Z) : list Z :=
  match fuel with
  | O => []
  | S fuel' => if i <? stop then i :: range_up fuel' (i + step) stop step else []
  end.

Fixpoint range_down (fuel : nat) (i stop step : Z) : list Z :=
  match fuel with
  | O => []
  | S fuel' => if stop <? i then i :: range_down fuel' (i + step) stop step else []
  end.

Definition range (start stop step : Z) : option (list Z) :=
  if step =? 0 then None
  else if 0 <? step then Some (range_up (Z.to_nat (stop - start)) start stop step)
  else Some (range_down (Z.to_nat (start - stop)) start stop step).

(** [text[i:j]]: a negative index counts from the end, and both ends are
    cut to the text. *)
Definition clamp (len k : Z) : Z :=
  if k <? 0 then Z.max 0 (k + len) else Z.min k len.

Definition slice (text : string) (i j : Z) : string :=
  let len := Z.of_nat (String.length text) in
  let a := clamp len i in
  let b := clamp len j in
  String.substring (Z.to_nat a) (Z.to_nat (b - a)) text.

Definition wrap_text (text : string) (width : Z) : option (list string) :=
  match range 0 (Z.of_nat (String.length text)) width with
  | Some indices => Some (map (fun i => slice text i (i + width)) indices)
  | None => None
  end.

End Wrap.

(** ** More vocabulary *)

Module Behaviour.

(** No [KalturaException] escapes the computation. *)
Definition contains_platform_errors {A} (m : M A) : Prop :=
  forall tr code text, (m tr).1 <> Raise (KalturaException code text).

(** The remote calls of a delete run. *)
Definition deleting_only (id : string) (l : list call) : Prop :=
  l = []
  \/ (exists secret user_id type partner_id expiry privileges,
        l = [session_start secret user_id type partner_id expiry privileges])
  \/ (exists secret user_id type partner_id expiry privileges,
        l = [session_start secret user_id type partner_id expiry privileges;
             appToken_delete id]).

(** The admin session request Tool A makes of a configuration. *)
Definition admin_session_A (config : gmap string scalar) : call :=
  session_start (get config "ADMIN_SECRET" SNone) (get config "USER_ID" (SStr ""))
    (PEnum "KalturaSessionType.ADMIN") (get config "PARTNER_ID" SNone)
    (get config "EXPIRY" (SInt 86400)) (get config "DEFAULT_ADMIN_PRIVILEGES" (SStr "")).

(** The admin session request Tool B makes of its five keys. *)
Definition admin_session_B (partner secret user expiry : scalar) : call :=
  session_start secret user (PEnum "KalturaSessionType.ADMIN") partner expiry (SStr "").

(** The token an option of Tool A adds when it is given. *)
Definition given_str (name : string) (o : option string) : list string :=
  match o with Some s => [name +:+ ":" +:+ s] | None => [] end.

Definition given_int (name : string) (o : option Z) : list string :=
  match o with Some z => [name +:+ ":" +:+ pretty z] | None => [] end.

Definition flag (name : string) (b : bool) : list string :=
  [name +:+ ":" +:+ (if b then "True" else "False")].

(** Tool B's arguments with another [--actions]. *)
Definition with_actions (args : ToolB.Args.t) (actions : option string) : ToolB.Args.t :=
  {| ToolB.Args.list := ToolB.Args.list args;
     ToolB.Args.actions := actions;
     ToolB.Args.update := ToolB.Args.update args;
     ToolB.Args.append := ToolB.Args.append args;
     ToolB.Args.description := ToolB.Args.description args;
     ToolB.Args.debug := ToolB.Args.debug args |}.

(** The four lines Tool B prints for a listed token. *)
Definition token_lines (app_token : AppToken) : list event :=
  [Print [FLit "App Token ID: "; FVal (attr app_token "id")];
   Print [FLit "App Token Value: "; FVal (attr app_token "token")];
   Print [FLit "App Token Description: "; FVal (attr app_token "description")];
   Print [FLit "------"]].

(** Tool B has loaded its configuration and opened its admin session:
    the five keys are there and the platform answered [ks] to the session
    start. *)
Definition ready_B (env : Env) (tr : list event) (partner secret user expiry ks : scalar)
    : Prop :=
  exists (config : gmap string scalar) (url : scalar),
    config_file env = FileJson config
    /\ config !! "PARTNER_ID" = Some partner
    /\ config !! "ADMIN_SECRET" = Some secret
    /\ config !! "SCRIPT_USER_ID" = Some user
    /\ config !! "ADMIN_SESSION_EXPIRY" = Some expiry
    /\ config !! "KALTURA_SERVICE_URL" = Some url
    /\ remote env tr (admin_session_B partner secret user expiry) = Ok ks.

(** The end of Tool B's [main], after the add or update call: the two
    report lines, the handshake and the line with the session it gave. *)
Definition report_and_start (env : Env) (PARTNER_ID : scalar)
    (outcome : option (AppToken * list frag)) : M unit :=
  match outcome with
  | None => ret tt
  | Some (result, print_text_prefix) =>
      let app_token_id := attr result "id" in
      let app_token_value := attr result "token" in
      let session_privileges := attr result "sessionPrivileges" in
      print (print_text_prefix ++ [FLit "Value: "; FVal app_token_value]) ;;
      print (print_text_prefix ++ [FLit "Privileges: "; FVal session_privileges]) ;;
      let* token_ks :=
        ToolB.start_app_token_session env PARTNER_ID app_token_id app_token_value in
      print [FLit "Gen KS from this AppToken: "; FVal (PScalar token_ks)]
  end.

(** The keys Tool B reads, in the order it reads them. *)
Definition keys_B : list string :=
  ["PARTNER_ID"; "ADMIN_SECRET"; "SCRIPT_USER_ID"; "ADMIN_SESSION_EXPIRY";
   "KALTURA_SERVICE_URL"].

End Behaviour.

(** ** Platforms that fail *)

Module Faults.

Definition is_session_start (c : call) : bool :=
  match c with session_start _ _ _ _ _ _ => true | _ => false end.
Definition is_get (c : call) : bool :=
  match c with appToken_get _ => true | _ => false end.
Definition is_update (c : call) : bool :=
  match c with appToken_update _ _ => true | _ => false end.
Definition is_delete (c : call) : bool :=
  match c with appToken_delete _ => true | _ => false end.

(** Answers like [Samples.echo] except that the calls picked by [bad]
    raise [e]. *)
Definition failing_on (bad : call -> bool) (e : exn)
    (tr : list event) (c : call) : outcome (resp c) :=
  if bad c then Raise e
  else Samples.echo (SStr "widget-ks") (SStr "privileged-ks") Samples.add_ok tr c.

Definition forbidden : exn :=
  KalturaException "SERVICE_FORBIDDEN" "The access to service is forbidden (SERVICE_FORBIDDEN)".
Definition not_found : exn :=
  KalturaException "APP_TOKEN_ID_NOT_FOUND" "Invalid app token id (APP_TOKEN_ID_NOT_FOUND)".

Definition env_session_refused : Env :=
  Samples.world (FileJson Samples.config_1) (failing_on is_session_start forbidden).
Definition env_get_not_found : Env :=
  Samples.world (FileJson Samples.config_1) (failing_on is_get not_found).
Definition env_get_refused : Env :=
  Samples.world (FileJson Samples.config_1) (failing_on is_get forbidden).
Definition env_update_refused : Env :=
  Samples.world (FileJson Samples.config_1) (failing_on is_update forbidden).
Definition env_delete_refused : Env :=
  Samples.world (FileJson Samples.config_1) (failing_on is_delete forbidden).

Definition is_list (c : call) : bool :=
  match c with appToken_list => true | _ => false end.

Definition env_list_refused : Env :=
  Samples.world (FileJson Samples.config_1) (failing_on is_list forbidden).

(** A token as Tool B creates it, with a list as its privileges. *)
Definition token_with_list : AppToken :=
  <["sessionPrivileges" := PList ["/api_v3/service/media/action/*"]]> Samples.token_1.

(** A platform whose tokens have a list as privileges, and whose pages
    are empty. *)
Definition with_list_privileges (tr : list event) (c : call) : outcome (resp c) :=
  match c with
  | appToken_get _ => Ok token_with_list
  | appToken_list => Ok (Some [])
  | c => Samples.echo (SStr "widget-ks") (SStr "privileged-ks") Samples.add_ok tr c
  end.

Definition env_list_privileges : Env :=
  Samples.world (FileJson Samples.config_1) with_list_privileges.
Definition env_empty_page : Env :=
  Samples.world (FileJson Samples.config_1) with_list_privileges.

(** [--delete 1_abc --list --start_session] *)
Definition delete_and_more : ToolA.Args.t :=
  Samples.with_commands (Some "1_abc") true true (Some "1_abc").

(** [--edit 123] *)
Definition create_only : ToolA.Args.t := Samples.with_commands None false false None.
(** [--edit 123 --update 1_abc] *)
Definition update_only : ToolA.Args.t := Samples.with_commands (Some "1_abc") false false None.

(** A token that already allows [media.list] and nothing else, and a
    platform that holds it. *)
Definition token_media_list : AppToken :=
  <["sessionPrivileges" := PStr "urirestrict:/api_v3/service/media/action/list/"]>
    Samples.token_1.

Definition with_media_list (tr : list event) (c : call) : outcome (resp c) :=
  match c with
  | appToken_get _ => Ok token_media_list
  | c => Samples.echo (SStr "widget-ks") (SStr "privileged-ks") Samples.add_ok tr c
  end.

Definition env_media_list : Env :=
  Samples.world (FileJson Samples.config_1) with_media_list.

(** [--update 1_abc --actions media.list --append] *)
Definition append_media_list : ToolB.Args.t :=
  Samples.b_args false (Some "media.list") (Some "1_abc") true.

End Faults.

(** * Properties *)

(** ** The privilege-string encoder of Tool A *)

(** [build_privileges] is the comma-join, in table order, of the tokens of
    the attributes that are not [None]. *)
Lemma build_privileges_loop (args : ToolA.Args.t) (names : list string) (acc : list string) :
  fold_left
    (fun privileges '(privilege, handler) =>
       let value := ToolA.getattr args privilege in
       match value with
       | SNone => privileges
       | _ => privileges ++ [handler privilege value]
       end)
    ((fun name => (name, ToolA.handle_privilege)) <$> names) acc
  = acc ++ omap (ToolA.token args) names.
Proof.
  revert acc. induction names as [|name names IH]; intros acc.
  - simpl. by rewrite app_nil_r.
  - rewrite fmap_cons. cbn [fold_left]. rewrite IH.
    change (omap (ToolA.token args) (name :: names))
      with (match ToolA.token args name with
            | Some t => t :: omap (ToolA.token args) names
            | None => omap (ToolA.token args) names
            end).
    unfold ToolA.token at 2.
    destruct (ToolA.getattr args name); rewrite <- ?app_assoc; reflexivity.
Qed.

Lemma build_privileges_join (args : ToolA.Args.t) :
  ToolA.build_privileges args
  = join "," (omap (ToolA.token args) ToolA.PRIVILEGE_NAMES).
Proof.
  unfold ToolA.build_privileges, ToolA.PRIVILEGE_HANDLERS.
  by rewrite build_privileges_loop.
Qed.

(** C1 (the code departs from the claim): on the namespace that
    [--edit 123] parses to, the encoder does not return [edit:123]: the
    four [store_true] flags are [False], not [None], when omitted, so
    [list], [enableentitlement], [disableentitlement] and
    [enablecategorymoderation] each add a token. *)
Theorem C1_build_privileges_omitted_flags :
  ToolA.build_privileges Samples.edit_123
  = "edit:123,list:*,enableentitlement:False,disableentitlement:False,enablecategorymoderation:False"
  /\ ToolA.build_privileges Samples.edit_123 <> "edit:123"
  /\ ToolA.build_privileges ToolA.no_args <> "".
Proof. repeat split; vm_compute; congruence. Qed.

(** ** Traces *)

Lemma calls_app (a b : list event) : calls (a ++ b) = calls a ++ calls b.
Proof. unfold calls. apply omap_app. Qed.

Lemma calls_snoc_call (tr : list event) (c : call) : calls (tr ++ [Call c]) = calls tr ++ [c].
Proof. by rewrite calls_app. Qed.

Lemma calls_snoc_other (tr : list event) (e : event) :
  (forall c, e <> Call c) -> calls (tr ++ [e]) = calls tr.
Proof.
  intros He. rewrite calls_app. destruct e; try (by rewrite app_nil_r).
  by destruct (He c).
Qed.

Lemma calls_snoc_print tr line : calls (tr ++ [Print line]) = calls tr.
Proof. by apply calls_snoc_other. Qed.

Lemma calls_snoc_setKs tr ks : calls (tr ++ [SetKs ks]) = calls tr.
Proof. by apply calls_snoc_other. Qed.

Lemma calls_snoc_table tr w objs : calls (tr ++ [PrintTokenTable w objs]) = calls tr.
Proof. by apply calls_snoc_other. Qed.

Create Rewrite HintDb trace.
#[local] Hint Rewrite calls_snoc_call calls_snoc_print calls_snoc_setKs calls_snoc_table : trace.

(** Unfold the monad and the client's methods, nothing else. *)
Ltac run_step :=
  cbv beta iota zeta delta
    [bind ret raise print setKs emit except_KalturaException api
     client.session_start client.session_startWidgetSession
     client.appToken_add client.appToken_get client.appToken_update
     client.appToken_delete client.appToken_list client.appToken_startSession
     getitem fst snd].

(** Case on the next answer of the remote platform. *)
Ltac on_remote :=
  match goal with
  | |- context [remote ?e ?t ?c] =>
      let r := fresh "r" in
      let Hr := fresh "Hr" in
      destruct (remote e t c) as [r | r] eqn:Hr; [| try destruct r]
  end.

(** ** Tool A: the update operation *)

(** C10: [update_app_token] fetches the token and submits it back with at
    most two attributes changed: [sessionPrivileges] is replaced exactly
    when the built privilege string is not empty, [description] exactly
    when the description given is neither [None] nor empty, and every other
    attribute of the fetched token is submitted as it was fetched. *)
Theorem C10_update_overlays_two_fields
    (env : Env) (tr : list event) (app_token_id privileges : string)
    (description : scalar) (fetched : AppToken) :
  remote env tr (appToken_get app_token_id) = Ok fetched ->
  exists submitted : AppToken,
    calls (ToolA.update_app_token env app_token_id privileges description tr).2
    = calls tr ++ [appToken_get app_token_id; appToken_update app_token_id submitted]
    /\ submitted !! "sessionPrivileges"
       = (if String.eqb privileges "" then fetched !! "sessionPrivileges"
          else Some (PStr privileges))
    /\ submitted !! "description"
       = (if truthy description then Some (PScalar description)
          else fetched !! "description")
    /\ (forall field : string,
          field <> "sessionPrivileges" -> field <> "description" ->
          submitted !! field = fetched !! field).
Proof.
  intros Hget. eexists. split.
  - unfold ToolA.update_app_token. run_step. rewrite Hget.
    on_remote; autorewrite with trace; rewrite <- app_assoc; reflexivity.
  - change (truthy (SStr privileges)) with (negb (String.eqb privileges "")).
    destruct (String.eqb privileges ""), (truthy description); cbn [negb];
      repeat split; intros; by simplify_map_eq.
Qed.

Lemma C10_update_overlays_two_fields_witness :
  exists submitted : AppToken,
    calls (ToolA.update_app_token Samples.env_ok "1_abc" "edit:123" SNone []).2
    = calls [] ++ [appToken_get "1_abc"; appToken_update "1_abc" submitted]
    /\ submitted !! "sessionPrivileges"
       = (if String.eqb "edit:123" "" then Samples.token_1 !! "sessionPrivileges"
          else Some (PStr "edit:123"))
    /\ submitted !! "description"
       = (if truthy SNone then Some (PScalar SNone)
          else Samples.token_1 !! "description")
    /\ (forall field : string,
          field <> "sessionPrivileges" -> field <> "description" ->
          submitted !! field = Samples.token_1 !! field).
Proof.
  apply (C10_update_overlays_two_fields Samples.env_ok [] "1_abc" "edit:123" SNone
           Samples.token_1).
  reflexivity.
Defined.

(** ** Tool B: the missing [--actions] *)

(** C7: a create or update invocation of Tool B (an update id is given,
    or the list flag is not set) without [--actions] prints the user error
    and returns at once, whatever the environment is: the configuration is
    not read and no remote call is made. *)
Theorem C7_missing_actions_returns_early
    (env : Env) (args : ToolB.Args.t) (tr : list event) :
  (truthy (of_opt_str (ToolB.Args.update args)) || negb (ToolB.Args.list args)) = true ->
  ToolB.Args.actions args = None ->
  ToolB.main env args tr
  = (Ok tt,
     tr ++ [Print [FLit "The --actions argument is mandatory when adding or updating an App Token."]])
  /\ calls (ToolB.main env args tr).2 = calls tr.
Proof.
  intros Hcmd Hact.
  assert (Hmain : ToolB.main env args tr
    = (Ok tt,
       tr ++ [Print [FLit "The --actions argument is mandatory when adding or updating an App Token."]])).
  { unfold ToolB.main. rewrite Hcmd, Hact. reflexivity. }
  split; [exact Hmain |]. rewrite Hmain. apply calls_snoc_print.
Qed.

Lemma C7_missing_actions_returns_early_witness :
  ToolB.main Samples.env_no_config (Samples.b_args false None (Some "1_abc") false) []
  = (Ok tt,
     [] ++ [Print [FLit "The --actions argument is mandatory when adding or updating an App Token."]])
  /\ calls (ToolB.main Samples.env_no_config (Samples.b_args false None (Some "1_abc") false) []).2
     = calls [].
Proof.
  apply (C7_missing_actions_returns_early Samples.env_no_config
           (Samples.b_args false None (Some "1_abc") false) []); reflexivity.
Defined.

(** ** The list-only command *)

Lemma listing_only_no_mutation (l : list call) :
  Spec.listing_only l -> forallb (fun c => negb (Spec.mutates c)) l = true.
Proof.
  intros [-> | [(? & ? & ? & ? & ? & ? & ->) | (? & ? & ? & ? & ? & ? & ->)]]; reflexivity.
Qed.

Lemma toolA_list_only_calls (env : Env) (args : ToolA.Args.t) :
  truthy (of_opt_str (ToolA.Args.delete args)) = false ->
  ToolA.Args.list args = true ->
  Spec.listing_only (calls (ToolA.run_application env args []).2).
Proof.
  intros Hdel Hlist. unfold ToolA.run_application, ToolA.load_configuration,
    ToolA.initialize_client, ToolA.start_admin_session, ToolA.list_app_tokens.
  rewrite Hdel, Hlist. run_step.
  destruct (config_file env) as [| | cfg]; [by left | by left |].
  destruct (cfg !! "PARTNER_ID"); [| by left].
  destruct (cfg !! "KALTURA_SERVICE_URL"); [| by left].
  on_remote; try (right; left; autorewrite with trace; cbn; by eauto 10).
  cbn [app].
  on_remote; try (right; right; autorewrite with trace; cbn; by eauto 10).
  destruct r0 as [[|]|]; try destruct (terminal_columns env);
  right; right; autorewrite with trace; cbn; by eauto 10.
Qed.

Lemma print_tokens_calls (objects : list AppToken) (tr : list event) :
  exists tr', ToolB.print_tokens objects tr = (Ok tt, tr') /\ calls tr' = calls tr.
Proof.
  revert tr. induction objects as [|o objects IH]; intros tr.
  - by exists tr.
  - cbn [ToolB.print_tokens]. unfold ToolB.print_token. run_step.
    destruct (IH ((((tr ++ [Print [FLit "App Token ID: "; FVal (attr o "id")]])
                      ++ [Print [FLit "App Token Value: "; FVal (attr o "token")]])
                     ++ [Print [FLit "App Token Description: "; FVal (attr o "description")]])
                    ++ [Print [FLit "------"]])) as (tr' & -> & Htr').
    exists tr'. split; [done |]. rewrite Htr'. by autorewrite with trace.
Qed.

Lemma toolB_list_only_calls (env : Env) (args : ToolB.Args.t) :
  truthy (of_opt_str (ToolB.Args.update args)) = false ->
  ToolB.Args.list args = true ->
  Spec.listing_only (calls (ToolB.main env args []).2).
Proof.
  intros Hupd Hlist. unfold ToolB.main, ToolB.read_config, ToolB.list_app_tokens.
  rewrite Hupd, Hlist. cbn [orb negb andb]. run_step.
  destruct (config_file env) as [| | cfg]; [by left | by left |].
  destruct (cfg !! "PARTNER_ID"); [| by left].
  destruct (cfg !! "ADMIN_SECRET"); [| by left].
  destruct (cfg !! "SCRIPT_USER_ID"); [| by left].
  destruct (cfg !! "ADMIN_SESSION_EXPIRY"); [| by left].
  destruct (cfg !! "KALTURA_SERVICE_URL"); [| by left].
  on_remote; try (right; left; autorewrite with trace; cbn; by eauto 10).
  cbn [app].
  on_remote; try (right; right; autorewrite with trace; cbn; by eauto 10).
  destruct r0 as [objects|]; [| right; right; autorewrite with trace; cbn; by eauto 10].
  match goal with
  | |- context [ToolB.print_tokens objects ?t] =>
      destruct (print_tokens_calls objects t) as (tr' & -> & Htr')
  end.
  right; right. cbn [snd]. rewrite Htr'. autorewrite with trace. cbn. by eauto 10.
Qed.

(** C8: a run whose only command is the list flag (no delete id in Tool A,
    no update id in Tool B) takes the listing branch: its remote calls are
    the admin session start and the listing call and nothing else, so no
    app-token add, update or delete call is ever issued. *)
Theorem C8_list_only_never_mutates (env : Env) :
  (forall args : ToolA.Args.t,
     truthy (of_opt_str (ToolA.Args.delete args)) = false ->
     ToolA.Args.list args = true ->
     Spec.listing_only (calls (ToolA.run_application env args []).2)
     /\ forallb (fun c => negb (Spec.mutates c))
          (calls (ToolA.run_application env args []).2) = true)
  /\ (forall args : ToolB.Args.t,
        truthy (of_opt_str (ToolB.Args.update args)) = false ->
        ToolB.Args.list args = true ->
        Spec.listing_only (calls (ToolB.main env args []).2)
        /\ forallb (fun c => negb (Spec.mutates c))
             (calls (ToolB.main env args []).2) = true).
Proof.
  split; intros args H1 H2.
  - pose proof (toolA_list_only_calls env args H1 H2) as H.
    split; [exact H | by apply listing_only_no_mutation].
  - pose proof (toolB_list_only_calls env args H1 H2) as H.
    split; [exact H | by apply listing_only_no_mutation].
Qed.

Lemma C8_list_only_never_mutates_witness :
  (Spec.listing_only (calls (ToolA.run_application Samples.env_ok Samples.list_only []).2)
   /\ forallb (fun c => negb (Spec.mutates c))
        (calls (ToolA.run_application Samples.env_ok Samples.list_only []).2) = true)
  /\ (Spec.listing_only
        (calls (ToolB.main Samples.env_ok (Samples.b_args true None None false) []).2)
      /\ forallb (fun c => negb (Spec.mutates c))
           (calls (ToolB.main Samples.env_ok (Samples.b_args true None None false) []).2) = true).
Proof.
  destruct (C8_list_only_never_mutates Samples.env_ok) as [HA HB].
  split.
  - apply (HA Samples.list_only); reflexivity.
  - apply (HB (Samples.b_args true None None false)); reflexivity.
Defined.

(** ** Runs only append to the trace *)

Lemma extends_ret {A} (a : A) : Spec.extends (ret a).
Proof. intros tr. exists []. by rewrite app_nil_r. Qed.

Lemma extends_raise {A} (e : exn) : Spec.extends (@raise A e).
Proof. intros tr. exists []. by rewrite app_nil_r. Qed.

Lemma extends_emit (e : event) : Spec.extends (emit e).
Proof. intros tr. by exists [e]. Qed.

Lemma extends_api (env : Env) (c : call) : Spec.extends (api env c).
Proof. intros tr. by exists [Call c]. Qed.

Lemma bind_trace {A B} (m : M A) (k : A -> M B) (tr : list event) :
  (forall a, Spec.extends (k a)) ->
  exists l, (bind m k tr).2 = (m tr).2 ++ l.
Proof.
  intros Hk. unfold bind. destruct (m tr) as [[a | e] tr'].
  - apply Hk.
  - exists []. by rewrite app_nil_r.
Qed.

Lemma extends_bind {A B} (m : M A) (k : A -> M B) :
  Spec.extends m -> (forall a, Spec.extends (k a)) -> Spec.extends (bind m k).
Proof.
  intros Hm Hk tr. destruct (bind_trace m k tr Hk) as [l2 ->].
  destruct (Hm tr) as [l1 ->]. exists (l1 ++ l2). by rewrite app_assoc.
Qed.

Lemma extends_except {A} (body : M A) (handler : string -> string -> M A) :
  Spec.extends body -> (forall code text, Spec.extends (handler code text)) ->
  Spec.extends (except_KalturaException body handler).
Proof.
  intros Hb Hh tr. unfold except_KalturaException.
  destruct (Hb tr) as [l1 H1]. destruct (body tr) as [[a | e] tr']; cbn [snd] in *.
  - by exists l1.
  - destruct e; try by exists l1.
    destruct (Hh code text tr') as [l2 ->]. subst tr'.
    exists (l1 ++ l2). by rewrite app_assoc.
Qed.

Lemma extends_getitem (d : gmap string scalar) (key : string) : Spec.extends (getitem d key).
Proof. unfold getitem. destruct (d !! key); [apply extends_ret | apply extends_raise]. Qed.

Lemma extends_concat_for_hash (ks : scalar) (value : pyval) :
  Spec.extends (concat_for_hash ks value).
Proof.
  unfold concat_for_hash.
  destruct ks; try apply extends_raise;
    destruct value as [[]| |]; first [apply extends_raise | apply extends_ret].
Qed.

(** Decompose a computation along its binds and branches. *)
Ltac extends_step :=
  lazymatch goal with
  | |- Spec.extends (bind _ _) => apply extends_bind; [| intros ?]
  | |- Spec.extends (except_KalturaException _ _) => apply extends_except; [| intros ? ?]
  | |- Spec.extends (ret _) => apply extends_ret
  | |- Spec.extends (raise _) => apply extends_raise
  | |- Spec.extends (emit _) => apply extends_emit
  | |- Spec.extends (print _) => apply extends_emit
  | |- Spec.extends (setKs _) => apply extends_emit
  | |- Spec.extends (api ?e ?c) => exact (extends_api e c)
  | |- Spec.extends (getitem _ _) => apply extends_getitem
  | |- Spec.extends (concat_for_hash _ _) => apply extends_concat_for_hash
  | |- Spec.extends (if ?b then _ else _) => destruct b
  | |- Spec.extends (match ?x with _ => _ end) => destruct x
  | |- Spec.extends (let '(_, _) := ?x in _) => destruct x
  end.

Ltac extends_tac :=
  cbv beta delta
    [client.session_start client.session_startWidgetSession
     client.appToken_add client.appToken_get client.appToken_update
     client.appToken_delete client.appToken_list client.appToken_startSession];
  repeat (cbv beta zeta; extends_step).

Lemma extends_handshake_A env partner_id app_token_id app_token_value :
  Spec.extends (ToolA.start_app_token_session env partner_id app_token_id app_token_value).
Proof. unfold ToolA.start_app_token_session. extends_tac. Qed.

Lemma extends_handshake_B env partner_id app_token_id app_token_value :
  Spec.extends (ToolB.start_app_token_session env partner_id app_token_id app_token_value).
Proof. unfold ToolB.start_app_token_session. extends_tac. Qed.

Lemma extends_update_app_token env app_token_id privileges description :
  Spec.extends (ToolA.update_app_token env app_token_id privileges description).
Proof. unfold ToolA.update_app_token. extends_tac. Qed.

Lemma extends_create_app_token env privileges description :
  Spec.extends (ToolA.create_app_token env privileges description).
Proof. unfold ToolA.create_app_token. extends_tac. Qed.

Lemma extends_process env args config :
  Spec.extends (ToolA.process_app_token_arguments env args config).
Proof.
  unfold ToolA.process_app_token_arguments. extends_tac;
    first [apply extends_update_app_token | apply extends_create_app_token
          | apply extends_handshake_A].
Qed.

Lemma extends_after_admin_session env args config (ks : scalar) :
  Spec.extends
    (setKs ks ;;
     if truthy (of_opt_str (ToolA.Args.delete args))
     then ToolA.delete_app_token env (default "" (ToolA.Args.delete args))
     else if ToolA.Args.list args
          then ToolA.list_app_tokens env
          else ToolA.process_app_token_arguments env args config).
Proof.
  extends_tac.
  - unfold ToolA.delete_app_token. extends_tac.
  - unfold ToolA.list_app_tokens. extends_tac.
  - apply extends_process.
Qed.

(** ** Tool A: the configuration and the first network call *)

Lemma start_admin_session_first_call (env : Env) (config : gmap string scalar) (tr : list event) :
  exists l,
    (ToolA.start_admin_session env config tr).2
    = tr ++ Call (session_start (get config "ADMIN_SECRET" SNone)
                    (get config "USER_ID" (SStr ""))
                    (PEnum "KalturaSessionType.ADMIN")
                    (get config "PARTNER_ID" SNone)
                    (get config "EXPIRY" (SInt 86400))
                    (get config "DEFAULT_ADMIN_PRIVILEGES" (SStr ""))) :: l.
Proof.
  unfold ToolA.start_admin_session. run_step.
  on_remote; cbn [snd]; rewrite <- ?app_assoc; cbn [app]; eauto.
Qed.

Lemma bind_ret_l {A B} (a : A) (k : A -> M B) (tr : list event) :
  bind (ret a) k tr = k a tr.
Proof. reflexivity. Qed.

Lemma bind_assoc {A B C} (m : M A) (f : A -> M B) (g : B -> M C) (tr : list event) :
  bind (bind m f) g tr = bind m (fun a => bind (f a) g) tr.
Proof. unfold bind. by destruct (m tr) as [[a | e] tr']. Qed.

Lemma bind_getitem_Some {B} (d : gmap string scalar) (key : string) (v : scalar)
    (k : scalar -> M B) (tr : list event) :
  d !! key = Some v -> bind (getitem d key) k tr = k v tr.
Proof. intros H. unfold bind, getitem. by rewrite H. Qed.

Lemma bind_getitem_None {B} (d : gmap string scalar) (key : string)
    (k : scalar -> M B) (tr : list event) :
  d !! key = None -> bind (getitem d key) k tr = (Raise (KeyError key), tr).
Proof. intros H. unfold bind, getitem. by rewrite H. Qed.

(** C9 (amended): in Tool A a missing [config.json] and one that is not
    valid JSON each raise the configuration error with nothing added to the
    trace, so before any network call; loading validates no key; a missing
    [PARTNER_ID] or [KALTURA_SERVICE_URL] raises the key-lookup failure
    when the client is built, still before any call; once both are there
    the first thing the run does is the admin session start, whose secret
    is read with [config.get] and is [None] when [ADMIN_SECRET] is
    missing. *)
Theorem C9_configuration_fails_before_network
    (env : Env) (args : ToolA.Args.t) (tr : list event) :
  (config_file env = FileAbsent ->
   ToolA.run_application env args tr
   = (Raise (Exception "Configuration file 'config.json' not found."), tr))
  /\ (config_file env = FileInvalid ->
      ToolA.run_application env args tr
      = (Raise (Exception "Configuration file 'config.json' contains invalid JSON."), tr))
  /\ (forall config : gmap string scalar,
        config_file env = FileJson config ->
        ToolA.load_configuration env tr = (Ok config, tr)
        /\ (config !! "PARTNER_ID" = None ->
            ToolA.run_application env args tr = (Raise (KeyError "PARTNER_ID"), tr))
        /\ (is_Some (config !! "PARTNER_ID") ->
            config !! "KALTURA_SERVICE_URL" = None ->
            ToolA.run_application env args tr = (Raise (KeyError "KALTURA_SERVICE_URL"), tr))
        /\ (is_Some (config !! "PARTNER_ID") ->
            is_Some (config !! "KALTURA_SERVICE_URL") ->
            exists l,
              (ToolA.run_application env args tr).2
              = tr ++ Call (session_start (get config "ADMIN_SECRET" SNone)
                              (get config "USER_ID" (SStr ""))
                              (PEnum "KalturaSessionType.ADMIN")
                              (get config "PARTNER_ID" SNone)
                              (get config "EXPIRY" (SInt 86400))
                              (get config "DEFAULT_ADMIN_PRIVILEGES" (SStr ""))) :: l)).
Proof.
  unfold ToolA.run_application, ToolA.load_configuration, ToolA.initialize_client.
  repeat split.
  - intros ->. reflexivity.
  - intros ->. reflexivity.
  - by rewrite H.
  - intros Hp. rewrite H, bind_ret_l, !bind_assoc.
    by rewrite (bind_getitem_None _ _ _ _ Hp).
  - intros [p Hp] Hu. rewrite H, bind_ret_l, !bind_assoc.
    rewrite (bind_getitem_Some _ _ _ _ _ Hp), bind_assoc.
    by rewrite (bind_getitem_None _ _ _ _ Hu).
  - intros [p Hp] [u Hu]. rewrite H, bind_ret_l, !bind_assoc.
    rewrite (bind_getitem_Some _ _ _ _ _ Hp), bind_assoc.
    rewrite (bind_getitem_Some _ _ _ _ _ Hu), !bind_ret_l.
    match goal with
    | |- context [bind ?m ?k tr] =>
        destruct (bind_trace m k tr (extends_after_admin_session env args config)) as [l2 ->]
    end.
    destruct (start_admin_session_first_call env config tr) as [l1 ->].
    exists (l1 ++ l2). by rewrite <- app_assoc.
Qed.

Lemma C9_configuration_fails_before_network_witness :
  ToolA.run_application Samples.env_no_config Samples.edit_123 []
  = (Raise (Exception "Configuration file 'config.json' not found."), [])
  /\ ToolA.run_application Samples.env_bad_config Samples.edit_123 []
     = (Raise (Exception "Configuration file 'config.json' contains invalid JSON."), [])
  /\ ToolA.run_application Samples.env_empty_config Samples.edit_123 []
     = (Raise (KeyError "PARTNER_ID"), [])
  /\ ToolA.run_application Samples.env_no_url Samples.edit_123 []
     = (Raise (KeyError "KALTURA_SERVICE_URL"), [])
  /\ (exists l,
        (ToolA.run_application Samples.env_no_secret Samples.edit_123 []).2
        = [] ++ Call (session_start (get Samples.config_no_secret "ADMIN_SECRET" SNone)
                        (get Samples.config_no_secret "USER_ID" (SStr ""))
                        (PEnum "KalturaSessionType.ADMIN")
                        (get Samples.config_no_secret "PARTNER_ID" SNone)
                        (get Samples.config_no_secret "EXPIRY" (SInt 86400))
                        (get Samples.config_no_secret "DEFAULT_ADMIN_PRIVILEGES" (SStr ""))) :: l).
Proof.
  split; [| split; [| split; [| split]]].
  - apply (proj1 (C9_configuration_fails_before_network
                    Samples.env_no_config Samples.edit_123 [])).
    reflexivity.
  - apply (proj1 (proj2 (C9_configuration_fails_before_network
                           Samples.env_bad_config Samples.edit_123 []))).
    reflexivity.
  - destruct (proj2 (proj2 (C9_configuration_fails_before_network
                              Samples.env_empty_config Samples.edit_123 []))
                ∅ eq_refl) as (_ & H & _).
    apply H. reflexivity.
  - destruct (proj2 (proj2 (C9_configuration_fails_before_network
                              Samples.env_no_url Samples.edit_123 []))
                Samples.config_no_url eq_refl) as (_ & _ & H & _).
    apply H; [exists (SInt 12345) |]; reflexivity.
  - destruct (proj2 (proj2 (C9_configuration_fails_before_network
                              Samples.env_no_secret Samples.edit_123 []))
                Samples.config_no_secret eq_refl) as (_ & _ & _ & H).
    apply H; [exists (SInt 12345) | exists (SStr "https://www.kaltura.com")]; reflexivity.
Defined.

(** C9, the claim as stated fails: with [ADMIN_SECRET] missing from an
    otherwise complete configuration no key-lookup failure is raised; the
    run goes on and starts the admin session with [None] as its secret. *)
Lemma C9_missing_secret_raises_no_key_error :
  Samples.config_no_secret !! "ADMIN_SECRET" = None
  /\ (ToolA.run_application Samples.env_no_secret Samples.edit_123 []).1 = Ok tt
  /\ (forall key : string,
        (ToolA.run_application Samples.env_no_secret Samples.edit_123 []).1
        <> Raise (KeyError key))
  /\ head (calls (ToolA.run_application Samples.env_no_secret Samples.edit_123 []).2)
     = Some (session_start SNone (SStr "") (PEnum "KalturaSessionType.ADMIN")
               (SInt 12345) (SInt 86400) (SStr "")).
Proof.
  assert (H : (ToolA.run_application Samples.env_no_secret Samples.edit_123 []).1 = Ok tt)
    by (vm_compute; reflexivity).
  split; [| split; [| split]]; [vm_compute; reflexivity | exact H | | vm_compute; reflexivity].
  intros key. rewrite H. discriminate.
Qed.

(** ** The session escalation handshake *)

Lemma handshake_A_first_event env partner_id app_token_id app_token_value tr :
  exists l,
    (ToolA.start_app_token_session env partner_id app_token_id app_token_value tr).2
    = tr ++ Call (session_startWidgetSession ("_" +:+ str partner_id)) :: l.
Proof.
  unfold ToolA.start_app_token_session. cbv zeta.
  match goal with
  | |- context [bind ?m ?k tr] => destruct (bind_trace m k tr) as [l ->]
  end.
  - intros ks. extends_tac.
  - exists l. unfold client.session_startWidgetSession, api. cbn [snd].
    by rewrite <- app_assoc.
Qed.

Lemma handshake_B_first_event env partner_id app_token_id app_token_value tr :
  exists l,
    (ToolB.start_app_token_session env partner_id app_token_id app_token_value tr).2
    = tr ++ Call (session_startWidgetSession ("_" +:+ str partner_id)) :: l.
Proof.
  unfold ToolB.start_app_token_session. cbv zeta.
  match goal with
  | |- context [bind ?m ?k tr] => destruct (bind_trace m k tr) as [l ->]
  end.
  - intros ks. extends_tac.
  - exists l. unfold client.session_startWidgetSession, api. cbn [snd].
    by rewrite <- app_assoc.
Qed.

(** C3 (amended): for every partner id both tools open the handshake with
    the widget session request keyed by the underscore followed by the
    partner id.  Tool A raises when the unprivileged session string is
    absent, before any further call, and raises when the privileged session
    string is absent.  Tool B, when the unprivileged session string is
    absent, prints the failure and returns [None] without raising and
    without asking for the app-token session. *)
Theorem C3_handshake_widget_id_and_failures
    (env : Env) (partner_id : scalar) (app_token_id app_token_value : pyval)
    (tr : list event) :
  let widget := session_startWidgetSession ("_" +:+ str partner_id) in
  (exists l,
     (ToolA.start_app_token_session env partner_id app_token_id app_token_value tr).2
     = tr ++ Call widget :: l)
  /\ (exists l,
        (ToolB.start_app_token_session env partner_id app_token_id app_token_value tr).2
        = tr ++ Call widget :: l)
  /\ (forall ks : scalar,
        remote env tr widget = Ok ks -> truthy ks = false ->
        ToolA.start_app_token_session env partner_id app_token_id app_token_value tr
        = (Raise (Exception "Failed to start an unprivileged session."),
           tr ++ [Call widget]))
  /\ (forall (ks value : string) (privileged_ks : scalar),
        remote env tr widget = Ok (SStr ks) -> truthy (SStr ks) = true ->
        app_token_value = PStr value ->
        let start :=
          appToken_startSession app_token_id
            (Sha256.hexdigest (Sha256.encode_utf8 (ks +:+ value)))
            [PStr ""; PEnum "KalturaSessionType.USER"; PScalar partner_id] in
        remote env ((tr ++ [Call widget]) ++ [SetKs (SStr ks)]) start = Ok privileged_ks ->
        truthy privileged_ks = false ->
        ToolA.start_app_token_session env partner_id app_token_id app_token_value tr
        = (Raise (Exception "Failed to start a privileged session with the app token."),
           ((tr ++ [Call widget]) ++ [SetKs (SStr ks)]) ++ [Call start]))
  /\ (forall ks : scalar,
        remote env tr widget = Ok ks -> truthy ks = false ->
        ToolB.start_app_token_session env partner_id app_token_id app_token_value tr
        = (Ok SNone,
           (tr ++ [Call widget]) ++ [Print [FLit "Failed to get an unprivileged ks."]])).
Proof.
  intros widget. split; [apply handshake_A_first_event |].
  split; [apply handshake_B_first_event |].
  split; [| split].
  - intros ks Hw Hks. unfold ToolA.start_app_token_session. run_step.
    fold widget. rewrite Hw, Hks. reflexivity.
  - intros ks value pks Hw Hks -> start Hs Hp.
    unfold ToolA.start_app_token_session. run_step.
    fold widget. rewrite Hw, Hks. cbn [negb concat_for_hash]. run_step.
    unfold PStr at 1. cbv beta iota. fold start. rewrite Hs, Hp. reflexivity.
  - intros ks Hw Hks. unfold ToolB.start_app_token_session. run_step.
    fold widget. rewrite Hw, Hks. reflexivity.
Qed.

Lemma C3_handshake_widget_id_and_failures_witness :
  (exists l,
     (ToolA.start_app_token_session Samples.env_ok (SInt 12345)
        (PStr "1_abc") (PStr "s3cr3t") []).2
     = [] ++ Call (session_startWidgetSession "_12345") :: l)
  /\ ToolA.start_app_token_session Samples.env_no_widget_ks (SInt 12345)
       (PStr "1_abc") (PStr "s3cr3t") []
     = (Raise (Exception "Failed to start an unprivileged session."),
        [] ++ [Call (session_startWidgetSession "_12345")])
  /\ (ToolA.start_app_token_session Samples.env_no_privileged_ks (SInt 12345)
        (PStr "1_abc") (PStr "s3cr3t") []).1
     = Raise (Exception "Failed to start a privileged session with the app token.")
  /\ ToolB.start_app_token_session Samples.env_no_widget_ks (SInt 12345)
       (PStr "1_abc") (PStr "s3cr3t") []
     = (Ok SNone,
        ([] ++ [Call (session_startWidgetSession "_12345")])
          ++ [Print [FLit "Failed to get an unprivileged ks."]]).
Proof.
  split; [| split; [| split]].
  - exact (proj1 (C3_handshake_widget_id_and_failures Samples.env_ok (SInt 12345)
                    (PStr "1_abc") (PStr "s3cr3t") [])).
  - destruct (C3_handshake_widget_id_and_failures Samples.env_no_widget_ks (SInt 12345)
                (PStr "1_abc") (PStr "s3cr3t") []) as (_ & _ & H & _).
    apply (H SNone); reflexivity.
  - destruct (C3_handshake_widget_id_and_failures Samples.env_no_privileged_ks (SInt 12345)
                (PStr "1_abc") (PStr "s3cr3t") []) as (_ & _ & _ & H & _).
    rewrite (H "widget-ks" "s3cr3t" (SStr "")); reflexivity.
  - destruct (C3_handshake_widget_id_and_failures Samples.env_no_widget_ks (SInt 12345)
                (PStr "1_abc") (PStr "s3cr3t") []) as (_ & _ & _ & _ & H).
    apply (H SNone); reflexivity.
Defined.

(** C3, the claim as stated fails for Tool B: with no unprivileged session
    string its handshake returns [None] and raises nothing. *)
Lemma C3_toolB_handshake_does_not_raise :
  remote Samples.env_no_widget_ks [] (session_startWidgetSession "_12345") = Ok SNone
  /\ (ToolB.start_app_token_session Samples.env_no_widget_ks (SInt 12345)
        (PStr "1_abc") (PStr "s3cr3t") []).1 = Ok SNone
  /\ (forall e : exn,
        (ToolB.start_app_token_session Samples.env_no_widget_ks (SInt 12345)
           (PStr "1_abc") (PStr "s3cr3t") []).1 <> Raise e).
Proof.
  split; [reflexivity |].
  assert (H : (ToolB.start_app_token_session Samples.env_no_widget_ks (SInt 12345)
                 (PStr "1_abc") (PStr "s3cr3t") []).1 = Ok SNone) by reflexivity.
  split; [exact H |]. intros e. rewrite H. discriminate.
Qed.

(** ** Tool A: session start after create or update *)

(** C4 (the code departs from the claim): with [--update 1_abc
    --start_session] the token is fetched and updated and no handshake call
    follows, although the platform answers every call.  On the create path
    the handshake does run, with the id and value of the created token, and
    it is skipped when the create call is refused. *)
Theorem C4_update_path_never_starts_session :
  existsb Spec.handshake_call
    (calls (ToolA.run_application Samples.env_ok Samples.update_and_start []).2) = false
  /\ existsb Spec.mutates
       (calls (ToolA.run_application Samples.env_ok Samples.update_and_start []).2) = true
  /\ last (calls (ToolA.run_application Samples.env_ok Samples.create_and_start []).2)
     = Some (appToken_startSession (PStr "1_new")
               (Sha256.hexdigest (Sha256.encode_utf8 ("widget-ks" +:+ "v4lue")))
               [PStr ""; PEnum "KalturaSessionType.USER"; PScalar (SInt 12345)])
  /\ existsb Spec.handshake_call
       (calls (ToolA.run_application Samples.env_add_refused Samples.create_and_start []).2)
     = false.
Proof. repeat split; vm_compute; reflexivity. Qed.

(** The update path never reaches the handshake, whatever the platform
    answers and whether or not [--start_session] is given. *)
Lemma update_path_no_handshake (env : Env) (args : ToolA.Args.t)
    (config : gmap string scalar) (tr : list event) :
  truthy (of_opt_str (ToolA.Args.update args)) = true ->
  exists l,
    calls (ToolA.process_app_token_arguments env args config tr).2 = calls tr ++ l
    /\ existsb Spec.handshake_call l = false.
Proof.
  intros Hupd. unfold ToolA.process_app_token_arguments, ToolA.update_app_token.
  rewrite Hupd. run_step.
  on_remote; try on_remote;
    destruct (ToolA.Args.start_session args); cbn [truthy_val PNone truthy andb snd];
    autorewrite with trace; rewrite <- ?app_assoc;
    eexists; (split; [reflexivity | reflexivity]).
Qed.

(** A refused create call leaves no token id or value, and the session
    start is skipped. *)
Lemma refused_create_no_handshake (env : Env) (args : ToolA.Args.t)
    (config : gmap string scalar) (tr : list event) (code text : string) :
  truthy (of_opt_str (ToolA.Args.update args)) = false ->
  (forall tok, remote env tr (appToken_add tok) = Raise (KalturaException code text)) ->
  exists tok,
    calls (ToolA.process_app_token_arguments env args config tr).2
    = calls tr ++ [appToken_add tok].
Proof.
  intros Hupd Hadd. unfold ToolA.process_app_token_arguments, ToolA.create_app_token.
  rewrite Hupd. run_step. rewrite Hadd.
  destruct (ToolA.Args.start_session args); cbn [truthy_val PNone truthy andb snd];
    autorewrite with trace; eexists; reflexivity.
Qed.

(** ** Tool B: the URI builder *)

Lemma build_uri_privilege_loop (list_actions : list string) (acc : list string) :
  fold_left
    (fun uris action =>
       let uri :=
         if contains_char "*" action
         then "/api_v3/service/" +:+ replace "*" "*" (replace "." "/action/" action)
         else "/api_v3/service/" +:+ replace "." "/action/" action +:+ "/" in
       uris ++ [uri])
    list_actions acc
  = acc ++ (Spec.uri_of <$> list_actions).
Proof.
  revert acc. induction list_actions as [|a l IH]; intros acc.
  - by rewrite app_nil_r.
  - cbn [fold_left]. rewrite IH, fmap_cons, <- app_assoc. reflexivity.
Qed.

Lemma build_uri_privilege_map (list_actions : list string) :
  ToolB.build_uri_privilege list_actions = Spec.uri_of <$> list_actions.
Proof. unfold ToolB.build_uri_privilege. by rewrite build_uri_privilege_loop. Qed.

Lemma replace_same (c : ascii) (s : string) : replace c (String c EmptyString) s = s.
Proof.
  induction s as [|d s IH]; [done |]. cbn [replace].
  destruct (Ascii.eqb_spec c d) as [-> |]; cbn; by rewrite IH.
Qed.

Lemma replace_absent (c : ascii) (new s : string) :
  contains_char c s = false -> replace c new s = s.
Proof.
  induction s as [|d s IH]; [done |]. cbn [contains_char replace].
  destruct (Ascii.eqb c d); [done |]. intros H. by rewrite IH.
Qed.

Lemma append_cons (d : ascii) (a b : string) : String d a +:+ b = String d (a +:+ b).
Proof. reflexivity. Qed.

Lemma append_nil_l (a : string) : "" +:+ a = a.
Proof. reflexivity. Qed.

Lemma append_assoc (a b c : string) : (a +:+ b) +:+ c = a +:+ (b +:+ c).
Proof. induction a as [|d a IH]; [done |]. by rewrite !append_cons, IH. Qed.

Lemma replace_append (c : ascii) (new a b : string) :
  replace c new (a +:+ b) = replace c new a +:+ replace c new b.
Proof.
  induction a as [|d a IH]; [done |]. rewrite append_cons. cbn [replace].
  destruct (Ascii.eqb c d); by rewrite IH, ?append_assoc, ?append_cons.
Qed.

Lemma contains_char_append (c : ascii) (a b : string) :
  contains_char c (a +:+ b) = contains_char c a || contains_char c b.
Proof.
  induction a as [|d a IH]; [done |]. rewrite append_cons. cbn [contains_char].
  by destruct (Ascii.eqb c d).
Qed.

(** What the builder makes of [service.action]: the wildcard action gives
    [/api_v3/service/<service>/action/*], any other action without a
    wildcard gives [/api_v3/service/<service>/action/<action>/]. *)
Lemma uri_of_service_action (service action : string) :
  contains_char "." service = false -> contains_char "." action = false ->
  contains_char "*" service = false ->
  Spec.uri_of (service +:+ "." +:+ action)
  = if contains_char "*" action
    then "/api_v3/service/" +:+ service +:+ "/action/" +:+ action
    else "/api_v3/service/" +:+ service +:+ "/action/" +:+ action +:+ "/".
Proof.
  intros Hs Ha Hstar. unfold Spec.uri_of.
  rewrite !contains_char_append, Hstar.
  change (contains_char "*" ".") with false. cbn [orb].
  rewrite replace_same, !replace_append, (replace_absent _ _ _ Hs), (replace_absent _ _ _ Ha).
  change (replace "." "/action/" ".") with "/action/".
  destruct (contains_char "*" action); by rewrite ?append_assoc.
Qed.

(** C5 (the code departs from the claim): the two sample actions give the
    two paths of the claim, but on the create path and on the update path
    without [--append] the token is submitted with the Python list of
    paths as its [sessionPrivileges]: the paths are not joined with [|]
    and carry no [urirestrict:] prefix. *)
Theorem C5_paths_are_submitted_as_a_list :
  ToolB.build_uri_privilege ["media.*"; "baseentry.list"]
  = ["/api_v3/service/media/action/*"; "/api_v3/service/baseentry/action/list/"]
  /\ Spec.submitted_privileges
       (calls (ToolB.main Samples.env_ok
                 (Samples.b_args false (Some "media.*,baseentry.list") None false) []).2)
     = [Some (PList ["/api_v3/service/media/action/*";
                     "/api_v3/service/baseentry/action/list/"])]
  /\ Spec.submitted_privileges
       (calls (ToolB.main Samples.env_ok
                 (Samples.b_args false (Some "media.*,baseentry.list") (Some "1_abc") false) []).2)
     = [Some (PList ["/api_v3/service/media/action/*";
                     "/api_v3/service/baseentry/action/list/"])]
  /\ Spec.submitted_privileges
       (calls (ToolB.main Samples.env_ok
                 (Samples.b_args false (Some "media.*,baseentry.list") None false) []).2)
     <> [Some (PStr "urirestrict:/api_v3/service/media/action/*|/api_v3/service/baseentry/action/list/")].
Proof. repeat split; vm_compute; congruence. Qed.

(** ** Tool B: the order of a set *)

(** The order [Samples.world] enumerates a set in is one a set can have. *)
Lemma remove_dups_ok : set_order_ok remove_dups.
Proof.
  intros l. split; [apply NoDup_remove_dups |].
  intros x. apply elem_of_remove_dups.
Qed.

(** ** The handshake hash *)

(** The model of SHA-256 on the test vectors of FIPS 180-4. *)
Example K_first_and_last :
  head Sha256.K = Some 0x428a2f98 /\ last Sha256.K = Some 0xc67178f2
  /\ head Sha256.H0 = Some 0x6a09e667 /\ last Sha256.H0 = Some 0x5be0cd19.
Proof. repeat split. Qed.

Example sha256_abc :
  Sha256.hexdigest (Sha256.encode_utf8 "abc")
  = "ba7816bf8f01cfea414140de5dae2223b00361a396177a9cb410ff61f20015ad".
Proof. vm_compute. reflexivity. Qed.

Example sha256_empty :
  Sha256.hexdigest []
  = "e3b0c44298fc1c149afbf4c8996fb92427ae41e4649b934ca495991b7852b855".
Proof. vm_compute. reflexivity. Qed.

Example sha256_two_blocks :
  Sha256.hexdigest
    (Sha256.encode_utf8 "abcdbcdecdefdefgefghfghighijhijkijkljklmklmnlmnomnopnopq")
  = "248d6a61d20638b8e5c026930c3e6039a33ce45964ff2167f6ecedd419db06c1".
Proof. vm_compute. reflexivity. Qed.

Lemma length_append (a b : string) :
  String.length (a +:+ b) = (String.length a + String.length b)%nat.
Proof. induction a as [|d a IH]; [done |]. rewrite append_cons. cbn. by rewrite IH. Qed.

Lemma append_inj_l (a b c : string) : a +:+ c = b +:+ c -> a = b.
Proof.
  revert b. induction a as [|d a IH]; intros [|e b] H.
  - done.
  - apply (f_equal String.length) in H. rewrite !length_append in H.
    cbn [String.length] in H. lia.
  - apply (f_equal String.length) in H. rewrite !length_append in H.
    cbn [String.length] in H. lia.
  - rewrite !append_cons in H. injection H as -> H. by rewrite (IH b H).
Qed.

Lemma N_of_ascii_lt (c : ascii) : (N_of_ascii c < 256)%N.
Proof. apply N_ascii_bounded. Qed.

Lemma byte_of_ascii_inj (c d : ascii) : byte_of_ascii c = byte_of_ascii d -> c = d.
Proof.
  intros H. apply (f_equal ascii_of_byte) in H. by rewrite !ascii_of_byte_of_ascii in H.
Qed.

Lemma ascii_of_N_inj (n m : N) : (n < 256)%N -> (m < 256)%N -> ascii_of_N n = ascii_of_N m -> n = m.
Proof.
  intros Hn Hm H. apply (f_equal N_of_ascii) in H.
  by rewrite !N_ascii_embedding in H.
Qed.

Lemma two_byte_bounds (n : N) :
  (n < 256)%N ->
  (192 <= 192 + n / 64 < 196)%N /\ (128 <= 128 + n mod 64 < 192)%N.
Proof.
  intros Hn.
  assert (n / 64 < 4)%N as Hq by (apply N.Div0.div_lt_upper_bound; lia).
  pose proof (N.mod_upper_bound n 64 ltac:(lia)) as Hr.
  revert Hq Hr. generalize (n / 64)%N (n mod 64)%N. lia.
Qed.

Lemma utf8_char_inj (c d : ascii) (r r' : list byte) :
  Sha256.utf8_char c ++ r = Sha256.utf8_char d ++ r' -> c = d /\ r = r'.
Proof.
  unfold Sha256.utf8_char.
  pose proof (N_of_ascii_lt c) as Hc. pose proof (N_of_ascii_lt d) as Hd.
  assert (Ec : c = ascii_of_N (N_of_ascii c)) by (by rewrite ascii_N_embedding).
  assert (Ed : d = ascii_of_N (N_of_ascii d)) by (by rewrite ascii_N_embedding).
  revert Ec Ed Hc Hd.
  generalize (N_of_ascii c) as n, (N_of_ascii d) as m. intros n m Ec Ed Hn Hm.
  destruct (two_byte_bounds n Hn) as [Hn1 Hn2], (two_byte_bounds m Hm) as [Hm1 Hm2].
  destruct (N.ltb_spec n 128) as [Hn'|Hn'], (N.ltb_spec m 128) as [Hm'|Hm'];
    cbn [app]; intros H.
  - injection H as H ->. by apply byte_of_ascii_inj in H as ->.
  - injection H as H _. apply byte_of_ascii_inj in H.
    rewrite H in Ec. apply ascii_of_N_inj in Ec; [| lia | lia].
    exfalso. revert Ec Hm1. generalize (m / 64)%N. lia.
  - injection H as H _. apply byte_of_ascii_inj in H.
    rewrite <- H in Ed. apply ascii_of_N_inj in Ed; [| lia | lia].
    exfalso. revert Ed Hn1. generalize (n / 64)%N. lia.
  - injection H as H1 H2 ->. split; [| done].
    apply byte_of_ascii_inj, ascii_of_N_inj in H1; [| lia | lia].
    apply byte_of_ascii_inj, ascii_of_N_inj in H2; [| lia | lia].
    apply N.add_cancel_l in H1, H2.
    rewrite Ec, Ed. f_equal.
    rewrite (N.div_mod n 64), (N.div_mod m 64) by lia. by rewrite H1, H2.
Qed.

Lemma encode_utf8_inj (a b : string) : Sha256.encode_utf8 a = Sha256.encode_utf8 b -> a = b.
Proof.
  revert b. induction a as [|c a IH]; intros [|d b] H; cbn [Sha256.encode_utf8] in H.
  - done.
  - unfold Sha256.utf8_char in H. by destruct (N_of_ascii d <? 128)%N.
  - unfold Sha256.utf8_char in H. by destruct (N_of_ascii c <? 128)%N.
  - apply utf8_char_inj in H as [-> H]. by rewrite (IH b H).
Qed.

Lemma encode_ascii_utf8 (s : string) (bytes : list byte) :
  Sha256.encode_ascii s = Some bytes -> bytes = Sha256.encode_utf8 s.
Proof.
  revert bytes. induction s as [|c s IH]; intros bytes H; cbn in H.
  - by injection H as <-.
  - cbn [Sha256.encode_utf8]. unfold Sha256.utf8_char.
    destruct (N_of_ascii c <? 128)%N; [| done].
    destruct (Sha256.encode_ascii s) as [r|]; [| done].
    injection H as <-. by rewrite (IH r eq_refl).
Qed.

Lemma to_hex_length (n : nat) (d : Z) (acc : string) :
  String.length (Sha256.to_hex n d acc) = (n + String.length acc)%nat.
Proof.
  revert d acc. induction n as [|n IH]; intros d acc; [done |].
  cbn [Sha256.to_hex]. rewrite IH. cbn [String.length]. lia.
Qed.

Lemma hex_digit_lowercase (d : Z) :
  Sha256.hex_digit d ∈ list_ascii_of_string "0123456789abcdef".
Proof.
  unfold Sha256.hex_digit.
  destruct (Nat.lt_ge_cases (Z.to_nat d) 16) as [H | H].
  - apply list_elem_of_In, nth_In. exact H.
  - rewrite nth_overflow by exact H. by left.
Qed.

Lemma to_hex_lowercase (n : nat) (d : Z) (acc : string) :
  (forall c, c ∈ list_ascii_of_string acc -> c ∈ list_ascii_of_string "0123456789abcdef") ->
  forall c, c ∈ list_ascii_of_string (Sha256.to_hex n d acc) ->
            c ∈ list_ascii_of_string "0123456789abcdef".
Proof.
  revert d acc. induction n as [|n IH]; intros d acc Hacc; [exact Hacc |].
  cbn [Sha256.to_hex]. apply IH. intros c. cbn [list_ascii_of_string].
  rewrite elem_of_cons. intros [-> | Hc]; [apply hex_digit_lowercase | by apply Hacc].
Qed.

(** The digest is 64 characters among [0-9a-f]. *)
Lemma hexdigest_shape (msg : list byte) :
  String.length (Sha256.hexdigest msg) = 64%nat
  /\ (forall c, c ∈ list_ascii_of_string (Sha256.hexdigest msg) ->
                c ∈ list_ascii_of_string "0123456789abcdef").
Proof.
  unfold Sha256.hexdigest. split; [by rewrite to_hex_length |].
  apply to_hex_lowercase. intros c Hc. by apply elem_of_nil in Hc.
Qed.

(** *** There are only 2^256 digests *)

Lemma add32_word (a b : Z) : Spec.word (Sha256.add32 a b).
Proof. unfold Spec.word, Sha256.add32. apply Z.mod_pos_bound. lia. Qed.

Lemma zip_with_add32_words (h st : list Z) : Forall Spec.word (zip_with Sha256.add32 h st).
Proof.
  revert st. induction h as [|a h IH]; intros [|b st]; cbn; try constructor.
  - apply add32_word.
  - apply IH.
Qed.

Lemma state_words (msg : list byte) :
  Forall Spec.word (Sha256.state msg) /\ (length (Sha256.state msg) <= 8)%nat.
Proof.
  unfold Sha256.state.
  generalize (Sha256.blocks (length (Sha256.pad msg))
                (Sha256.be_words (length (Sha256.pad msg)) (Sha256.pad msg))).
  intros bs.
  assert (H0 : Forall Spec.word Sha256.H0 /\ (length Sha256.H0 <= 8)%nat).
  { split; [| cbn; lia]. unfold Sha256.H0, Spec.word. repeat constructor; lia. }
  revert H0. generalize Sha256.H0 as h. induction bs as [|b bs IH]; intros h Hh; [exact Hh |].
  cbn [fold_left]. apply IH. unfold Sha256.compress. split.
  - apply zip_with_add32_words.
  - rewrite length_zip_with. lia.
Qed.

Lemma digest_fold_bound (ws : list Z) (acc : Z) (k : nat) :
  Forall Spec.word ws -> 0 <= acc < 2 ^ (32 * Z.of_nat k) ->
  0 <= fold_left (fun acc w => acc * 2 ^ 32 + w) ws acc
    < 2 ^ (32 * Z.of_nat (k + length ws)).
Proof.
  intros Hws. revert acc k. induction Hws as [|w ws Hw _ IH]; intros acc k Hacc.
  - cbn [fold_left length]. by rewrite Nat.add_0_r.
  - cbn [fold_left length]. replace (k + S (length ws))%nat with (S k + length ws)%nat by lia.
    apply IH. unfold Spec.word in Hw.
    replace (32 * Z.of_nat (S k)) with (32 * Z.of_nat k + 32) by lia.
    rewrite Z.pow_add_r by lia. nia.
Qed.

Lemma digest_bound (msg : list byte) : 0 <= Sha256.digest msg < 2 ^ 256.
Proof.
  unfold Sha256.digest. destruct (state_words msg) as [Hw Hl].
  pose proof (digest_fold_bound (Sha256.state msg) 0 0 Hw ltac:(cbn; lia)) as H.
  cbn [Nat.add] in H. split; [lia |].
  eapply Z.lt_le_trans; [apply H |].
  apply Z.pow_le_mono_r; lia.
Qed.
(** Among the strings of at most 2^256 letters two have the same digest. *)
Lemma letters_length (n : nat) : String.length (Spec.letters n) = n.
Proof. induction n as [|n IH]; [done |]. cbn. by rewrite IH. Qed.

Lemma append_nil_r (a : string) : a +:+ "" = a.
Proof. induction a as [|d a IH]; [done |]. by rewrite append_cons, IH. Qed.

Lemma no_injection_into_digests (f : nat -> Z) (bound : nat) :
  (forall n, 0 <= f n < Z.of_nat bound) ->
  ~ (forall n m : nat, (n <= bound)%nat -> (m <= bound)%nat -> f n = f m -> n = m).
Proof.
  intros Hf Hinj.
  assert (Hnd : NoDup ((fun n => Z.to_nat (f n)) <$> seq 0 (S bound))).
  { apply NoDup_fmap_2_strong; [| apply NoDup_seq].
    intros n m Hn Hm Heq. apply elem_of_seq in Hn, Hm.
    apply Hinj; [lia | lia |].
    apply Z2Nat.inj in Heq; [done | apply Hf | apply Hf]. }
  assert (Hsub : (fun n => Z.to_nat (f n)) <$> seq 0 (S bound) ⊆+ seq 0 bound).
  { apply NoDup_submseteq; [exact Hnd |].
    intros x Hx. apply list_elem_of_fmap in Hx as (n & -> & _).
    apply elem_of_seq. specialize (Hf n). lia. }
  apply submseteq_length in Hsub. rewrite length_fmap, !length_seq in Hsub. lia.
Qed.

(** C2 (amended): once the widget session gives the string [ks], the hash
    that Tool A sends to start the app-token session is the SHA-256
    lowercase hexadecimal digest of the UTF-8 bytes of [ks] followed by the
    token value, whatever the environment, the partner and the token id
    are; Tool B sends the same digest whenever the concatenation is ASCII,
    and raises the encoding error otherwise.  The digest is 64 characters
    among [0-9a-f].  Changing one of the two inputs changes the bytes that
    are hashed; the digest itself is not promised to change. *)
Theorem C2_handshake_hash_is_sha256_of_concatenation
    (env : Env) (partner_id : scalar) (app_token_id : pyval) (ks value : string)
    (tr : list event) :
  let widget := session_startWidgetSession ("_" +:+ str partner_id) in
  remote env tr widget = Ok (SStr ks) ->
  truthy (SStr ks) = true ->
  Spec.handshake_hash ks value = Sha256.hexdigest (Sha256.encode_utf8 (ks +:+ value))
  /\ (exists l,
        (ToolA.start_app_token_session env partner_id app_token_id (PStr value) tr).2
        = ((tr ++ [Call widget]) ++ [SetKs (SStr ks)])
          ++ Call (appToken_startSession app_token_id (Spec.handshake_hash ks value)
                     [PStr ""; PEnum "KalturaSessionType.USER"; PScalar partner_id]) :: l)
  /\ (forall bytes : list byte,
        Sha256.encode_ascii (ks +:+ value) = Some bytes ->
        bytes = Sha256.encode_utf8 (ks +:+ value)
        /\ exists l,
             (ToolB.start_app_token_session env partner_id app_token_id (PStr value) tr).2
             = ((tr ++ [Call widget]) ++ [SetKs (SStr ks)])
               ++ Call (appToken_startSession app_token_id
                          (Spec.handshake_hash ks value) []) :: l)
  /\ (Sha256.encode_ascii (ks +:+ value) = None ->
      ToolB.start_app_token_session env partner_id app_token_id (PStr value) tr
      = (Raise UnicodeEncodeError, (tr ++ [Call widget]) ++ [SetKs (SStr ks)]))
  /\ String.length (Spec.handshake_hash ks value) = 64%nat
  /\ (forall c, c ∈ list_ascii_of_string (Spec.handshake_hash ks value) ->
                c ∈ list_ascii_of_string "0123456789abcdef")
  /\ (forall ks' : string,
        ks' <> ks ->
        Sha256.encode_utf8 (ks' +:+ value) <> Sha256.encode_utf8 (ks +:+ value))
  /\ (forall value' : string,
        value' <> value ->
        Sha256.encode_utf8 (ks +:+ value') <> Sha256.encode_utf8 (ks +:+ value)).
Proof.
  intros widget Hw Hks. split; [reflexivity |].
  split; [| split; [| split; [| split; [| split; [| split]]]]].
  - unfold ToolA.start_app_token_session. run_step. fold widget.
    rewrite Hw, Hks. cbn [negb]. unfold PStr at 1, concat_for_hash. run_step.
    fold (Spec.handshake_hash ks value).
    on_remote; [destruct (truthy r) |..]; cbn [negb snd];
      eexists; rewrite <- !app_assoc; reflexivity.
  - intros bytes Hb. split; [by apply encode_ascii_utf8 |].
    unfold ToolB.start_app_token_session. run_step. fold widget.
    rewrite Hw, Hks. cbn [negb]. unfold PStr at 1, concat_for_hash. run_step.
    rewrite Hb. rewrite (encode_ascii_utf8 _ _ Hb). fold (Spec.handshake_hash ks value).
    on_remote; cbn [snd]; eexists; rewrite <- !app_assoc; reflexivity.
  - intros Hb. unfold ToolB.start_app_token_session. run_step. fold widget.
    rewrite Hw, Hks. cbn [negb]. unfold PStr at 1, concat_for_hash. run_step.
    by rewrite Hb.
  - apply hexdigest_shape.
  - apply hexdigest_shape.
  - intros ks' Hne H. apply Hne. by apply encode_utf8_inj, append_inj_l in H.
  - intros value' Hne H. apply Hne. by apply encode_utf8_inj, String.app_inj in H.
Qed.

Lemma C2_handshake_hash_is_sha256_of_concatenation_witness :
  Spec.handshake_hash "widget-ks" "s3cr3t"
  = Sha256.hexdigest (Sha256.encode_utf8 ("widget-ks" +:+ "s3cr3t"))
  /\ (exists l,
        (ToolA.start_app_token_session Samples.env_ok (SInt 12345) (PStr "1_abc")
           (PStr "s3cr3t") []).2
        = (([] ++ [Call (session_startWidgetSession "_12345")])
             ++ [SetKs (SStr "widget-ks")])
          ++ Call (appToken_startSession (PStr "1_abc")
                     (Spec.handshake_hash "widget-ks" "s3cr3t")
                     [PStr ""; PEnum "KalturaSessionType.USER"; PScalar (SInt 12345)]) :: l)
  /\ (exists l,
        (ToolB.start_app_token_session Samples.env_ok (SInt 12345) (PStr "1_abc")
           (PStr "s3cr3t") []).2
        = (([] ++ [Call (session_startWidgetSession "_12345")])
             ++ [SetKs (SStr "widget-ks")])
          ++ Call (appToken_startSession (PStr "1_abc")
                     (Spec.handshake_hash "widget-ks" "s3cr3t") []) :: l)
  /\ ToolB.start_app_token_session Samples.env_ok (SInt 12345) (PStr "1_abc")
       (PStr (String "233" "")) []
     = (Raise UnicodeEncodeError,
        ([] ++ [Call (session_startWidgetSession "_12345")]) ++ [SetKs (SStr "widget-ks")])
  /\ Sha256.encode_utf8 ("widget-kz" +:+ "s3cr3t")
     <> Sha256.encode_utf8 ("widget-ks" +:+ "s3cr3t").
Proof.
  destruct (C2_handshake_hash_is_sha256_of_concatenation Samples.env_ok (SInt 12345)
              (PStr "1_abc") "widget-ks" "s3cr3t" [] eq_refl eq_refl)
    as (H1 & H2 & H3 & _ & _ & _ & H7 & _).
  destruct (C2_handshake_hash_is_sha256_of_concatenation Samples.env_ok (SInt 12345)
              (PStr "1_abc") "widget-ks" (String "233" "") [] eq_refl eq_refl)
    as (_ & _ & _ & H4 & _).
  split; [exact H1 |]. split; [exact H2 |].
  split; [exact (proj2 (H3 _ eq_refl)) |].
  split; [apply H4; reflexivity |].
  apply H7. discriminate.
Defined.

(** C2, the claim as stated fails: it is not true that changing the session
    string always changes the digest, since the strings of up to 2^256
    letters cannot all have different 256-bit digests; and on a token value
    that is not ASCII Tool B computes no hash at all. *)
Lemma C2_digest_not_sensitive :
  ~ (forall ks ks' value : string,
       ks <> ks' -> Spec.handshake_hash ks value <> Spec.handshake_hash ks' value)
  /\ (ToolB.start_app_token_session Samples.env_ok (SInt 12345) (PStr "1_abc")
        (PStr (String "233" "")) []).1 = Raise UnicodeEncodeError.
Proof.
  split; [| reflexivity].
  intros Hsens.
  apply (no_injection_into_digests
           (fun n => Sha256.digest (Sha256.encode_utf8 (Spec.letters n +:+ "")))
           (Z.to_nat (2 ^ 256))).
  - intros n. rewrite Z2Nat.id by lia. apply digest_bound.
  - intros n m _ _ Heq. destruct (decide (n = m)) as [| Hne]; [done |].
    exfalso. apply (Hsens (Spec.letters n) (Spec.letters m) "").
    + intros H. apply Hne. by rewrite <- (letters_length n), <- (letters_length m), H.
    + unfold Spec.handshake_hash, Sha256.hexdigest. by rewrite Heq.
Qed.

(** ** Tool A: wrapping a text on a width *)

Lemma substring_app_skip (p t : string) (n m : nat) :
  String.substring (String.length p + n) m (p +:+ t) = String.substring n m t.
Proof. induction p as [|c p IH]; [done |]. rewrite append_cons. exact IH. Qed.

Lemma substring_0_all (t : string) (m : nat) :
  (String.length t <= m)%nat -> String.substring 0 m t = t.
Proof.
  revert m. induction t as [|c t IH]; intros [|m] H; cbn in *; try done; try lia.
  rewrite IH; [done | lia].
Qed.

Lemma substring_0_length (t : string) (m : nat) :
  (m <= String.length t)%nat -> String.length (String.substring 0 m t) = m.
Proof.
  revert t. induction m as [|m IH]; intros [|c t] H; cbn in *; try done; try lia.
  rewrite IH; [done | lia].
Qed.

Lemma substring_rest_length (t : string) (n : nat) :
  (n <= String.length t)%nat ->
  String.length (String.substring n (String.length t - n) t) = (String.length t - n)%nat.
Proof.
  revert t. induction n as [|n IH]; intros t H.
  - rewrite Nat.sub_0_r, substring_0_all; [done | lia].
  - destruct t as [|c t]; [cbn in H; lia |]. cbn in *. apply IH. lia.
Qed.

Lemma substring_split (t : string) (n : nat) :
  (n <= String.length t)%nat ->
  String.substring 0 n t +:+ String.substring n (String.length t - n) t = t.
Proof.
  revert t. induction n as [|n IH]; intros t H.
  - rewrite Nat.sub_0_r, (substring_0_all t (String.length t)); [| lia]. by destruct t.
  - destruct t as [|c t]; [cbn in H; lia |]. cbn in *. rewrite append_cons, IH; [done | lia].
Qed.

Lemma slice_after_prefix (p t : string) (width : Z) :
  0 < width ->
  Wrap.slice (p +:+ t) (Z.of_nat (String.length p)) (Z.of_nat (String.length p) + width)
  = String.substring 0 (Z.to_nat width) t.
Proof.
  intros Hw. unfold Wrap.slice, Wrap.clamp. rewrite length_append.
  destruct (Z.ltb_spec (Z.of_nat (String.length p)) 0) as [? | _]; [lia |].
  destruct (Z.ltb_spec (Z.of_nat (String.length p) + width) 0) as [? | _]; [lia |].
  rewrite Z.min_l by lia. rewrite Nat2Z.id.
  rewrite <- (Nat.add_0_r (String.length p)) at 1. rewrite substring_app_skip.
  destruct (Z.le_gt_cases width (Z.of_nat (String.length t))) as [H | H].
  - rewrite Z.min_l by lia. f_equal. lia.
  - rewrite Z.min_r by lia. rewrite !substring_0_all; [done | lia | lia].
Qed.

Lemma join_empty_cons (h : string) (rest : list string) :
  join "" (h :: rest) = h +:+ join "" rest.
Proof. destruct rest; cbn; [by rewrite append_nil_r | done]. Qed.

Lemma range_up_done (fuel : nat) (i stop step : Z) :
  stop <= i -> Wrap.range_up fuel i stop step = [].
Proof.
  intros H. destruct fuel; [done |]. cbn.
  by destruct (Z.ltb_spec i stop); [lia |].
Qed.

Lemma wrap_lines (fuel : nat) (width : Z) :
  0 < width ->
  forall p t : string,
    (String.length t <= fuel)%nat ->
    let lines :=
      map (fun i => Wrap.slice (p +:+ t) i (i + width))
        (Wrap.range_up fuel (Z.of_nat (String.length p))
           (Z.of_nat (String.length (p +:+ t))) width) in
    join "" lines = t
    /\ Forall (fun line => 1 <= Z.of_nat (String.length line) <= width) lines
    /\ (forall (i : nat) (line : string),
          lines !! i = Some line -> (S i < length lines)%nat ->
          Z.of_nat (String.length line) = width)
    /\ Z.of_nat (length lines) = (Z.of_nat (String.length t) + width - 1) / width.
Proof.
  intros Hw. induction fuel as [|fuel IH]; intros p t Hlen; cbv zeta.
  - destruct t; [| cbn in Hlen; lia]. cbn [Wrap.range_up map length String.length].
    repeat split; [constructor | by intros i line H |].
    rewrite Z.div_small; lia.
  - cbn [Wrap.range_up]. rewrite length_append.
    destruct (Z.ltb_spec (Z.of_nat (String.length p))
                (Z.of_nat (String.length p + String.length t))) as [Hlt | Hge].
    2: { destruct t; [| cbn in Hge; lia]. cbn [map length String.length].
         repeat split; [constructor | by intros i line H |].
         rewrite Z.div_small; lia. }
    cbn [map]. rewrite slice_after_prefix by exact Hw.
    destruct (Nat.lt_ge_cases (Z.to_nat width) (String.length t)) as [Hshort | Hlong].
    + pose proof (substring_split t (Z.to_nat width) ltac:(lia)) as Hsplit.
      pose proof (substring_0_length t (Z.to_nat width) ltac:(lia)) as Hh.
      pose proof (substring_rest_length t (Z.to_nat width) ltac:(lia)) as Ht'.
      revert Hsplit Hh Ht'.
      generalize (String.substring 0 (Z.to_nat width) t) as h.
      generalize (String.substring (Z.to_nat width) (String.length t - Z.to_nat width) t) as t'.
      intros t' h Hsplit Hh Ht'.
      specialize (IH (p +:+ h) t' ltac:(lia)). cbv zeta in IH.
      rewrite append_assoc, Hsplit, !length_append, Hh in IH.
      replace (Z.of_nat (String.length p) + width)
        with (Z.of_nat (String.length p + Z.to_nat width)) by lia.
      replace (Z.of_nat (String.length p + String.length t))
        with (Z.of_nat (String.length p + Z.to_nat width + String.length t'))
        in IH |- * by lia.
      revert IH.
      match goal with
      | |- context [map ?f ?l] => generalize (map f l) as rest
      end.
      intros rest (Hjoin & Hall & Hfull & Hcount).
      split; [by rewrite join_empty_cons, Hjoin |].
      split; [constructor; [lia | exact Hall] |].
      split.
      * intros [|i] line Hi Hn; cbn in Hi, Hn.
        -- injection Hi as <-. lia.
        -- apply (Hfull i line Hi). lia.
      * cbn [length]. rewrite Nat2Z.inj_succ, Hcount.
        replace (Z.of_nat (String.length t) + width - 1)
          with (Z.of_nat (String.length t') + width - 1 + 1 * width) by lia.
        rewrite Z.div_add by lia. lia.
    + rewrite substring_0_all by lia. rewrite range_up_done by lia. cbn [map length].
      destruct t as [|c t]; [cbn in Hlt; lia |].
      split; [done |]. split; [constructor; [cbn [String.length] in *; lia | constructor] |].
      split; [intros i line _ Hn; cbn in Hn; lia |].
      change (Z.of_nat 1) with 1.
      apply (Z.div_unique _ _ 1 (Z.of_nat (String.length (String c t)) - 1));
        cbn [String.length] in *; lia.
Qed.

Lemma wrap_text_lines (text : string) (width : Z) :
  0 < width ->
  exists lines,
    Wrap.wrap_text text width = Some lines
    /\ join "" lines = text
    /\ Forall (fun line => 1 <= Z.of_nat (String.length line) <= width) lines
    /\ (forall (i : nat) (line : string),
          lines !! i = Some line -> (S i < length lines)%nat ->
          Z.of_nat (String.length line) = width)
    /\ Z.of_nat (length lines) = (Z.of_nat (String.length text) + width - 1) / width.
Proof.
  intros Hw. unfold Wrap.wrap_text, Wrap.range.
  destruct (Z.eqb_spec width 0) as [? | _]; [lia |].
  destruct (Z.ltb_spec 0 width) as [_ | ?]; [| lia].
  eexists. split; [reflexivity |].
  rewrite Z.sub_0_r, Nat2Z.id.
  exact (wrap_lines (String.length text) width Hw "" text (le_n _)).
Qed.

(** X1: for a positive width the lines [wrap_text] returns, put back
    together, are the text: nothing is lost, added or reordered. *)
Theorem wrap_text_round_trip (text : string) (width : Z) :
  0 < width ->
  exists lines, Wrap.wrap_text text width = Some lines /\ join "" lines = text.
Proof.
  intros Hw. destruct (wrap_text_lines text width Hw) as (lines & H1 & H2 & _).
  by exists lines.
Qed.

Lemma wrap_text_round_trip_witness :
  0 < 3 /\ exists lines, Wrap.wrap_text "abcdefg" 3 = Some lines /\ join "" lines = "abcdefg".
Proof. split; [lia |]. apply (wrap_text_round_trip "abcdefg" 3). lia. Defined.

(** X2: for a positive width [wrap_text] cuts the text into
    ceil(len / width) lines, none of them empty or longer than the width,
    and every line but the last is exactly [width] characters long. *)
Theorem wrap_text_line_lengths (text : string) (width : Z) :
  0 < width ->
  exists lines,
    Wrap.wrap_text text width = Some lines
    /\ Z.of_nat (length lines) = (Z.of_nat (String.length text) + width - 1) / width
    /\ Forall (fun line => 1 <= Z.of_nat (String.length line) <= width) lines
    /\ (forall (i : nat) (line : string),
          lines !! i = Some line -> (S i < length lines)%nat ->
          Z.of_nat (String.length line) = width).
Proof.
  intros Hw. destruct (wrap_text_lines text width Hw) as (lines & H1 & _ & H3 & H4 & H5).
  by exists lines.
Qed.

Lemma wrap_text_line_lengths_witness :
  0 < 3
  /\ exists lines,
       Wrap.wrap_text "abcdefg" 3 = Some lines
       /\ Z.of_nat (length lines) = (Z.of_nat (String.length "abcdefg") + 3 - 1) / 3
       /\ Forall (fun line => 1 <= Z.of_nat (String.length line) <= 3) lines
       /\ (forall (i : nat) (line : string),
             lines !! i = Some line -> (S i < length lines)%nat ->
             Z.of_nat (String.length line) = 3).
Proof. split; [lia |]. apply (wrap_text_line_lengths "abcdefg" 3). lia. Defined.

(** X3: [wrap_text] at its edges: a zero width is the [ValueError] of
    [range], a negative width gives no line at all whatever the text is,
    and the empty text gives no line for any width but zero. *)
Theorem wrap_text_edges (text : string) (width : Z) :
  Wrap.wrap_text text 0 = None
  /\ (width < 0 -> Wrap.wrap_text text width = Some [])
  /\ (width <> 0 -> Wrap.wrap_text "" width = Some []).
Proof.
  unfold Wrap.wrap_text, Wrap.range. split; [done |]. split.
  - intros Hw. destruct (Z.eqb_spec width 0) as [? | _]; [lia |].
    destruct (Z.ltb_spec 0 width) as [? | _]; [lia |].
    replace (Z.to_nat (0 - Z.of_nat (String.length text))) with 0%nat by lia. done.
  - intros Hw. destruct (Z.eqb_spec width 0) as [? | _]; [done |].
    by destruct (Z.ltb_spec 0 width).
Qed.

Lemma wrap_text_edges_witness :
  Wrap.wrap_text "abc" 0 = None
  /\ Wrap.wrap_text "abc" (-2) = Some []
  /\ Wrap.wrap_text "" 5 = Some [].
Proof.
  destruct (wrap_text_edges "abc" (-2)) as (H1 & H2 & _).
  destruct (wrap_text_edges "abc" 5) as (_ & _ & H3).
  split; [exact H1 |]. split; [apply H2; lia | apply H3; lia].
Defined.

(** ** Tool A: dispatch and platform errors *)

Lemma truthy_given (id : string) : id <> "" -> truthy (of_opt_str (Some id)) = true.
Proof. intros H. cbn. by apply negb_true_iff, String.eqb_neq. Qed.

(** X4: a delete id takes priority over every other command of Tool A:
    whatever else is on the command line, the only remote calls of the run
    are the admin session start and the delete of that id. *)
Theorem delete_takes_priority (env : Env) (args : ToolA.Args.t) (id : string) :
  ToolA.Args.delete args = Some id -> id <> "" ->
  Behaviour.deleting_only id (calls (ToolA.run_application env args []).2).
Proof.
  intros Hdel Hid. unfold ToolA.run_application, ToolA.load_configuration,
    ToolA.initialize_client, ToolA.start_admin_session, ToolA.delete_app_token.
  rewrite Hdel, (truthy_given id Hid). cbn [default]. run_step.
  destruct (config_file env) as [| | cfg]; [by left | by left |].
  destruct (cfg !! "PARTNER_ID"); [| by left].
  destruct (cfg !! "KALTURA_SERVICE_URL"); [| by left].
  on_remote; try (right; left; autorewrite with trace; cbn; by eauto 10).
  cbn [app].
  on_remote; right; right; autorewrite with trace; cbn; by eauto 10.
Qed.

Lemma delete_takes_priority_witness :
  Behaviour.deleting_only "1_abc"
    (calls (ToolA.run_application Samples.env_ok Faults.delete_and_more []).2).
Proof.
  apply (delete_takes_priority Samples.env_ok Faults.delete_and_more "1_abc");
    [reflexivity | discriminate].
Defined.

(** *** No platform error escapes *)

Lemma contains_ret {A} (a : A) : Behaviour.contains_platform_errors (ret a).
Proof. by intros tr code text. Qed.

Lemma contains_raise {A} (e : exn) :
  (forall code text, e <> KalturaException code text) ->
  Behaviour.contains_platform_errors (@raise A e).
Proof. intros He tr code text H. apply (He code text). by injection H. Qed.

Lemma contains_emit (e : event) : Behaviour.contains_platform_errors (emit e).
Proof. by intros tr code text. Qed.

Lemma contains_bind {A B} (m : M A) (k : A -> M B) :
  Behaviour.contains_platform_errors m ->
  (forall a, Behaviour.contains_platform_errors (k a)) ->
  Behaviour.contains_platform_errors (bind m k).
Proof.
  intros Hm Hk tr code text. unfold bind.
  specialize (Hm tr code text). destruct (m tr) as [[a | e] tr']; [apply Hk |].
  cbn in *. intros H. apply Hm. injection H as ->. reflexivity.
Qed.

Lemma contains_except {A} (body : M A) (handler : string -> string -> M A) :
  (forall code text, Behaviour.contains_platform_errors (handler code text)) ->
  Behaviour.contains_platform_errors (except_KalturaException body handler).
Proof.
  intros Hh tr code text. unfold except_KalturaException.
  destruct (body tr) as [[a | e] tr']; [done |].
  destruct e; try done. apply Hh.
Qed.

Lemma contains_getitem (d : gmap string scalar) (key : string) :
  Behaviour.contains_platform_errors (getitem d key).
Proof. unfold getitem. destruct (d !! key); [apply contains_ret | by apply contains_raise]. Qed.

Ltac contains_step :=
  lazymatch goal with
  | |- Behaviour.contains_platform_errors (bind _ _) => apply contains_bind; [| intros ?]
  | |- Behaviour.contains_platform_errors (except_KalturaException _ _) =>
      apply contains_except; intros ? ?
  | |- Behaviour.contains_platform_errors (ret _) => apply contains_ret
  | |- Behaviour.contains_platform_errors (raise _) => by apply contains_raise
  | |- Behaviour.contains_platform_errors (emit _) => apply contains_emit
  | |- Behaviour.contains_platform_errors (print _) => apply contains_emit
  | |- Behaviour.contains_platform_errors (setKs _) => apply contains_emit
  | |- Behaviour.contains_platform_errors (getitem _ _) => apply contains_getitem
  | |- Behaviour.contains_platform_errors (if ?b then _ else _) => destruct b
  | |- Behaviour.contains_platform_errors (match ?x with _ => _ end) => destruct x
  | |- Behaviour.contains_platform_errors (let '(_, _) := ?x in _) => destruct x
  end.

Ltac contains_tac := repeat (cbv beta zeta; contains_step).

(** X5: without [--start_session] no [KalturaException] escapes a run of
    Tool A: every refusal of the platform is caught where the call is made
    (printed, or for the admin session turned into a plain [Exception]). *)
Theorem toolA_contains_platform_errors (env : Env) (args : ToolA.Args.t) :
  ToolA.Args.start_session args = false ->
  Behaviour.contains_platform_errors (ToolA.run_application env args).
Proof.
  intros Hs. unfold ToolA.run_application, ToolA.load_configuration,
    ToolA.initialize_client, ToolA.start_admin_session, ToolA.delete_app_token,
    ToolA.list_app_tokens, ToolA.process_app_token_arguments,
    ToolA.update_app_token, ToolA.create_app_token.
  rewrite Hs. contains_tac.
Qed.

Lemma toolA_contains_platform_errors_witness :
  Behaviour.contains_platform_errors
    (ToolA.run_application Faults.env_update_refused Faults.update_only).
Proof.
  apply (toolA_contains_platform_errors Faults.env_update_refused Faults.update_only).
  reflexivity.
Defined.

(** ** Tool A: a refused admin session *)

(** X6: when the platform refuses the admin session of Tool A, the run
    ends there: the [KalturaException] is replaced by a plain [Exception]
    whose message is [Failed to start session: ] followed by the platform's
    text, and the session start is the only remote call made. *)
Theorem refused_admin_session_ends_run
    (env : Env) (args : ToolA.Args.t) (config : gmap string scalar)
    (tr : list event) (code text : string) :
  config_file env = FileJson config ->
  is_Some (config !! "PARTNER_ID") ->
  is_Some (config !! "KALTURA_SERVICE_URL") ->
  remote env tr (Behaviour.admin_session_A config) = Raise (KalturaException code text) ->
  ToolA.run_application env args tr
  = (Raise (Exception ("Failed to start session: " +:+ text)),
     tr ++ [Call (Behaviour.admin_session_A config)]).
Proof.
  intros Hcfg [p Hp] [u Hu] Href.
  unfold ToolA.run_application, ToolA.load_configuration, ToolA.initialize_client.
  rewrite Hcfg, bind_ret_l, !bind_assoc.
  rewrite (bind_getitem_Some _ _ _ _ _ Hp), bind_assoc.
  rewrite (bind_getitem_Some _ _ _ _ _ Hu), !bind_ret_l.
  unfold ToolA.start_admin_session. run_step.
  fold (Behaviour.admin_session_A config). by rewrite Href.
Qed.

Lemma refused_admin_session_ends_run_witness :
  ToolA.run_application Faults.env_session_refused Faults.create_only []
  = (Raise (Exception ("Failed to start session: "
                       +:+ "The access to service is forbidden (SERVICE_FORBIDDEN)")),
     [] ++ [Call (Behaviour.admin_session_A Samples.config_1)]).
Proof.
  apply (refused_admin_session_ends_run Faults.env_session_refused Faults.create_only
           Samples.config_1 [] "SERVICE_FORBIDDEN");
    [reflexivity | by exists (SInt 12345) | by exists (SStr "https://www.kaltura.com")
    | reflexivity].
Defined.

(** ** The handshake: what comes back *)

(** X7: when the handshake of Tool A returns a session string, that string
    is not empty, it is the answer of the app-token session request, and it
    is the last session set on the client; the trace it added is the widget
    request, the unprivileged session set on the client, the app-token
    session request and the privileged session set on the client. *)
Theorem handshake_A_returns_current_session
    (env : Env) (partner_id : scalar) (app_token_id app_token_value : pyval)
    (tr : list event) (ks : scalar) :
  (ToolA.start_app_token_session env partner_id app_token_id app_token_value tr).1 = Ok ks ->
  truthy ks = true
  /\ exists (unprivileged_ks token_hash : string),
       truthy (SStr unprivileged_ks) = true
       /\ remote env tr (session_startWidgetSession ("_" +:+ str partner_id))
          = Ok (SStr unprivileged_ks)
       /\ (ToolA.start_app_token_session env partner_id app_token_id app_token_value tr).2
          = tr ++ [Call (session_startWidgetSession ("_" +:+ str partner_id));
                   SetKs (SStr unprivileged_ks);
                   Call (appToken_startSession app_token_id token_hash
                           [PStr ""; PEnum "KalturaSessionType.USER"; PScalar partner_id]);
                   SetKs ks].
Proof.
  unfold ToolA.start_app_token_session. run_step.
  destruct (remote env tr (session_startWidgetSession ("_" +:+ str partner_id)))
    as [u | e] eqn:Hw; [| discriminate].
  destruct (truthy u) eqn:Hu; cbn [negb]; [| discriminate].
  unfold concat_for_hash.
  destruct u as [| b | z | u]; try discriminate Hu;
    destruct app_token_value as [[| b' | z' | v] | |]; run_step; try discriminate.
  match goal with
  | |- context [remote env ?t ?c] => destruct (remote env t c) as [p | e] eqn:Hp
  end; [| discriminate].
  destruct (truthy p) eqn:Htp; cbn [negb]; [| discriminate].
  cbn [fst snd]. intros [= <-]. split; [exact Htp |].
  eexists u, _. split; [exact Hu |]. split; [reflexivity |].
  rewrite <- !app_assoc. reflexivity.
Qed.

Lemma handshake_A_returns_current_session_witness :
  truthy (SStr "privileged-ks") = true
  /\ exists (unprivileged_ks token_hash : string),
       truthy (SStr unprivileged_ks) = true
       /\ remote Samples.env_ok [] (session_startWidgetSession ("_" +:+ str (SInt 12345)))
          = Ok (SStr unprivileged_ks)
       /\ (ToolA.start_app_token_session Samples.env_ok (SInt 12345) (PStr "1_abc")
             (PStr "s3cr3t") []).2
          = [] ++ [Call (session_startWidgetSession ("_" +:+ str (SInt 12345)));
                   SetKs (SStr unprivileged_ks);
                   Call (appToken_startSession (PStr "1_abc") token_hash
                           [PStr ""; PEnum "KalturaSessionType.USER"; PScalar (SInt 12345)]);
                   SetKs (SStr "privileged-ks")].
Proof.
  apply (handshake_A_returns_current_session Samples.env_ok (SInt 12345) (PStr "1_abc")
           (PStr "s3cr3t") [] (SStr "privileged-ks")).
  reflexivity.
Defined.

(** X8: when the handshake of Tool B returns, it returns either [None],
    after printing that no unprivileged session came back and without
    asking for the app-token session, or exactly what the app-token session
    request answered, set on the client as it is: the answer is not
    checked, so an empty session string is returned like any other. *)
Theorem handshake_B_returns_answer_unchecked
    (env : Env) (partner_id : scalar) (app_token_id app_token_value : pyval)
    (tr : list event) (ks : scalar) :
  let widget := session_startWidgetSession ("_" +:+ str partner_id) in
  (ToolB.start_app_token_session env partner_id app_token_id app_token_value tr).1 = Ok ks ->
  (ks = SNone
   /\ (ToolB.start_app_token_session env partner_id app_token_id app_token_value tr).2
      = tr ++ [Call widget; Print [FLit "Failed to get an unprivileged ks."]])
  \/ (exists (unprivileged_ks hash_string : string),
        truthy (SStr unprivileged_ks) = true
        /\ remote env tr widget = Ok (SStr unprivileged_ks)
        /\ remote env ((tr ++ [Call widget]) ++ [SetKs (SStr unprivileged_ks)])
             (appToken_startSession app_token_id hash_string []) = Ok ks
        /\ (ToolB.start_app_token_session env partner_id app_token_id app_token_value tr).2
           = tr ++ [Call widget; SetKs (SStr unprivileged_ks);
                    Call (appToken_startSession app_token_id hash_string []);
                    SetKs ks]).
Proof.
  intros widget. unfold ToolB.start_app_token_session. run_step. fold widget.
  destruct (remote env tr widget) as [u | e] eqn:Hw; [| discriminate].
  destruct (truthy u) eqn:Hu; cbn [negb].
  2: { cbn [fst snd]. intros [= <-]. left. split; [done |]. by rewrite <- app_assoc. }
  unfold concat_for_hash.
  destruct u as [| b | z | u]; try discriminate Hu;
    destruct app_token_value as [[| b' | z' | v] | |]; run_step; try discriminate.
  destruct (Sha256.encode_ascii (u +:+ v)) as [bytes |]; [| discriminate].
  match goal with
  | |- context [remote env ?t ?c] => destruct (remote env t c) as [p | e] eqn:Hp
  end; [| discriminate].
  cbn [fst snd]. intros [= <-]. right.
  eexists u, _. split; [exact Hu |]. split; [reflexivity |]. split; [exact Hp |].
  rewrite <- !app_assoc. reflexivity.
Qed.

Lemma handshake_B_returns_answer_unchecked_witness :
  (SStr "" = SNone
   /\ (ToolB.start_app_token_session Samples.env_no_privileged_ks (SInt 12345)
         (PStr "1_abc") (PStr "s3cr3t") []).2
      = [] ++ [Call (session_startWidgetSession ("_" +:+ str (SInt 12345)));
               Print [FLit "Failed to get an unprivileged ks."]])
  \/ (exists (unprivileged_ks hash_string : string),
        truthy (SStr unprivileged_ks) = true
        /\ remote Samples.env_no_privileged_ks []
             (session_startWidgetSession ("_" +:+ str (SInt 12345)))
           = Ok (SStr unprivileged_ks)
        /\ remote Samples.env_no_privileged_ks
             (([] ++ [Call (session_startWidgetSession ("_" +:+ str (SInt 12345)))])
                ++ [SetKs (SStr unprivileged_ks)])
             (appToken_startSession (PStr "1_abc") hash_string []) = Ok (SStr "")
        /\ (ToolB.start_app_token_session Samples.env_no_privileged_ks (SInt 12345)
              (PStr "1_abc") (PStr "s3cr3t") []).2
           = [] ++ [Call (session_startWidgetSession ("_" +:+ str (SInt 12345)));
                    SetKs (SStr unprivileged_ks);
                    Call (appToken_startSession (PStr "1_abc") hash_string []);
                    SetKs (SStr "")]).
Proof.
  apply (handshake_B_returns_answer_unchecked Samples.env_no_privileged_ks (SInt 12345)
           (PStr "1_abc") (PStr "s3cr3t") [] (SStr "")).
  reflexivity.
Defined.

(** X9: in both tools the handshake makes the widget session request and
    then at most one app-token session request, and it makes the second
    only after the first gave back a non-empty session string: no hash is
    ever sent that was not computed from a session the platform returned. *)
Theorem handshake_call_discipline
    (env : Env) (partner_id : scalar) (app_token_id app_token_value : pyval)
    (tr : list event) :
  let widget := session_startWidgetSession ("_" +:+ str partner_id) in
  let disciplined (l : list call) :=
    l = [widget]
    \/ exists (unprivileged_ks token_hash : string) (rest : list pyval),
         l = [widget; appToken_startSession app_token_id token_hash rest]
         /\ remote env tr widget = Ok (SStr unprivileged_ks)
         /\ unprivileged_ks <> "" in
  (exists l,
     calls (ToolA.start_app_token_session env partner_id app_token_id app_token_value tr).2
     = calls tr ++ l /\ disciplined l)
  /\ (exists l,
        calls (ToolB.start_app_token_session env partner_id app_token_id app_token_value tr).2
        = calls tr ++ l /\ disciplined l).
Proof.
  intros widget disciplined. split.
  - unfold ToolA.start_app_token_session. run_step. fold widget.
    destruct (remote env tr widget) as [u | e] eqn:Hw;
      [| exists [widget]; split; [by autorewrite with trace | by left]].
    destruct (truthy u) eqn:Hu; cbn [negb];
      [| exists [widget]; split; [by autorewrite with trace | by left]].
    unfold concat_for_hash.
    destruct u as [| b | z | u]; try discriminate Hu;
      destruct app_token_value as [[| b' | z' | v] | |]; run_step;
      try (exists [widget]; split; [by autorewrite with trace | by left]).
    eexists [widget; _]. split.
    + on_remote; [destruct (truthy r) |..]; cbn [negb snd]; autorewrite with trace;
        by rewrite <- app_assoc.
    + right. eexists u, _, _. split; [reflexivity |]. split; [reflexivity |].
      intros ->. discriminate Hu.
  - unfold ToolB.start_app_token_session. run_step. fold widget.
    destruct (remote env tr widget) as [u | e] eqn:Hw;
      [| exists [widget]; split; [by autorewrite with trace | by left]].
    destruct (truthy u) eqn:Hu; cbn [negb];
      [| exists [widget]; split; [by autorewrite with trace | by left]].
    unfold concat_for_hash.
    destruct u as [| b | z | u]; try discriminate Hu;
      destruct app_token_value as [[| b' | z' | v] | |]; run_step;
      try (exists [widget]; split; [by autorewrite with trace | by left]).
    destruct (Sha256.encode_ascii (u +:+ v)) as [bytes |];
      [| exists [widget]; split; [by autorewrite with trace | by left]].
    eexists [widget; _]. split.
    + on_remote; cbn [snd]; autorewrite with trace; by rewrite <- app_assoc.
    + right. eexists u, _, _. split; [reflexivity |]. split; [reflexivity |].
      intros ->. discriminate Hu.
Qed.

(** ** Tool A: the privilege string in closed form *)

Lemma omap_cons_option_list {A B} (f : A -> option B) (x : A) (l : list A) :
  omap f (x :: l) = option_list (f x) ++ omap f l.
Proof. cbn. by destruct (f x). Qed.

Lemma token_given_str (args : ToolA.Args.t) (name : string) (o : option string) :
  ToolA.getattr args name = of_opt_str o -> String.eqb name "list" = false ->
  option_list (ToolA.token args name) = Behaviour.given_str name o.
Proof.
  intros Hget Hname. unfold ToolA.token, ToolA.handle_privilege.
  rewrite Hget, Hname. by destruct o.
Qed.

Lemma token_given_int (args : ToolA.Args.t) (name : string) (o : option Z) :
  ToolA.getattr args name = of_opt_int o -> String.eqb name "list" = false ->
  option_list (ToolA.token args name) = Behaviour.given_int name o.
Proof.
  intros Hget Hname. unfold ToolA.token, ToolA.handle_privilege.
  rewrite Hget, Hname. by destruct o.
Qed.

Lemma token_flag (args : ToolA.Args.t) (name : string) (b : bool) :
  ToolA.getattr args name = SBool b -> String.eqb name "list" = false ->
  option_list (ToolA.token args name) = Behaviour.flag name b.
Proof.
  intros Hget Hname. unfold ToolA.token, ToolA.handle_privilege.
  rewrite Hget, Hname. by destruct b.
Qed.

(** X10: the privilege string in closed form.  Whatever the order of the
    command line, the tokens come in the order of the table; an option with
    a value adds [name:value] when it is given and nothing when it is not;
    [list:*] is always there, and each of the three switches
    [enableentitlement], [disableentitlement] and
    [enablecategorymoderation] always adds its token, with [True] or
    [False]. *)
Theorem build_privileges_closed_form (args : ToolA.Args.t) :
  ToolA.build_privileges args
  = join ","
      (Behaviour.given_str "edit" (ToolA.Args.edit args)
       ++ Behaviour.given_str "sview" (ToolA.Args.sview args)
       ++ ["list:*"]
       ++ Behaviour.given_str "download" (ToolA.Args.download args)
       ++ Behaviour.given_str "downloadasset" (ToolA.Args.downloadasset args)
       ++ Behaviour.given_str "editplaylist" (ToolA.Args.editplaylist args)
       ++ Behaviour.given_str "sviewplaylist" (ToolA.Args.sviewplaylist args)
       ++ Behaviour.given_str "edituser" (ToolA.Args.edituser args)
       ++ Behaviour.given_int "actionslimit" (ToolA.Args.actionslimit args)
       ++ Behaviour.given_str "setrole" (ToolA.Args.setrole args)
       ++ Behaviour.given_str "iprestrict" (ToolA.Args.iprestrict args)
       ++ Behaviour.given_str "urirestrict" (ToolA.Args.urirestrict args)
       ++ Behaviour.flag "enableentitlement" (ToolA.Args.enableentitlement args)
       ++ Behaviour.flag "disableentitlement" (ToolA.Args.disableentitlement args)
       ++ Behaviour.given_str "disableentitlementforentry"
            (ToolA.Args.disableentitlementforentry args)
       ++ Behaviour.given_str "privacycontext" (ToolA.Args.privacycontext args)
       ++ Behaviour.flag "enablecategorymoderation"
            (ToolA.Args.enablecategorymoderation args)
       ++ Behaviour.given_int "reftime" (ToolA.Args.reftime args)
       ++ Behaviour.given_int "preview" (ToolA.Args.preview args)
       ++ Behaviour.given_str "sessionid" (ToolA.Args.sessionid args)).
Proof.
  rewrite build_privileges_join. f_equal. unfold ToolA.PRIVILEGE_NAMES.
  rewrite !omap_cons_option_list.
  change (omap (ToolA.token args) []) with (@nil string). rewrite app_nil_r.
  rewrite (token_given_str args "edit" (ToolA.Args.edit args)) by reflexivity.
  rewrite (token_given_str args "sview" (ToolA.Args.sview args)) by reflexivity.
  change (option_list (ToolA.token args "list")) with ["list:*"].
  rewrite (token_given_str args "download" (ToolA.Args.download args)) by reflexivity.
  rewrite (token_given_str args "downloadasset" (ToolA.Args.downloadasset args))
    by reflexivity.
  rewrite (token_given_str args "editplaylist" (ToolA.Args.editplaylist args))
    by reflexivity.
  rewrite (token_given_str args "sviewplaylist" (ToolA.Args.sviewplaylist args))
    by reflexivity.
  rewrite (token_given_str args "edituser" (ToolA.Args.edituser args)) by reflexivity.
  rewrite (token_given_int args "actionslimit" (ToolA.Args.actionslimit args))
    by reflexivity.
  rewrite (token_given_str args "setrole" (ToolA.Args.setrole args)) by reflexivity.
  rewrite (token_given_str args "iprestrict" (ToolA.Args.iprestrict args)) by reflexivity.
  rewrite (token_given_str args "urirestrict" (ToolA.Args.urirestrict args)) by reflexivity.
  rewrite (token_flag args "enableentitlement" (ToolA.Args.enableentitlement args))
    by reflexivity.
  rewrite (token_flag args "disableentitlement" (ToolA.Args.disableentitlement args))
    by reflexivity.
  rewrite (token_given_str args "disableentitlementforentry"
             (ToolA.Args.disableentitlementforentry args)) by reflexivity.
  rewrite (token_given_str args "privacycontext" (ToolA.Args.privacycontext args))
    by reflexivity.
  rewrite (token_flag args "enablecategorymoderation"
             (ToolA.Args.enablecategorymoderation args)) by reflexivity.
  rewrite (token_given_int args "reftime" (ToolA.Args.reftime args)) by reflexivity.
  rewrite (token_given_int args "preview" (ToolA.Args.preview args)) by reflexivity.
  rewrite (token_given_str args "sessionid" (ToolA.Args.sessionid args)) by reflexivity.
  reflexivity.
Qed.

Lemma append_empty (a b : string) : a +:+ b = "" -> a = "" /\ b = "".
Proof. destruct a; [done |]. by rewrite append_cons. Qed.

Lemma join_empty (sep : string) (l : list string) :
  join sep l = "" -> forall x, x ∈ l -> x = "".
Proof.
  induction l as [|a l IH]; intros H x Hx; [by apply elem_of_nil in Hx |].
  destruct l as [|b l].
  - apply list_elem_of_singleton in Hx as ->. exact H.
  - change (join sep (a :: b :: l)) with (a +:+ sep +:+ join sep (b :: l)) in H.
    apply append_empty in H as [Ha H]. apply append_empty in H as [_ H].
    apply elem_of_cons in Hx as [-> | Hx]; [exact Ha | by apply IH].
Qed.

Lemma build_privileges_not_empty (args : ToolA.Args.t) : ToolA.build_privileges args <> "".
Proof.
  rewrite build_privileges_closed_form. intros H.
  pose proof (join_empty _ _ H "list:*") as Hx.
  discriminate Hx. rewrite !elem_of_app. right; right; left. by left.
Qed.

(** X11: the privilege string of Tool A is never empty, so an update
    always replaces the privileges of the fetched token by the string built
    from the command line, also when the command line names no privilege
    at all (for instance when only a new description is given). *)
Theorem update_always_replaces_privileges
    (env : Env) (args : ToolA.Args.t) (config : gmap string scalar)
    (tr : list event) (token_id : string) (fetched : AppToken) :
  ToolA.Args.update args = Some token_id -> token_id <> "" ->
  remote env tr (appToken_get token_id) = Ok fetched ->
  ToolA.build_privileges args <> ""
  /\ exists submitted : AppToken,
       calls (ToolA.process_app_token_arguments env args config tr).2
       = calls tr ++ [appToken_get token_id; appToken_update token_id submitted]
       /\ submitted !! "sessionPrivileges" = Some (PStr (ToolA.build_privileges args)).
Proof.
  intros Hupd Hid Hget. pose proof (build_privileges_not_empty args) as Hne.
  split; [exact Hne |].
  unfold ToolA.process_app_token_arguments, ToolA.update_app_token.
  rewrite Hupd, (truthy_given token_id Hid).
  change (default "" (Some token_id)) with token_id. run_step. rewrite Hget.
  assert (Ht : truthy (SStr (ToolA.build_privileges args)) = true).
  { unfold truthy. by apply negb_true_iff, String.eqb_neq. }
  rewrite Ht. eexists. split.
  - on_remote; destruct (ToolA.Args.start_session args);
      cbn [truthy_val PNone truthy andb snd]; autorewrite with trace;
      rewrite <- ?app_assoc; reflexivity.
  - generalize (ToolA.build_privileges args) as privileges. intros privileges.
    destruct (truthy (of_opt_str (ToolA.Args.description args)));
      rewrite ?lookup_insert_ne by discriminate; apply lookup_insert_eq.
Qed.

Lemma update_always_replaces_privileges_witness :
  ToolA.build_privileges Samples.update_and_start <> ""
  /\ exists submitted : AppToken,
       calls (ToolA.process_app_token_arguments Samples.env_ok Samples.update_and_start
                Samples.config_1 []).2
       = calls [] ++ [appToken_get "1_abc"; appToken_update "1_abc" submitted]
       /\ submitted !! "sessionPrivileges"
          = Some (PStr (ToolA.build_privileges Samples.update_and_start)).
Proof.
  apply (update_always_replaces_privileges Samples.env_ok Samples.update_and_start
           Samples.config_1 [] "1_abc" Samples.token_1);
    [reflexivity | discriminate | reflexivity].
Defined.

(** ** Tool A: update and create, when the platform refuses *)

(** X12: [update_app_token] never updates a token it could not fetch: when
    the platform refuses the get call the refusal is printed, [None] is
    returned and no update call is made; and whenever a token is returned,
    it is the platform's answer to the update call that followed a
    successful get. *)
Theorem update_needs_the_fetched_token
    (env : Env) (tr : list event) (app_token_id privileges : string)
    (description : scalar) :
  (forall code text,
     remote env tr (appToken_get app_token_id) = Raise (KalturaException code text) ->
     ToolA.update_app_token env app_token_id privileges description tr
     = (Ok None,
        (tr ++ [Call (appToken_get app_token_id)])
          ++ [Print [FLit "Error updating App Token with ID "; FVal (PStr app_token_id);
                     FLit ": "; FLit text]]))
  /\ (forall updated : AppToken,
        (ToolA.update_app_token env app_token_id privileges description tr).1
        = Ok (Some updated) ->
        exists fetched submitted : AppToken,
          remote env tr (appToken_get app_token_id) = Ok fetched
          /\ remote env (tr ++ [Call (appToken_get app_token_id)])
               (appToken_update app_token_id submitted) = Ok updated).
Proof.
  unfold ToolA.update_app_token. run_step. split.
  - intros code text ->. reflexivity.
  - intros updated.
    destruct (remote env tr (appToken_get app_token_id)) as [fetched | e] eqn:Hget.
    + match goal with
      | |- context [remote env ?t ?c] => destruct (remote env t c) as [u | e] eqn:Hu
      end.
      * cbn [fst]. intros [= <-]. by eexists fetched, _.
      * by destruct e.
    + by destruct e.
Qed.

Lemma update_needs_the_fetched_token_witness :
  ToolA.update_app_token Faults.env_get_refused "1_abc" "edit:123" SNone []
  = (Ok None,
     ([] ++ [Call (appToken_get "1_abc")])
       ++ [Print [FLit "Error updating App Token with ID "; FVal (PStr "1_abc");
                  FLit ": ";
                  FLit "The access to service is forbidden (SERVICE_FORBIDDEN)"]])
  /\ exists fetched submitted : AppToken,
       remote Samples.env_ok [] (appToken_get "1_abc") = Ok fetched
       /\ remote Samples.env_ok ([] ++ [Call (appToken_get "1_abc")])
            (appToken_update "1_abc" submitted)
          = Ok (<["sessionPrivileges" := PStr "edit:123"]> Samples.token_1).
Proof.
  split.
  - apply (proj1 (update_needs_the_fetched_token Faults.env_get_refused [] "1_abc"
                    "edit:123" SNone) "SERVICE_FORBIDDEN").
    reflexivity.
  - apply (proj2 (update_needs_the_fetched_token Samples.env_ok [] "1_abc"
                    "edit:123" SNone)).
    reflexivity.
Defined.

(** X13: without [--update] Tool A makes exactly one add call, for a token
    that has four attributes and no other: the privilege string built from
    the command line, the description given ([None] when none is), the
    session type USER and the hash type SHA256; without [--start_session]
    this is the only remote call of the step. *)
Theorem create_submits_a_fresh_token
    (env : Env) (args : ToolA.Args.t) (config : gmap string scalar) (tr : list event) :
  truthy (of_opt_str (ToolA.Args.update args)) = false ->
  ToolA.Args.start_session args = false ->
  exists submitted : AppToken,
    calls (ToolA.process_app_token_arguments env args config tr).2
    = calls tr ++ [appToken_add submitted]
    /\ submitted !! "sessionPrivileges" = Some (PStr (ToolA.build_privileges args))
    /\ submitted !! "description"
       = Some (PScalar (of_opt_str (ToolA.Args.description args)))
    /\ submitted !! "sessionType" = Some (PEnum "KalturaSessionType.USER")
    /\ submitted !! "hashType" = Some (PEnum "KalturaAppTokenHashType.SHA256")
    /\ (forall field : string,
          field <> "sessionPrivileges" -> field <> "description" ->
          field <> "sessionType" -> field <> "hashType" ->
          submitted !! field = None).
Proof.
  intros Hupd Hs. unfold ToolA.process_app_token_arguments, ToolA.create_app_token.
  rewrite Hupd, Hs. run_step. eexists. split.
  - on_remote; cbn [snd]; autorewrite with trace; reflexivity.
  - repeat split; intros; by simplify_map_eq.
Qed.

Lemma create_submits_a_fresh_token_witness :
  exists submitted : AppToken,
    calls (ToolA.process_app_token_arguments Samples.env_ok Faults.create_only
             Samples.config_1 []).2
    = calls [] ++ [appToken_add submitted]
    /\ submitted !! "sessionPrivileges"
       = Some (PStr (ToolA.build_privileges Faults.create_only))
    /\ submitted !! "description"
       = Some (PScalar (of_opt_str (ToolA.Args.description Faults.create_only)))
    /\ submitted !! "sessionType" = Some (PEnum "KalturaSessionType.USER")
    /\ submitted !! "hashType" = Some (PEnum "KalturaAppTokenHashType.SHA256")
    /\ (forall field : string,
          field <> "sessionPrivileges" -> field <> "description" ->
          field <> "sessionType" -> field <> "hashType" ->
          submitted !! field = None).
Proof.
  apply (create_submits_a_fresh_token Samples.env_ok Faults.create_only
           Samples.config_1 []); reflexivity.
Defined.

(** ** Tool B: what every built URI looks like *)

Lemma prefix_append (p x : string) : String.prefix p (p +:+ x) = true.
Proof.
  induction p as [|c p IH]; [by destruct x |]. rewrite append_cons. cbn [String.prefix].
  destruct (ascii_dec c c) as [_ | Hne]; [exact IH | by destruct Hne].
Qed.

Lemma contains_char_replace_same (c : ascii) (new s : string) :
  contains_char c new = false -> contains_char c (replace c new s) = false.
Proof.
  intros Hnew. induction s as [|d s IH]; [done |]. cbn [replace].
  destruct (Ascii.eqb c d) eqn:E.
  - by rewrite contains_char_append, Hnew, IH.
  - cbn [contains_char]. by rewrite E.
Qed.

Lemma contains_char_replace_other (c d : ascii) (new s : string) :
  Ascii.eqb d c = false -> contains_char d new = false ->
  contains_char d (replace c new s) = contains_char d s.
Proof.
  intros Hdc Hnew. induction s as [|e s IH]; [done |]. cbn [replace].
  destruct (Ascii.eqb_spec c e) as [<- | Hce].
  - rewrite contains_char_append, Hnew, IH. cbn [contains_char orb]. by rewrite Hdc.
  - cbn [contains_char]. by rewrite IH.
Qed.

Lemma uri_of_shape (action : string) :
  String.prefix "/api_v3/service/" (Spec.uri_of action) = true
  /\ contains_char "." (Spec.uri_of action) = false
  /\ contains_char "*" (Spec.uri_of action) = contains_char "*" action
  /\ (contains_char "*" action = false -> exists body, Spec.uri_of action = body +:+ "/").
Proof.
  unfold Spec.uri_of. rewrite replace_same.
  destruct (contains_char "*" action) eqn:Hstar.
  - split; [apply prefix_append |]. rewrite !contains_char_append.
    rewrite contains_char_replace_same by reflexivity.
    rewrite contains_char_replace_other by reflexivity.
    rewrite Hstar. by repeat split.
  - split; [apply prefix_append |]. rewrite !contains_char_append.
    rewrite contains_char_replace_same by reflexivity.
    rewrite contains_char_replace_other by reflexivity.
    rewrite Hstar. repeat split.
    intros _. eexists. by rewrite <- append_assoc.
Qed.

(** X14: [build_uri_privilege] gives one URI per action, in the order of
    the actions; every URI starts with [/api_v3/service/], has no dot left
    in it, has a wildcard exactly when its action has one, and ends with a
    slash when its action has no wildcard. *)
Theorem build_uri_privilege_shape (list_actions : list string) :
  length (ToolB.build_uri_privilege list_actions) = length list_actions
  /\ (forall (i : nat) (action : string),
        list_actions !! i = Some action ->
        exists uri,
          ToolB.build_uri_privilege list_actions !! i = Some uri
          /\ String.prefix "/api_v3/service/" uri = true
          /\ contains_char "." uri = false
          /\ contains_char "*" uri = contains_char "*" action
          /\ (contains_char "*" action = false -> exists body, uri = body +:+ "/")).
Proof.
  rewrite build_uri_privilege_map. split; [apply length_fmap |].
  intros i action Hi. exists (Spec.uri_of action).
  split; [by rewrite list_lookup_fmap, Hi |]. apply uri_of_shape.
Qed.

Lemma build_uri_privilege_shape_witness :
  exists uri,
    ToolB.build_uri_privilege ["media.*"; "baseentry.list"] !! 1%nat = Some uri
    /\ String.prefix "/api_v3/service/" uri = true
    /\ contains_char "." uri = false
    /\ contains_char "*" uri = contains_char "*" "baseentry.list"
    /\ (contains_char "*" "baseentry.list" = false -> exists body, uri = body +:+ "/").
Proof.
  apply (proj2 (build_uri_privilege_shape ["media.*"; "baseentry.list"]) 1%nat).
  reflexivity.
Defined.

(** ** Tool B: from the command line to the add or update call *)

Lemma main_B_after_startup (env : Env) (args : ToolB.Args.t) (tr : list event)
    (partner secret user expiry ks : scalar) (actions : string) :
  Behaviour.ready_B env tr partner secret user expiry ks ->
  ToolB.Args.list args = false ->
  ToolB.Args.actions args = Some actions -> actions <> "" ->
  ToolB.main env args tr
  = bind (if truthy (of_opt_str (ToolB.Args.update args))
          then ToolB.update_branch env args (Some (split "," (lower actions)))
          else ToolB.add_branch env args (Some (split "," (lower actions))))
      (Behaviour.report_and_start env partner)
      ((tr ++ [Call (Behaviour.admin_session_B partner secret user expiry)])
         ++ [SetKs ks]).
Proof.
  intros (config & url & Hcfg & Hp & Hs & Hu & He & Hurl & Hss) Hlist Hact Hne.
  assert (Ht : truthy (SStr actions) = true) by (cbn; by apply negb_true_iff, String.eqb_neq).
  unfold ToolB.main, ToolB.read_config. rewrite Hlist, Hact, Hcfg.
  change (truthy (of_opt_str (Some actions))) with (truthy (SStr actions)).
  rewrite Ht, andb_false_r, bind_ret_l.
  rewrite (bind_getitem_Some _ _ _ _ _ Hp), (bind_getitem_Some _ _ _ _ _ Hs),
    (bind_getitem_Some _ _ _ _ _ Hu), (bind_getitem_Some _ _ _ _ _ He),
    (bind_getitem_Some _ _ _ _ _ Hurl).
  unfold bind at 1, client.session_start, api.
  fold (Behaviour.admin_session_B partner secret user expiry). rewrite Hss.
  unfold bind at 1, setKs, emit. reflexivity.
Qed.

(** X15: once the command line is accepted, Tool B fails before any
    remote call when its configuration is unusable: a missing file raises
    [FileNotFoundError] and a file that is not JSON raises
    [JSONDecodeError], both as they come (Tool B does not wrap them), and
    otherwise the first of its five keys that is missing, in the order
    PARTNER_ID, ADMIN_SECRET, SCRIPT_USER_ID, ADMIN_SESSION_EXPIRY,
    KALTURA_SERVICE_URL, raises the [KeyError] of that key. *)
Theorem toolB_startup_failures (env : Env) (args : ToolB.Args.t) (tr : list event) :
  (truthy (of_opt_str (ToolB.Args.update args)) || negb (ToolB.Args.list args))
  && negb (truthy (of_opt_str (ToolB.Args.actions args))) = false ->
  (config_file env = FileAbsent -> ToolB.main env args tr = (Raise FileNotFoundError, tr))
  /\ (config_file env = FileInvalid -> ToolB.main env args tr = (Raise JSONDecodeError, tr))
  /\ (forall (config : gmap string scalar) (i : nat) (key : string),
        config_file env = FileJson config ->
        Behaviour.keys_B !! i = Some key ->
        config !! key = None ->
        (forall (j : nat) (earlier : string),
           (j < i)%nat -> Behaviour.keys_B !! j = Some earlier ->
           is_Some (config !! earlier)) ->
        ToolB.main env args tr = (Raise (KeyError key), tr)).
Proof.
  intros Hchk. unfold ToolB.main, ToolB.read_config. rewrite Hchk.
  split; [by intros -> |]. split; [by intros -> |].
  intros config i key -> Hkey Hnone Hearlier. rewrite bind_ret_l.
  destruct i as [|[|[|[|[|i]]]]]; cbn in Hkey; try discriminate Hkey;
    injection Hkey as <-.
  - by rewrite (bind_getitem_None _ _ _ _ Hnone).
  - destruct (Hearlier 0%nat "PARTNER_ID" ltac:(lia) eq_refl) as [v0 H0].
    rewrite (bind_getitem_Some _ _ _ _ _ H0).
    by rewrite (bind_getitem_None _ _ _ _ Hnone).
  - destruct (Hearlier 0%nat "PARTNER_ID" ltac:(lia) eq_refl) as [v0 H0].
    destruct (Hearlier 1%nat "ADMIN_SECRET" ltac:(lia) eq_refl) as [v1 H1].
    rewrite (bind_getitem_Some _ _ _ _ _ H0), (bind_getitem_Some _ _ _ _ _ H1).
    by rewrite (bind_getitem_None _ _ _ _ Hnone).
  - destruct (Hearlier 0%nat "PARTNER_ID" ltac:(lia) eq_refl) as [v0 H0].
    destruct (Hearlier 1%nat "ADMIN_SECRET" ltac:(lia) eq_refl) as [v1 H1].
    destruct (Hearlier 2%nat "SCRIPT_USER_ID" ltac:(lia) eq_refl) as [v2 H2].
    rewrite (bind_getitem_Some _ _ _ _ _ H0), (bind_getitem_Some _ _ _ _ _ H1),
      (bind_getitem_Some _ _ _ _ _ H2).
    by rewrite (bind_getitem_None _ _ _ _ Hnone).
  - destruct (Hearlier 0%nat "PARTNER_ID" ltac:(lia) eq_refl) as [v0 H0].
    destruct (Hearlier 1%nat "ADMIN_SECRET" ltac:(lia) eq_refl) as [v1 H1].
    destruct (Hearlier 2%nat "SCRIPT_USER_ID" ltac:(lia) eq_refl) as [v2 H2].
    destruct (Hearlier 3%nat "ADMIN_SESSION_EXPIRY" ltac:(lia) eq_refl) as [v3 H3].
    rewrite (bind_getitem_Some _ _ _ _ _ H0), (bind_getitem_Some _ _ _ _ _ H1),
      (bind_getitem_Some _ _ _ _ _ H2), (bind_getitem_Some _ _ _ _ _ H3).
    by rewrite (bind_getitem_None _ _ _ _ Hnone).
Qed.

Lemma toolB_startup_failures_witness :
  ToolB.main Samples.env_no_config (Samples.b_args false (Some "media.*") None false) []
  = (Raise FileNotFoundError, [])
  /\ ToolB.main Samples.env_bad_config (Samples.b_args false (Some "media.*") None false) []
     = (Raise JSONDecodeError, [])
  /\ ToolB.main Samples.env_no_secret (Samples.b_args false (Some "media.*") None false) []
     = (Raise (KeyError "ADMIN_SECRET"), []).
Proof.
  split; [| split].
  - apply (proj1 (toolB_startup_failures Samples.env_no_config
                    (Samples.b_args false (Some "media.*") None false) [] eq_refl)).
    reflexivity.
  - apply (proj1 (proj2 (toolB_startup_failures Samples.env_bad_config
                           (Samples.b_args false (Some "media.*") None false) [] eq_refl))).
    reflexivity.
  - apply (proj2 (proj2 (toolB_startup_failures Samples.env_no_secret
                           (Samples.b_args false (Some "media.*") None false) [] eq_refl))
             Samples.config_no_secret 1%nat "ADMIN_SECRET");
      [reflexivity | reflexivity | reflexivity |].
    intros [|j] earlier Hj Hk; [| lia].
    injection Hk as <-. by exists (SInt 12345).
Defined.

(** ** Tool B: the update branch *)

(** X16: when the platform refuses the get call of a Tool B update, the
    error code decides: for [APP_TOKEN_ID_NOT_FOUND] the run prints that
    the id was not found and ends normally, making no update call and no
    handshake; for any other code the [KalturaException] is raised again
    as it came.  Either way the get call is the last remote call. *)
Theorem toolB_update_of_unknown_token
    (env : Env) (args : ToolB.Args.t) (tr : list event)
    (partner secret user expiry ks : scalar) (actions token_id code text : string) :
  let started :=
    (tr ++ [Call (Behaviour.admin_session_B partner secret user expiry)]) ++ [SetKs ks] in
  Behaviour.ready_B env tr partner secret user expiry ks ->
  ToolB.Args.list args = false ->
  ToolB.Args.actions args = Some actions -> actions <> "" ->
  ToolB.Args.update args = Some token_id -> token_id <> "" ->
  remote env started (appToken_get token_id) = Raise (KalturaException code text) ->
  (code = "APP_TOKEN_ID_NOT_FOUND" ->
   ToolB.main env args tr
   = (Ok tt,
      (started ++ [Call (appToken_get token_id)])
        ++ [Print [FLit "App Token ID "; FVal (PStr token_id);
                   FLit " not found. Please use a valid ID."]]))
  /\ (code <> "APP_TOKEN_ID_NOT_FOUND" ->
      ToolB.main env args tr
      = (Raise (KalturaException code text), started ++ [Call (appToken_get token_id)])).
Proof.
  intros started Hready Hlist Hact Hne Hupd Hid Hget.
  rewrite (main_B_after_startup env args tr partner secret user expiry ks actions
             Hready Hlist Hact Hne).
  rewrite Hupd, (truthy_given token_id Hid). fold started.
  unfold ToolB.update_branch. rewrite Hupd.
  change (default "" (Some token_id)) with token_id.
  run_step. rewrite Hget. split.
  - intros ->. reflexivity.
  - intros Hcode. apply String.eqb_neq in Hcode. by rewrite Hcode.
Qed.

Lemma toolB_update_of_unknown_token_witness :
  ToolB.main Faults.env_get_not_found
    (Samples.b_args false (Some "media.*") (Some "9_zzz") false) []
  = (Ok tt,
     ((([] ++ [Call (Behaviour.admin_session_B (SInt 12345) (SStr "adm1n") (SStr "script")
                       (SInt 86400))])
         ++ [SetKs (SStr "admin-ks")])
        ++ [Call (appToken_get "9_zzz")])
       ++ [Print [FLit "App Token ID "; FVal (PStr "9_zzz");
                  FLit " not found. Please use a valid ID."]])
  /\ ToolB.main Faults.env_get_refused
       (Samples.b_args false (Some "media.*") (Some "9_zzz") false) []
     = (Raise (KalturaException "SERVICE_FORBIDDEN"
                 "The access to service is forbidden (SERVICE_FORBIDDEN)"),
        (([] ++ [Call (Behaviour.admin_session_B (SInt 12345) (SStr "adm1n") (SStr "script")
                         (SInt 86400))])
           ++ [SetKs (SStr "admin-ks")])
          ++ [Call (appToken_get "9_zzz")]).
Proof.
  split.
  - apply (proj1 (toolB_update_of_unknown_token Faults.env_get_not_found
                    (Samples.b_args false (Some "media.*") (Some "9_zzz") false) []
                    (SInt 12345) (SStr "adm1n") (SStr "script") (SInt 86400)
                    (SStr "admin-ks") "media.*" "9_zzz" "APP_TOKEN_ID_NOT_FOUND"
                    "Invalid app token id (APP_TOKEN_ID_NOT_FOUND)"
                    ltac:(by exists Samples.config_1, (SStr "https://www.kaltura.com"))
                    eq_refl eq_refl ltac:(discriminate) eq_refl ltac:(discriminate) eq_refl)).
    reflexivity.
  - apply (proj2 (toolB_update_of_unknown_token Faults.env_get_refused
                    (Samples.b_args false (Some "media.*") (Some "9_zzz") false) []
                    (SInt 12345) (SStr "adm1n") (SStr "script") (SInt 86400)
                    (SStr "admin-ks") "media.*" "9_zzz" "SERVICE_FORBIDDEN"
                    "The access to service is forbidden (SERVICE_FORBIDDEN)"
                    ltac:(by exists Samples.config_1, (SStr "https://www.kaltura.com"))
                    eq_refl eq_refl ltac:(discriminate) eq_refl ltac:(discriminate) eq_refl)).
    discriminate.
Defined.

(** X17: a Tool B update without [--append] replaces the privileges of the
    fetched token by the list of the newly built URIs (what the token had
    is dropped, not merged), replaces the description only when a
    non-empty one is given, and submits every other attribute of the
    fetched token unchanged. *)
Theorem toolB_update_replaces_privileges
    (env : Env) (args : ToolB.Args.t) (list_actions : list string) (tr : list event)
    (existing : AppToken) :
  ToolB.Args.append args = false ->
  remote env tr (appToken_get (default "" (ToolB.Args.update args))) = Ok existing ->
  exists submitted : AppToken,
    calls (ToolB.update_branch env args (Some list_actions) tr).2
    = calls tr ++ [appToken_get (default "" (ToolB.Args.update args));
                   appToken_update (default "" (ToolB.Args.update args)) submitted]
    /\ submitted !! "sessionPrivileges"
       = Some (PList (ToolB.build_uri_privilege list_actions))
    /\ submitted !! "description"
       = (if truthy (of_opt_str (ToolB.Args.description args))
          then Some (PScalar (of_opt_str (ToolB.Args.description args)))
          else existing !! "description")
    /\ (forall field : string,
          field <> "sessionPrivileges" -> field <> "description" ->
          submitted !! field = existing !! field).
Proof.
  intros Happ Hget.
  unfold ToolB.update_branch, ToolB.uris_of, ToolB.set_description. run_step.
  rewrite Hget, Happ. eexists. split.
  - on_remote; cbn [snd]; autorewrite with trace; rewrite <- ?app_assoc; reflexivity.
  - destruct (truthy (of_opt_str (ToolB.Args.description args)));
      repeat split; intros; by simplify_map_eq.
Qed.

Lemma toolB_update_replaces_privileges_witness :
  exists submitted : AppToken,
    calls (ToolB.update_branch Samples.env_ok
             (Samples.b_args false (Some "media.*") (Some "1_abc") false)
             (Some ["media.*"]) []).2
    = calls [] ++ [appToken_get "1_abc"; appToken_update "1_abc" submitted]
    /\ submitted !! "sessionPrivileges"
       = Some (PList (ToolB.build_uri_privilege ["media.*"]))
    /\ submitted !! "description"
       = (if truthy (of_opt_str None) then Some (PScalar (of_opt_str None))
          else Samples.token_1 !! "description")
    /\ (forall field : string,
          field <> "sessionPrivileges" -> field <> "description" ->
          submitted !! field = Samples.token_1 !! field).
Proof.
  apply (toolB_update_replaces_privileges Samples.env_ok
           (Samples.b_args false (Some "media.*") (Some "1_abc") false)
           ["media.*"] [] Samples.token_1); reflexivity.
Defined.

(** ** Tool B: create, then the handshake *)



(** ** Tool B: the case of the actions *)

Lemma lower_char_idempotent (c : ascii) : lower_char (lower_char c) = lower_char c.
Proof. destruct c as [[] [] [] [] [] [] [] []]; reflexivity. Qed.

Lemma lower_idempotent (s : string) : lower (lower s) = lower s.
Proof. induction s as [|c s IH]; [done |]. cbn. by rewrite lower_char_idempotent, IH. Qed.

Lemma lower_truthy (s : string) : truthy (SStr (lower s)) = truthy (SStr s).
Proof. by destruct s. Qed.

(** X19: the actions of Tool B are case-insensitive: a run with
    [--actions] in any mix of capitals is, event for event, the run with
    the same actions in lower case. *)
Theorem toolB_actions_are_case_insensitive
    (env : Env) (args : ToolB.Args.t) (actions : string) (tr : list event) :
  ToolB.main env (Behaviour.with_actions args (Some actions)) tr
  = ToolB.main env (Behaviour.with_actions args (Some (lower actions))) tr.
Proof.
  unfold ToolB.main, Behaviour.with_actions. cbn [ToolB.Args.list ToolB.Args.actions
    ToolB.Args.update ToolB.Args.append ToolB.Args.description ToolB.Args.debug].
  change (of_opt_str (Some (lower actions))) with (SStr (lower actions)).
  change (of_opt_str (Some actions)) with (SStr actions).
  by rewrite lower_truthy, lower_idempotent.
Qed.

(** ** Tool B: the listing *)

Lemma print_tokens_trace (objects : list AppToken) (tr : list event) :
  ToolB.print_tokens objects tr
  = (Ok tt, tr ++ concat (Behaviour.token_lines <$> objects)).
Proof.
  revert tr. induction objects as [|o objects IH]; intros tr.
  - cbn. by rewrite app_nil_r.
  - cbn [ToolB.print_tokens]. unfold ToolB.print_token. run_step. rewrite IH.
    rewrite fmap_cons. cbn [concat]. unfold Behaviour.token_lines at 2.
    by rewrite <- !app_assoc.
Qed.

(** X20: the listing of Tool B prints, for the tokens of the page the
    platform returned and in their order, four lines each (id, value,
    description and a rule) and nothing else, an empty page printing
    nothing; a page without an object list raises a [TypeError] after the
    call. *)
Theorem toolB_listing_prints_every_token (env : Env) (tr : list event) :
  (forall objects : list AppToken,
     remote env tr appToken_list = Ok (Some objects) ->
     ToolB.list_app_tokens env tr
     = (Ok tt, (tr ++ [Call appToken_list]) ++ concat (Behaviour.token_lines <$> objects)))
  /\ (remote env tr appToken_list = Ok None ->
      ToolB.list_app_tokens env tr = (Raise TypeError, tr ++ [Call appToken_list])).
Proof.
  unfold ToolB.list_app_tokens. split.
  - intros objects H. unfold bind, client.appToken_list, api. rewrite H.
    apply print_tokens_trace.
  - intros H. unfold bind, client.appToken_list, api. by rewrite H.
Qed.

Lemma toolB_listing_prints_every_token_witness :
  ToolB.list_app_tokens Samples.env_ok []
  = (Ok tt, ([] ++ [Call appToken_list])
            ++ concat (Behaviour.token_lines <$> [Samples.token_1])).
Proof.
  apply (proj1 (toolB_listing_prints_every_token Samples.env_ok []) [Samples.token_1]).
  reflexivity.
Defined.

(** ** Tool B: an append read back *)

Lemma rev_app_append (s acc : string) :
  String.rev_app s acc = String.rev_app s EmptyString +:+ acc.
Proof.
  revert acc. induction s as [|a s IH]; intros acc; [done |].
  cbn [String.rev_app]. rewrite (IH (String a acc)), (IH (String a EmptyString)).
  by rewrite append_assoc.
Qed.

Lemma rev_cons (d : ascii) (s : string) :
  String.rev (String d s) = String.rev s +:+ String d EmptyString.
Proof. unfold String.rev. cbn [String.rev_app]. apply rev_app_append. Qed.

Lemma split_aux_acc (c : ascii) (s cur : string) :
  split_aux c s cur
  = match split_aux c s EmptyString with
    | h :: t => (String.rev cur +:+ h) :: t
    | [] => []
    end.
Proof.
  revert cur. induction s as [|d s IH]; intros cur.
  - cbn. by rewrite append_nil_r.
  - cbn [split_aux]. destruct (Ascii.eqb c d).
    + cbn. by rewrite append_nil_r.
    + rewrite (IH (String d cur)), (IH (String d EmptyString)).
      destruct (split_aux c s EmptyString) as [|h t]; [done |].
      rewrite (rev_cons d cur).
      change (String.rev (String d EmptyString)) with (String d EmptyString).
      by rewrite append_assoc.
Qed.

Lemma split_cons (c d : ascii) (s : string) :
  split c (String d s)
  = if Ascii.eqb c d then EmptyString :: split c s
    else match split c s with
         | h :: t => String d h :: t
         | [] => []
         end.
Proof.
  unfold split. cbn [split_aux]. destruct (Ascii.eqb c d); [done |].
  rewrite split_aux_acc. by destruct (split_aux c s EmptyString).
Qed.

Lemma split_not_nil (c : ascii) (s : string) : split c s <> [].
Proof.
  induction s as [|d s IH]; [done |]. rewrite split_cons.
  destruct (Ascii.eqb c d); [done |]. by destruct (split c s).
Qed.

Lemma split_pieces (c : ascii) (s : string) :
  forall piece, piece ∈ split c s -> contains_char c piece = false.
Proof.
  induction s as [|d s IH]; intros piece.
  - intros H. by apply list_elem_of_singleton in H as ->.
  - rewrite split_cons. destruct (Ascii.eqb c d) eqn:E.
    + intros [-> | H]%elem_of_cons; [done | by apply IH].
    + destruct (split c s) as [|h t]; [by intros H%elem_of_nil |].
      intros [-> | H]%elem_of_cons.
      * cbn [contains_char]. rewrite E. apply IH. by left.
      * apply IH. by right.
Qed.

Lemma split_after (c : ascii) (a s : string) :
  contains_char c a = false ->
  split c (a +:+ s)
  = match split c s with
    | h :: t => (a +:+ h) :: t
    | [] => []
    end.
Proof.
  induction a as [|d a IH]; intros Ha.
  - rewrite append_nil_l. by destruct (split c s).
  - cbn [contains_char] in Ha. destruct (Ascii.eqb c d) eqn:E; [done |].
    rewrite append_cons, split_cons, E, (IH Ha). by destruct (split c s).
Qed.

Lemma split_join (c : ascii) (l : list string) :
  l <> [] -> (forall x, x ∈ l -> contains_char c x = false) ->
  split c (join (String c EmptyString) l) = l.
Proof.
  induction l as [|x l IH]; [done |]. intros _ Hl. destruct l as [|y l].
  - cbn [join String.concat]. rewrite <- (append_nil_r x) at 1.
    rewrite split_after by (apply Hl; by left). cbn. by rewrite append_nil_r.
  - change (join (String c EmptyString) (x :: y :: l))
      with (x +:+ String c EmptyString +:+ join (String c EmptyString) (y :: l)).
    rewrite split_after by (apply Hl; by left).
    rewrite append_cons, append_nil_l, split_cons, Ascii.eqb_refl.
    rewrite IH; [by rewrite append_nil_r | done |].
    intros z Hz. apply Hl. by right.
Qed.

(** *** The prefix the append leaves on *)

Lemma strip_prefix_append (p s : string) : Spec.strip_prefix p (p +:+ s) = Some s.
Proof.
  induction p as [|a p IH]; [by rewrite append_nil_l |].
  rewrite append_cons. cbn [Spec.strip_prefix]. by rewrite Ascii.eqb_refl.
Qed.

Lemma two_distinct_orders (a b : string) (l : list string) :
  a <> b -> NoDup l -> (forall x, x ∈ l <-> x ∈ [a; b]) ->
  l = [a; b] \/ l = [b; a].
Proof.
  intros Hab Hnd Hin.
  assert (Hperm : l ≡ₚ [a; b]).
  { apply NoDup_Permutation; [exact Hnd | | exact Hin].
    repeat (apply NoDup_cons; split); rewrite ?not_elem_of_cons, ?elem_of_nil;
      [intuition congruence .. | apply NoDup_nil_2]. }
  pose proof (Permutation_length Hperm) as Hlen.
  destruct l as [|x [|y [|]]]; try discriminate Hlen.
  assert (Hxs : x ∈ [a; b]) by (apply Hin; left).
  assert (Hys : y ∈ [a; b]) by (apply Hin; right; left).
  apply NoDup_cons in Hnd as [Hxy _]. apply not_elem_of_cons in Hxy as [Hxy _].
  rewrite !elem_of_cons in Hxs, Hys. clear -Hxy Hxs Hys.
  destruct Hxs as [-> | [-> | Hx]], Hys as [-> | [-> | Hy]];
    try (by apply elem_of_nil in Hx); try (by apply elem_of_nil in Hy);
    intuition congruence.
Qed.

(** C6: the append branch of Tool B sets out to merge the token's URIs
    with the new ones (split on [|], extend, remove duplicates, join under
    [urirestrict:]), but it splits the privilege string as it is stored,
    with the [urirestrict:] prefix still on its first piece.  What it
    submits is therefore not the merge the claim describes.  For every
    order a set may enumerate its members in:
    - the update call carries the string [append_privileges] builds;
    - for a stored string [urirestrict:rest], the URIs under the prefix of
      the result are, without repetition, the first URI of [rest] with
      [urirestrict:] still in front of it, the other URIs of [rest] and the
      new URIs;
    - for the stored [urirestrict:/a|/b] and the new URI [/c] they are
      [urirestrict:/a], [/b] and [/c]: [/a] is not among them;
    - for the same token and the new URI [/a] they are [urirestrict:/a],
      [/b] and [/a]: the URI the token already had is there twice;
    - appending [media.list] to a token that allows exactly [media.list]
      submits one of two strings naming that URI twice, never the stored
      string. *)
Theorem C6_append_keeps_the_old_prefix (env : Env) :
  set_order_ok (set_order env) ->
  (forall (args : ToolB.Args.t) (list_actions : list string) (tr : list event)
          (existing : AppToken) (sessionPrivileges : string),
     ToolB.Args.append args = true ->
     remote env tr (appToken_get (default "" (ToolB.Args.update args))) = Ok existing ->
     existing !! "sessionPrivileges" = Some (PStr sessionPrivileges) ->
     Spec.submitted_privileges
       (calls (ToolB.update_branch env args (Some list_actions) tr).2)
     = Spec.submitted_privileges (calls tr)
       ++ [Some (PStr (ToolB.append_privileges (set_order env) sessionPrivileges
                         (ToolB.build_uri_privilege list_actions)))])
  /\ (forall (rest : string) (new_uris : list string),
        (forall uri, uri ∈ new_uris -> contains_char "|" uri = false) ->
        exists (first : string) (others unique_uris : list string),
          split "|" rest = first :: others
          /\ Spec.uris_of_restriction
               (ToolB.append_privileges (set_order env) ("urirestrict:" +:+ rest) new_uris)
             = Some unique_uris
          /\ NoDup unique_uris
          /\ (forall uri, uri ∈ unique_uris
                          <-> uri = "urirestrict:" +:+ first
                              \/ uri ∈ others \/ uri ∈ new_uris))
  /\ (exists unique_uris : list string,
        Spec.uris_of_restriction
          (ToolB.append_privileges (set_order env) "urirestrict:/a|/b" ["/c"])
        = Some unique_uris
        /\ unique_uris ≡ₚ ["urirestrict:/a"; "/b"; "/c"]
        /\ "/a" ∉ unique_uris)
  /\ (exists unique_uris : list string,
        Spec.uris_of_restriction
          (ToolB.append_privileges (set_order env) "urirestrict:/a|/b" ["/a"])
        = Some unique_uris
        /\ unique_uris ≡ₚ ["urirestrict:/a"; "/b"; "/a"])
  /\ (forall (args : ToolB.Args.t) (tr : list event) (existing : AppToken),
        ToolB.Args.append args = true ->
        remote env tr (appToken_get (default "" (ToolB.Args.update args))) = Ok existing ->
        existing !! "sessionPrivileges"
        = Some (PStr "urirestrict:/api_v3/service/media/action/list/") ->
        exists submitted : string,
          Spec.submitted_privileges
            (calls (ToolB.update_branch env args (Some ["media.list"]) tr).2)
          = Spec.submitted_privileges (calls tr) ++ [Some (PStr submitted)]
          /\ (submitted
              = "urirestrict:urirestrict:/api_v3/service/media/action/list/|/api_v3/service/media/action/list/"
              \/ submitted
                 = "urirestrict:/api_v3/service/media/action/list/|urirestrict:/api_v3/service/media/action/list/")
          /\ submitted <> "urirestrict:/api_v3/service/media/action/list/").
Proof.
  intros Hok.
  assert (Hrun : forall (args : ToolB.Args.t) (list_actions : list string)
                        (tr : list event) (existing : AppToken) (sp : string),
             ToolB.Args.append args = true ->
             remote env tr (appToken_get (default "" (ToolB.Args.update args)))
             = Ok existing ->
             existing !! "sessionPrivileges" = Some (PStr sp) ->
             Spec.submitted_privileges
               (calls (ToolB.update_branch env args (Some list_actions) tr).2)
             = Spec.submitted_privileges (calls tr)
               ++ [Some (PStr (ToolB.append_privileges (set_order env) sp
                                 (ToolB.build_uri_privilege list_actions)))]).
  { intros args list_actions tr existing sp Happ Hget Hsp.
    unfold ToolB.update_branch, ToolB.uris_of, ToolB.set_description, attr. run_step.
    rewrite Hget, Happ, Hsp. cbn [default]. unfold id, PStr at 1. cbv beta iota.
    on_remote; autorewrite with trace; unfold Spec.submitted_privileges;
      rewrite ?omap_app; cbn [omap list_omap app];
      destruct (truthy (of_opt_str (ToolB.Args.description args)));
      simplify_map_eq; by rewrite ?app_nil_r. }
  assert (Hgen : forall (rest : string) (new_uris : list string),
             (forall uri, uri ∈ new_uris -> contains_char "|" uri = false) ->
             exists (first : string) (others unique_uris : list string),
               split "|" rest = first :: others
               /\ Spec.uris_of_restriction
                    (ToolB.append_privileges (set_order env) ("urirestrict:" +:+ rest)
                       new_uris)
                  = Some unique_uris
               /\ NoDup unique_uris
               /\ (forall uri, uri ∈ unique_uris
                               <-> uri = "urirestrict:" +:+ first
                                   \/ uri ∈ others \/ uri ∈ new_uris)).
  { intros rest new_uris Hnew.
    pose proof (split_not_nil "|" rest) as Hne.
    destruct (split "|" rest) as [|first others] eqn:Erest; [done |].
    assert (Hsplit : split "|" ("urirestrict:" +:+ rest)
                     = ("urirestrict:" +:+ first) :: others).
    { rewrite split_after by reflexivity. by rewrite Erest. }
    destruct (Hok (split "|" ("urirestrict:" +:+ rest) ++ new_uris)) as [Hnd Hin].
    exists first, others,
      (set_order env (split "|" ("urirestrict:" +:+ rest) ++ new_uris)).
    split; [reflexivity |]. split; [| split; [exact Hnd |]].
    - unfold ToolB.append_privileges, Spec.uris_of_restriction.
      rewrite strip_prefix_append. f_equal. apply split_join.
      + intros Hnil.
        assert (Hfirst : "urirestrict:" +:+ first
                         ∈ set_order env (split "|" ("urirestrict:" +:+ rest) ++ new_uris)).
        { apply Hin. rewrite Hsplit. by left. }
        rewrite Hnil in Hfirst. by apply elem_of_nil in Hfirst.
      + intros x Hx. apply Hin, elem_of_app in Hx as [Hx | Hx];
          [by apply (split_pieces "|" ("urirestrict:" +:+ rest)) | by apply Hnew].
    - intros uri. rewrite Hin, Hsplit. cbn [app].
      rewrite elem_of_cons, elem_of_app. reflexivity. }
  split; [exact Hrun |]. split; [exact Hgen |]. split; [| split].
  - destruct (Hgen "/a|/b" ["/c"]) as (first & others & l & Hs & Hl & Hnd & Hin).
    { intros uri Huri. apply list_elem_of_singleton in Huri. by rewrite Huri. }
    change (split "|" "/a|/b") with ["/a"; "/b"] in Hs. injection Hs as <- <-.
    exists l. split; [exact Hl |]. split.
    + apply NoDup_Permutation; [exact Hnd | |].
      * repeat (apply NoDup_cons; split); rewrite ?not_elem_of_cons, ?elem_of_nil;
          [intuition discriminate .. | apply NoDup_nil_2].
      * intros uri. rewrite Hin, !elem_of_cons, !elem_of_nil.
        change ("urirestrict:" +:+ "/a") with "urirestrict:/a". tauto.
    + rewrite Hin, !elem_of_cons, !elem_of_nil.
      change ("urirestrict:" +:+ "/a") with "urirestrict:/a".
      intros [H | [[H | H] | [H | H]]]; try discriminate H; exact H.
  - destruct (Hgen "/a|/b" ["/a"]) as (first & others & l & Hs & Hl & Hnd & Hin).
    { intros uri Huri. apply list_elem_of_singleton in Huri. by rewrite Huri. }
    change (split "|" "/a|/b") with ["/a"; "/b"] in Hs. injection Hs as <- <-.
    exists l. split; [exact Hl |].
    apply NoDup_Permutation; [exact Hnd | |].
    + repeat (apply NoDup_cons; split); rewrite ?not_elem_of_cons, ?elem_of_nil;
        [intuition discriminate .. | apply NoDup_nil_2].
    + intros uri. rewrite Hin, !elem_of_cons, !elem_of_nil.
      change ("urirestrict:" +:+ "/a") with "urirestrict:/a". tauto.
  - intros args tr existing Happ Hget Hsp.
    rewrite (Hrun args ["media.list"] tr existing _ Happ Hget Hsp).
    unfold ToolB.append_privileges.
    change (split "|" "urirestrict:/api_v3/service/media/action/list/"
              ++ ToolB.build_uri_privilege ["media.list"])
      with ["urirestrict:/api_v3/service/media/action/list/";
            "/api_v3/service/media/action/list/"].
    destruct (Hok ["urirestrict:/api_v3/service/media/action/list/";
                   "/api_v3/service/media/action/list/"]) as [Hnd Hin].
    destruct (two_distinct_orders "urirestrict:/api_v3/service/media/action/list/"
                "/api_v3/service/media/action/list/" _ ltac:(discriminate) Hnd Hin)
      as [-> | ->].
    + exists "urirestrict:urirestrict:/api_v3/service/media/action/list/|/api_v3/service/media/action/list/".
      split; [reflexivity |]. split; [by left | discriminate].
    + exists "urirestrict:/api_v3/service/media/action/list/|urirestrict:/api_v3/service/media/action/list/".
      split; [reflexivity |]. split; [by right | discriminate].
Qed.

Lemma C6_append_keeps_the_old_prefix_witness :
  set_order_ok (set_order Faults.env_media_list)
  /\ (exists submitted : string,
        Spec.submitted_privileges
          (calls (ToolB.update_branch Faults.env_media_list Faults.append_media_list
                    (Some ["media.list"]) []).2)
        = Spec.submitted_privileges (calls []) ++ [Some (PStr submitted)]
        /\ (submitted
            = "urirestrict:urirestrict:/api_v3/service/media/action/list/|/api_v3/service/media/action/list/"
            \/ submitted
               = "urirestrict:/api_v3/service/media/action/list/|urirestrict:/api_v3/service/media/action/list/")
        /\ submitted <> "urirestrict:/api_v3/service/media/action/list/")
  /\ Spec.submitted_privileges
       (calls (ToolB.update_branch Samples.env_ok
                 (Samples.b_args false (Some "media.*") (Some "1_abc") true)
                 (Some ["media.*"]) []).2)
     = Spec.submitted_privileges (calls [])
       ++ [Some (PStr (ToolB.append_privileges (set_order Samples.env_ok)
                         "urirestrict:/a|/b" (ToolB.build_uri_privilege ["media.*"])))]
  /\ (exists (first : string) (others unique_uris : list string),
        split "|" "/a|/b" = first :: others
        /\ Spec.uris_of_restriction
             (ToolB.append_privileges (set_order Samples.env_ok)
                ("urirestrict:" +:+ "/a|/b") ["/c"])
           = Some unique_uris
        /\ NoDup unique_uris
        /\ (forall uri, uri ∈ unique_uris
                        <-> uri = "urirestrict:" +:+ first
                            \/ uri ∈ others \/ uri ∈ ["/c"])).
Proof.
  split; [exact remove_dups_ok |]. split; [| split].
  - apply (proj2 (proj2 (proj2 (proj2
             (C6_append_keeps_the_old_prefix Faults.env_media_list remove_dups_ok))))
             Faults.append_media_list [] Faults.token_media_list); reflexivity.
  - apply (proj1 (C6_append_keeps_the_old_prefix Samples.env_ok remove_dups_ok)
             (Samples.b_args false (Some "media.*") (Some "1_abc") true)
             ["media.*"] [] Samples.token_1 "urirestrict:/a|/b"); reflexivity.
  - apply (proj1 (proj2 (C6_append_keeps_the_old_prefix Samples.env_ok remove_dups_ok))
             "/a|/b" ["/c"]).
    intros uri Huri. apply list_elem_of_singleton in Huri. by rewrite Huri.
Defined.

(** X21: reading an append back.  When no new URI contains a [|], splitting
    the string an append produced on [|] gives back the members of the set
    in the order they were joined, except that the first one now starts
    with [urirestrict:]: nothing takes the prefix off when the privileges
    are read again, so the next append keeps that member with its prefix
    and puts one more prefix in front. *)
Theorem append_read_back_keeps_prefix
    (order : list string -> list string) (sessionPrivileges : string)
    (new_uris : list string) :
  set_order_ok order ->
  (forall uri, uri ∈ new_uris -> contains_char "|" uri = false) ->
  exists (first : string) (others : list string),
    order (split "|" sessionPrivileges ++ new_uris) = first :: others
    /\ split "|" (ToolB.append_privileges order sessionPrivileges new_uris)
       = ("urirestrict:" +:+ first) :: others.
Proof.
  intros Hok Hnew. unfold ToolB.append_privileges.
  destruct (Hok (split "|" sessionPrivileges ++ new_uris)) as [_ Hin].
  assert (Hfree : forall x, x ∈ order (split "|" sessionPrivileges ++ new_uris) ->
                            contains_char "|" x = false).
  { intros x Hx. apply Hin, elem_of_app in Hx as [Hx | Hx];
      [by apply (split_pieces "|" sessionPrivileges) | by apply Hnew]. }
  assert (Hne : order (split "|" sessionPrivileges ++ new_uris) <> []).
  { pose proof (split_not_nil "|" sessionPrivileges) as Hs.
    destruct (split "|" sessionPrivileges) as [|h t] eqn:E; [done |].
    intros Hnil. assert (Hh : h ∈ order ((h :: t) ++ new_uris)) by (apply Hin; by left).
    rewrite Hnil in Hh. by apply elem_of_nil in Hh. }
  rewrite split_after by reflexivity.
  rewrite (split_join "|" _ Hne Hfree).
  destruct (order (split "|" sessionPrivileges ++ new_uris)) as [|first others]; [done |].
  by exists first, others.
Qed.

Lemma append_read_back_keeps_prefix_witness :
  exists (first : string) (others : list string),
    remove_dups (split "|" "urirestrict:/a|/b" ++ ["/c"]) = first :: others
    /\ split "|" (ToolB.append_privileges remove_dups "urirestrict:/a|/b" ["/c"])
       = ("urirestrict:" +:+ first) :: others.
Proof.
  apply (append_read_back_keeps_prefix remove_dups "urirestrict:/a|/b" ["/c"]
           remove_dups_ok).
  intros uri Huri. apply list_elem_of_singleton in Huri. by rewrite Huri.
Defined.

(** X22: appending to a token whose privileges are not a string (they are
    [None], or the list a Tool B create or plain update submits) fails
    with an [AttributeError] as soon as the token is fetched: no update
    call is made and the token is left as it was. *)
Theorem toolB_append_needs_a_string
    (env : Env) (args : ToolB.Args.t) (list_actions : option (list string))
    (tr : list event) (existing : AppToken) :
  ToolB.Args.append args = true ->
  remote env tr (appToken_get (default "" (ToolB.Args.update args))) = Ok existing ->
  (forall s : string, attr existing "sessionPrivileges" <> PStr s) ->
  ToolB.update_branch env args list_actions tr
  = (Raise (AttributeError "split"),
     tr ++ [Call (appToken_get (default "" (ToolB.Args.update args)))]).
Proof.
  intros Happ Hget Hstr. unfold ToolB.update_branch. run_step. rewrite Hget, Happ.
  destruct (attr existing "sessionPrivileges") as [[| b | z | s] | l | n]; try reflexivity.
  by destruct (Hstr s).
Qed.

Lemma toolB_append_needs_a_string_witness :
  ToolB.update_branch Faults.env_list_privileges
    (Samples.b_args false (Some "media.*") (Some "1_abc") true) (Some ["media.*"]) []
  = (Raise (AttributeError "split"), [] ++ [Call (appToken_get "1_abc")]).
Proof.
  apply (toolB_append_needs_a_string Faults.env_list_privileges
           (Samples.b_args false (Some "media.*") (Some "1_abc") true)
           (Some ["media.*"]) [] Faults.token_with_list);
    [reflexivity | reflexivity | discriminate].
Defined.

(** X23: in Tool B the list flag wins over an update id: whenever the list
    flag is set and the run is not stopped for missing actions, the run
    only lists, so an update id given together with [--list] is ignored
    and no add, update or get call is made. *)
Theorem toolB_list_wins_over_update (env : Env) (args : ToolB.Args.t) :
  ToolB.Args.list args = true ->
  truthy (of_opt_str (ToolB.Args.update args))
  && negb (truthy (of_opt_str (ToolB.Args.actions args))) = false ->
  Spec.listing_only (calls (ToolB.main env args []).2).
Proof.
  intros Hlist Hchk. unfold ToolB.main, ToolB.read_config, ToolB.list_app_tokens.
  rewrite Hlist. cbn [negb]. rewrite orb_false_r, Hchk. run_step.
  destruct (config_file env) as [| | cfg]; [by left | by left |].
  destruct (cfg !! "PARTNER_ID"); [| by left].
  destruct (cfg !! "ADMIN_SECRET"); [| by left].
  destruct (cfg !! "SCRIPT_USER_ID"); [| by left].
  destruct (cfg !! "ADMIN_SESSION_EXPIRY"); [| by left].
  destruct (cfg !! "KALTURA_SERVICE_URL"); [| by left].
  on_remote; try (right; left; autorewrite with trace; cbn; by eauto 10).
  cbn [app].
  on_remote; try (right; right; autorewrite with trace; cbn; by eauto 10).
  destruct r0 as [objects|]; [| right; right; autorewrite with trace; cbn; by eauto 10].
  rewrite print_tokens_trace. right; right. cbn [snd].
  assert (Hlines : calls (concat (Behaviour.token_lines <$> objects)) = []).
  { clear. induction objects as [|o objects IH]; [done |].
    rewrite fmap_cons. cbn [concat]. by rewrite calls_app, IH. }
  rewrite calls_app, Hlines, app_nil_r. autorewrite with trace. cbn. by eauto 10.
Qed.

Lemma toolB_list_wins_over_update_witness :
  Spec.listing_only
    (calls (ToolB.main Samples.env_ok
              (Samples.b_args true (Some "media.*") (Some "1_abc") true) []).2).
Proof.
  apply (toolB_list_wins_over_update Samples.env_ok
           (Samples.b_args true (Some "media.*") (Some "1_abc") true)); reflexivity.
Defined.

(** ** Tool A: create, then the session *)



(** ** Tool A: the listing without tokens *)

(** X25: the listing of Tool A never raises for what the platform answers:
    a page without tokens prints [No App Tokens found.] and needs no
    terminal, and a refused listing prints the platform's text after
    [Failed to list App Tokens: ]; in both cases the step ends normally
    after the one listing call. *)
Theorem toolA_listing_without_tokens (env : Env) (tr : list event) :
  (forall objects : option (list AppToken),
     remote env tr appToken_list = Ok objects ->
     objects = None \/ objects = Some [] ->
     ToolA.list_app_tokens env tr
     = (Ok tt, (tr ++ [Call appToken_list]) ++ [Print [FLit "No App Tokens found."]]))
  /\ (forall code text : string,
        remote env tr appToken_list = Raise (KalturaException code text) ->
        ToolA.list_app_tokens env tr
        = (Ok tt, (tr ++ [Call appToken_list])
                  ++ [Print [FLit "Failed to list App Tokens: "; FLit text]])).
Proof.
  unfold ToolA.list_app_tokens. run_step. split.
  - intros objects -> [-> | ->]; reflexivity.
  - intros code text ->. reflexivity.
Qed.

Lemma toolA_listing_without_tokens_witness :
  ToolA.list_app_tokens Faults.env_list_refused []
  = (Ok tt, ([] ++ [Call appToken_list])
            ++ [Print [FLit "Failed to list App Tokens: ";
                       FLit "The access to service is forbidden (SERVICE_FORBIDDEN)"]])
  /\ ToolA.list_app_tokens Faults.env_empty_page []
     = (Ok tt, ([] ++ [Call appToken_list]) ++ [Print [FLit "No App Tokens found."]]).
Proof.
  split.
  - apply (proj2 (toolA_listing_without_tokens Faults.env_list_refused [])
             "SERVICE_FORBIDDEN").
    reflexivity.
  - apply (proj1 (toolA_listing_without_tokens Faults.env_empty_page []) (Some []));
      [reflexivity | by right].
Defined.
